(** * go-har: a shallow embedding of the parsing engine and its representations

    The development follows the Go package [pkg/har]:
    - the error model ([HarError], [ErrorCode]) and the canonical data model
      ([Har], [Log], [Entries], ...);
    - the type-directed decoding that [encoding/json] performs on the
      package's struct declarations and their [json] tags;
    - validation ([ValidateHarFile], [DetectHarVersion]);
    - the entry points ([Parse], [ParseHar], [ParseHarWithOptions],
      [parseLenient]) and the functional options;
    - the compact representation ([ToOptimizedHar], [ToStandardHar]);
    - the deferred representation ([ParseHarWithLazyLoading], [Load]);
    - the streaming iterator ([Next], [Err]);
    - the provider accessors of the three representations;
    - the builder ([NewHar], [AddEntry], ...), the filter ([Filter] and the
      finders), the converter ([Convert]) and the parsing with warnings
      ([ParseHarWithWarnings]).

    Go values are modelled as follows.  A [string] is a sequence of bytes
    (Rocq's [string] of [ascii]); [int] is [Z]; [float64] is a primitive
    IEEE-754 binary64 [float]; a slice is an optional list ([None] is the
    nil slice); a pointer is an option; [map[string]string] is a
    [gmap string string]; [time.Time] is an instant counted from Go's zero
    time.  The functions of Go's standard library that the package calls on
    raw text (the JSON scanner, [time.Parse], [url.Parse]) are operations of
    the class [GoStdlib]; those that the filter and the converter call
    (regular expressions, case folding, the formats of dates and numbers,
    the CSV writer) are operations of the class [GoText]. *)

From Stdlib Require Import ZArith String Ascii List Floats Bool Lia.
From stdpp Require Import gmap strings list fin_maps.

Set Warnings "-register-all".

Open Scope Z_scope.
Open Scope string_scope.

(** ** Byte strings: the functions of Go's [strings] package in use *)

Module GoStrings.

Definition byte_of (n : N) : ascii := ascii_of_N n.
Definition code (c : ascii) : N := N_of_ascii c.

(** [asciiSpace] of the [strings] package: tab, LF, VT, FF, CR, space. *)
Definition ascii_space (c : ascii) : bool :=
  let n := code c in
  ((9 <=? n)%N && (n <=? 13)%N) || (n =? 32)%N.

(** The UTF-8 encodings of the non-ASCII runes of [unicode.IsSpace]:
    U+0085, U+00A0 (two bytes) and U+1680, U+2000..U+200A, U+2028,
    U+2029, U+202F, U+205F, U+3000 (three bytes). *)
Definition space2 (a b : ascii) : bool :=
  (code a =? 194)%N && ((code b =? 133)%N || (code b =? 160)%N).

Definition space3 (a b c : ascii) : bool :=
  let x := code a in let y := code b in let z := code c in
  ((x =? 225)%N && (y =? 154)%N && (z =? 128)%N)
  || ((x =? 226)%N && (y =? 128)%N
      && (((128 <=? z)%N && (z <=? 138)%N)
          || (z =? 168)%N || (z =? 169)%N || (z =? 175)%N))
  || ((x =? 226)%N && (y =? 129)%N && (z =? 159)%N)
  || ((x =? 227)%N && (y =? 128)%N && (z =? 128)%N).

(** Leading white space removed, rune by rune. *)
Fixpoint trimLeft (s : list ascii) : list ascii :=
  match s with
  | [] => []
  | a :: r =>
      if ascii_space a then trimLeft r
      else match r with
           | b :: r2 =>
               if space2 a b then trimLeft r2
               else match r2 with
                    | c :: r3 => if space3 a b c then trimLeft r3 else s
                    | [] => s
                    end
           | [] => s
           end
  end.

(** Trailing white space removed: the same scan on the reversed bytes,
    where the bytes of a rune arrive last byte first. *)
Fixpoint trimLeftRev (s : list ascii) : list ascii :=
  match s with
  | [] => []
  | a :: r =>
      if ascii_space a then trimLeftRev r
      else match r with
           | b :: r2 =>
               if space2 b a then trimLeftRev r2
               else match r2 with
                    | c :: r3 => if space3 c b a then trimLeftRev r3 else s
                    | [] => s
                    end
           | [] => s
           end
  end.

Definition TrimSpace (s : string) : string :=
  string_of_list_ascii
    (rev (trimLeftRev (rev (trimLeft (list_ascii_of_string s))))).

Fixpoint HasPrefix (s prefix : string) : bool :=
  match prefix, s with
  | EmptyString, _ => true
  | String p ps, String c cs => Ascii.eqb p c && HasPrefix cs ps
  | String _ _, EmptyString => false
  end.

Definition rev_string (s : string) : string :=
  string_of_list_ascii (rev (list_ascii_of_string s)).

Definition HasSuffix (s suffix : string) : bool :=
  HasPrefix (rev_string s) (rev_string suffix).

(** [strings.Contains]. *)
Fixpoint Contains (s sub : string) : bool :=
  HasPrefix s sub ||
  match s with
  | EmptyString => false
  | String _ r => Contains r sub
  end.

Definition upper_ascii (c : ascii) : ascii :=
  let n := code c in
  if (97 <=? n)%N && (n <=? 122)%N then byte_of (n - 32) else c.

(** [strings.ToUpper].  Besides the ASCII letters, the two non-ASCII
    runes whose upper case is an ASCII letter are mapped: U+0131 (bytes
    C4 B1) to [I] and U+017F (bytes C5 BF) to [S].  The other non-ASCII
    bytes are kept: their upper case is never ASCII, which is all that a
    comparison with an ASCII word can observe. *)
Fixpoint ToUpper (s : string) : string :=
  match s with
  | EmptyString => EmptyString
  | String a r =>
      match r with
      | String b r2 =>
          if (code a =? 196)%N && (code b =? 177)%N then String "I" (ToUpper r2)
          else if (code a =? 197)%N && (code b =? 191)%N then String "S" (ToUpper r2)
          else String (upper_ascii a) (ToUpper r)
      | EmptyString => String (upper_ascii a) EmptyString
      end
  end.

(** The name folding of [encoding/json] for struct-field lookup: ASCII
    letters to upper case, U+017F (C5 BF) to [S] and the Kelvin sign
    U+212A (E2 84 AA) to [K]. *)
Fixpoint foldName (s : string) : string :=
  match s with
  | EmptyString => EmptyString
  | String a r =>
      match r with
      | String b r2 =>
          if (code a =? 197)%N && (code b =? 191)%N then String "S" (foldName r2)
          else match r2 with
               | String c r3 =>
                   if (code a =? 226)%N && (code b =? 132)%N && (code c =? 170)%N
                   then String "K" (foldName r3)
                   else String (upper_ascii a) (foldName r)
               | EmptyString => String (upper_ascii a) (foldName r)
               end
      | EmptyString => String (upper_ascii a) EmptyString
      end
  end.

(** Decimal rendering of [%d]. *)
Fixpoint digits (fuel : nat) (n : N) (acc : string) : string :=
  match fuel with
  | O => acc
  | S f =>
      let d := byte_of (48 + n mod 10) in
      if (n <? 10)%N then String d acc else digits f (n / 10)%N (String d acc)
  end.

Definition itoa (z : Z) : string :=
  match z with
  | Z0 => "0"
  | Zpos p => digits (S (Pos.to_nat p)) (Npos p) EmptyString
  | Zneg p => String "-" (digits (S (Pos.to_nat p)) (Npos p) EmptyString)
  end.

End GoStrings.

Import GoStrings.

(** ** JSON documents

    The syntax tree that the scanner of [encoding/json] recognises.  An
    object keeps its members in document order, duplicates included.  A
    number is kept through the two readings the decoder takes of its
    literal: [strconv.ParseInt] ([None] when the literal has a fraction or
    an exponent, or does not fit 64 bits) and [strconv.ParseFloat]
    (infinite when the literal is out of range). *)

Inductive json : Type :=
| JNull
| JBool (b : bool)
| JNum (asInt : option Z) (asFloat : float)
| JStr (s : string)
| JArr (elements : list json)
| JObj (members : list (string * json)).

(** The tokens of [json.Decoder.Token]: delimiters, and the scalar values;
    commas and colons are consumed silently by the decoder. *)
Inductive token : Type :=
| TDelim (c : ascii)
| TNull
| TBool (b : bool)
| TNum (asInt : option Z) (asFloat : float)
| TStr (s : string).

Fixpoint tokens (j : json) : list token :=
  match j with
  | JNull => [TNull]
  | JBool b => [TBool b]
  | JNum i f => [TNum i f]
  | JStr s => [TStr s]
  | JArr l => TDelim "[" :: flat_map tokens l ++ [TDelim "]"]
  | JObj ms =>
      TDelim "{" :: flat_map (fun kv => TStr (fst kv) :: tokens (snd kv)) ms
        ++ [TDelim "}"]
  end.

(** ** Go values *)

Definition slice (A : Type) : Type := option (list A).

Definition elems {A} (s : slice A) : list A :=
  match s with Some l => l | None => [] end.

Definition len {A} (s : slice A) : Z := Z.of_nat (length (elems s)).

(** [time.Time]: the instant, in nanoseconds since Go's zero time
    (January 1, year 1, 00:00:00 UTC). *)
Definition Time : Type := Z.
Definition Time_zero : Time := 0.
Definition IsZero (t : Time) : bool := Z.eqb t 0.

(** [interface{}] holding a decoded JSON value; [JNull] is the nil
    interface. *)
Definition any : Type := json.

Definition float_zero : float := 0%float.
Definition float_minus_one : float := (-1)%float.

(** Go's [x != 0] and [x < 0] on [float64]. *)
Definition fnonzero (x : float) : bool := negb (PrimFloat.eqb x 0%float).
Definition fneg (x : float) : bool := PrimFloat.ltb x 0%float.

(** What the standard library does on raw text. *)
Class GoStdlib : Type := {
  (** the scanner of [encoding/json]: the syntax tree of the text, [None]
      on a syntax error; *)
  json_scan : string -> option json;
  (** [time.Parse(time.RFC3339, s)], [None] on a parse error; *)
  time_Parse : string -> option Time;
  (** [url.Parse]: [None] when the URL parses, else the error's text. *)
  url_Parse : string -> option string
}.

(** ** The error model (errors.go) *)

Inductive ErrorCode : Type :=
| ErrCodeUnknown
| ErrCodeFileSystem
| ErrCodeJSONParse
| ErrCodeInvalidFormat
| ErrCodeValidation
| ErrCodeMissingField
| ErrCodeInvalidValue
| ErrCodeUnsupported.

(** The [error] values of other packages that the code stores or tests. *)
Inductive GoError : Type :=
| json_UnmarshalError      (* an error of json.Unmarshal or Decoder.Decode *)
| json_SyntaxError         (* the text is not JSON *)
| io_EOF                   (* the decoder reached the end of its input *)
| fmt_Errorf (format : string) (args : list token).   (* the format and its arguments *)

Inductive MetaValue : Type :=
| MetaInt (z : Z)
| MetaString (s : string).

Inductive HarError : Type :=
  mkHarError {
    Code : ErrorCode;
    Message : string;
    Err : option GoError;
    Field : string;
    Metadata : list (string * MetaValue);
    PartialErrors : list HarError
  }.

Definition WithField (e : HarError) (field : string) : HarError :=
  mkHarError (Code e) (Message e) (Err e)
    (if String.eqb (Field e) "" then field else field ++ "." ++ Field e)
    (Metadata e) (PartialErrors e).

Fixpoint meta_put (key : string) (value : MetaValue)
    (m : list (string * MetaValue)) : list (string * MetaValue) :=
  match m with
  | [] => [(key, value)]
  | (k, v) :: r =>
      if String.eqb k key then (k, value) :: r else (k, v) :: meta_put key value r
  end.

Definition WithMetadata (e : HarError) (key : string) (value : MetaValue)
  : HarError :=
  mkHarError (Code e) (Message e) (Err e) (Field e)
    (meta_put key value (Metadata e)) (PartialErrors e).

Definition AddPartialError (e err : HarError) : HarError :=
  mkHarError (Code e) (Message e) (Err e) (Field e) (Metadata e)
    (PartialErrors e ++ [err]).

Definition HasPartialErrors (e : HarError) : bool :=
  Z.ltb 0 (Z.of_nat (length (PartialErrors e))).

Definition GetPartialErrors (e : HarError) : list HarError := PartialErrors e.
Definition GetCode (e : HarError) : ErrorCode := Code e.

Definition NewHarError (code : ErrorCode) (message : string)
    (err : option GoError) : HarError :=
  mkHarError code message err "" [] [].

Definition NewFileSystemError (message : string) (err : option GoError) :=
  NewHarError ErrCodeFileSystem message err.

Definition NewJSONParseError (message : string) (err : option GoError) :=
  NewHarError ErrCodeJSONParse message err.

(** [WrapJSONUnmarshalError]: every branch builds a JSON-parse error around
    the cause.  The message, field and offset that the source copies out of
    the library's error value are details of that value; the model keeps
    the code and the cause. *)
Definition WrapJSONUnmarshalError (err : GoError) : HarError :=
  NewJSONParseError "JSON解析错误" (Some err).

Definition NewValidationError (message field : string) : HarError :=
  WithField (NewHarError ErrCodeValidation message None) field.

Definition NewInvalidFormatError (message : string) : HarError :=
  NewHarError ErrCodeInvalidFormat message None.

Definition NewMissingFieldError (field : string) : HarError :=
  WithField (NewHarError ErrCodeMissingField "必需字段缺失" None) field.

Definition NewInvalidValueError (field : string) (value : MetaValue)
    (reason : string) : HarError :=
  let msg := "字段值无效" in
  let msg := if String.eqb reason "" then msg else msg ++ ": " ++ reason in
  WithMetadata (WithField (NewHarError ErrCodeInvalidValue msg None) field)
    "value" value.

Definition NewUnsupportedError (message : string) : HarError :=
  NewHarError ErrCodeUnsupported message None.

(** [ParseOptions] and its defaults. *)
Record ParseOptions : Type := mkParseOptions {
  Lenient : bool;
  SkipValidation : bool;
  CollectWarnings : bool;
  MaxWarnings : Z
}.

Definition DefaultParseOptions : ParseOptions :=
  mkParseOptions false false false 100.

(** ** The canonical data model (har.go) *)

Record Creator : Type := mkCreator {
  Creator_Name : string;
  Creator_Version : string
}.

Record PageTimings : Type := mkPageTimings {
  PageTimings_OnContentLoad : float;
  PageTimings_OnLoad : float;
  PageTimings_Comment : string
}.

Record Pages : Type := mkPages {
  Pages_StartedDateTime : Time;
  Pages_ID : string;
  Pages_Title : string;
  Pages_PageTimings : PageTimings
}.

Record Headers : Type := mkHeaders {
  Headers_Name : string;
  Headers_Value : string
}.

Record Cookie : Type := mkCookie {
  Cookie_Name : string;
  Cookie_Value : string;
  Cookie_Path : string;
  Cookie_Domain : string;
  Cookie_Expires : Time;
  Cookie_HTTPOnly : bool;
  Cookie_Secure : bool;
  Cookie_SameSite : string
}.

Record Content : Type := mkContent {
  Content_Size : Z;
  Content_MimeType : string;
  Content_Text : string;
  Content_Encoding : string
}.

Record Request : Type := mkRequest {
  Request_Method : string;
  Request_URL : string;
  Request_HTTPVersion : string;
  Request_Cookies : slice Cookie;
  Request_Headers : slice Headers;
  Request_QueryString : slice Headers;
  Request_PostData : any;
  Request_HeadersSize : Z;
  Request_BodySize : Z
}.

Record Response : Type := mkResponse {
  Response_Status : Z;
  Response_StatusText : string;
  Response_HTTPVersion : string;
  Response_Cookies : slice Cookie;
  Response_Headers : slice Headers;
  Response_Content : Content;
  Response_RedirectURL : string;
  Response_HeadersSize : Z;
  Response_BodySize : Z;
  Response_TransferSize : Z;
  Response_Error : any
}.

(** [BeforeRequest] and [AfterRequest] have the same fields. *)
Record BeforeRequest : Type := mkBeforeRequest {
  BeforeRequest_Expires : Time;
  BeforeRequest_LastAccess : Time;
  BeforeRequest_ETag : string;
  BeforeRequest_HitCount : Z;
  BeforeRequest_Comment : string
}.

Record AfterRequest : Type := mkAfterRequest {
  AfterRequest_Expires : Time;
  AfterRequest_LastAccess : Time;
  AfterRequest_ETag : string;
  AfterRequest_HitCount : Z;
  AfterRequest_Comment : string
}.

Record Cache : Type := mkCache {
  Cache_BeforeRequest : option BeforeRequest;
  Cache_AfterRequest : option AfterRequest;
  Cache_Comment : string
}.

Record Timings : Type := mkTimings {
  Timings_Blocked : float;
  Timings_DNS : float;
  Timings_Connect : float;
  Timings_Ssl : float;
  Timings_Send : float;
  Timings_Wait : float;
  Timings_Receive : float;
  Timings_BlockedQueueing : float;
  Timings_BlockedProxy : float
}.

Record CallFrame : Type := mkCallFrame {
  CallFrame_FunctionName : string;
  CallFrame_ScriptID : string;
  CallFrame_URL : string;
  CallFrame_LineNumber : Z;
  CallFrame_ColumnNumber : Z
}.

Record ParentID : Type := mkParentID {
  ParentID_ID : string;
  ParentID_DebuggerID : string
}.

Inductive Parent : Type :=
  mkParent {
    Parent_Parent : option Parent;
    Parent_Description : string;
    Parent_CallFrames : slice CallFrame;
    Parent_ParentID : ParentID
  }.

Record Stack : Type := mkStack {
  Stack_CallFrames : slice CallFrame;
  Stack_Parent : Parent
}.

Record Initiator : Type := mkInitiator {
  Initiator_Type : string;
  Initiator_URL : string;
  Initiator_LineNumber : Z;
  Initiator_Stack : Stack
}.

Record Entries : Type := mkEntries {
  Entries_StartedDateTime : Time;
  Entries_Time : float;
  Entries_Request : Request;
  Entries_Response : Response;
  Entries_Cache : Cache;
  Entries_Timings : Timings;
  Entries_Pageref : string;
  Entries_ServerIPAddress : string;
  Entries_Connection : string;
  Entries_Initiator : Initiator;
  Entries_Priority : string;
  Entries_ResourceType : string
}.

Record Log : Type := mkLog {
  Log_Version : string;
  Log_Creator : Creator;
  Log_Pages : slice Pages;
  Log_Entries : slice Entries
}.

Record Har : Type := mkHar {
  Har_Log : Log
}.

(** The zero values of the struct types. *)
Definition zero_Creator : Creator := mkCreator "" "".
Definition zero_PageTimings : PageTimings := mkPageTimings 0 0 "".
Definition zero_Pages : Pages := mkPages Time_zero "" "" zero_PageTimings.
Definition zero_Headers : Headers := mkHeaders "" "".
Definition zero_Cookie : Cookie :=
  mkCookie "" "" "" "" Time_zero false false "".
Definition zero_Content : Content := mkContent 0 "" "" "".
Definition zero_Request : Request :=
  mkRequest "" "" "" None None None JNull 0 0.
Definition zero_Response : Response :=
  mkResponse 0 "" "" None None zero_Content "" 0 0 0 JNull.
Definition zero_BeforeRequest : BeforeRequest :=
  mkBeforeRequest Time_zero Time_zero "" 0 "".
Definition zero_AfterRequest : AfterRequest :=
  mkAfterRequest Time_zero Time_zero "" 0 "".
Definition zero_Cache : Cache := mkCache None None "".
Definition zero_Timings : Timings := mkTimings 0 0 0 0 0 0 0 0 0.
Definition zero_CallFrame : CallFrame := mkCallFrame "" "" "" 0 0.
Definition zero_ParentID : ParentID := mkParentID "" "".
Definition zero_Parent : Parent := mkParent None "" None zero_ParentID.
Definition zero_Stack : Stack := mkStack None zero_Parent.
Definition zero_Initiator : Initiator := mkInitiator "" "" 0 zero_Stack.
Definition zero_Entries : Entries :=
  mkEntries Time_zero 0 zero_Request zero_Response zero_Cache zero_Timings
    "" "" "" zero_Initiator "" "".
Definition zero_Log : Log := mkLog "" zero_Creator None None.
Definition zero_Har : Har := mkHar zero_Log.

(** ** Decoding JSON into the struct types

    [json.Unmarshal] is driven by the struct declarations and their [json]
    tags.  A decoder takes the JSON value and the Go value being decoded
    into, and returns the updated value, or [None] where the library reports
    an error (a value of the wrong JSON kind, a number that does not fit the
    field, a time that does not parse).  [null] leaves scalars and structs
    as they are and resets slices, pointers and interfaces to nil.  A key
    selects the field whose tag it equals up to [foldName]; unknown keys are
    skipped; a key that occurs again is decoded into the same field again. *)

Definition key_is (name key : string) : bool :=
  String.eqb (foldName key) (foldName name).

Definition unmarshal_string (j : json) (old : string) : option string :=
  match j with
  | JNull => Some old
  | JStr s => Some s
  | _ => None
  end.

Definition int_ok (z : Z) : bool :=
  Z.leb (- 2 ^ 63) z && Z.ltb z (2 ^ 63).

Definition unmarshal_int (j : json) (old : Z) : option Z :=
  match j with
  | JNull => Some old
  | JNum (Some z) _ => if int_ok z then Some z else None
  | _ => None
  end.

Definition unmarshal_float64 (j : json) (old : float) : option float :=
  match j with
  | JNull => Some old
  | JNum _ f => if PrimFloat.is_infinity f then None else Some f
  | _ => None
  end.

Definition unmarshal_bool (j : json) (old : bool) : option bool :=
  match j with
  | JNull => Some old
  | JBool b => Some b
  | _ => None
  end.

(** Every number below an [interface{}] is read as a [float64]. *)
Fixpoint any_ok (j : json) : bool :=
  match j with
  | JNum _ f => negb (PrimFloat.is_infinity f)
  | JArr l => forallb any_ok l
  | JObj ms => forallb (fun kv => any_ok (snd kv)) ms
  | _ => true
  end.

Definition unmarshal_any (j : json) (old : any) : option any :=
  if any_ok j then Some j else None.

(** The members that select the field [name], decoded in document order. *)
Definition field {A} (dec : json -> A -> option A) (name : string)
    (ms : list (string * json)) (old : A) : option A :=
  fold_left
    (fun acc kv =>
       if key_is name (fst kv)
       then match acc with Some x => dec (snd kv) x | None => None end
       else acc)
    ms (Some old).

(** An array is decoded element by element, into the elements the slice
    already has and into zero values beyond them. *)
Fixpoint array_into {A} (dec : json -> A -> option A) (zero : A)
    (l : list json) (old : list A) : option (list A) :=
  match l with
  | [] => Some []
  | j :: l' =>
      match dec j (hd zero old) with
      | Some x =>
          match array_into dec zero l' (tl old) with
          | Some xs => Some (x :: xs)
          | None => None
          end
      | None => None
      end
  end.

Definition unmarshal_slice {A} (dec : json -> A -> option A) (zero : A)
    (j : json) (old : slice A) : option (slice A) :=
  match j with
  | JNull => Some None
  | JArr l =>
      match array_into dec zero l (elems old) with
      | Some xs => Some (Some xs)
      | None => None
      end
  | _ => None
  end.

Definition unmarshal_ptr {A} (dec : json -> A -> option A) (zero : A)
    (j : json) (old : option A) : option (option A) :=
  match j with
  | JNull => Some None
  | _ =>
      match dec j (match old with Some x => x | None => zero end) with
      | Some x => Some (Some x)
      | None => None
      end
  end.

(** A struct: [null] is skipped, an object is decoded by [fields], any
    other value is an error. *)
Definition unmarshal_struct {A} (fields : list (string * json) -> A -> option A)
    (j : json) (old : A) : option A :=
  match j with
  | JNull => Some old
  | JObj ms => fields ms old
  | _ => None
  end.

Section Decoders.

Context `{!GoStdlib}.

(** [time.Time] decodes itself from a JSON string in RFC 3339. *)
Definition unmarshal_Time (j : json) (old : Time) : option Time :=
  match j with
  | JNull => Some old
  | JStr s => time_Parse s
  | _ => None
  end.

Definition unmarshal_Creator : json -> Creator -> option Creator :=
  unmarshal_struct (fun ms c =>
    n ← field unmarshal_string "name" ms (Creator_Name c);
    v ← field unmarshal_string "version" ms (Creator_Version c);
    Some (mkCreator n v)).

Definition unmarshal_PageTimings : json -> PageTimings -> option PageTimings :=
  unmarshal_struct (fun ms p =>
    a ← field unmarshal_float64 "onContentLoad" ms (PageTimings_OnContentLoad p);
    b ← field unmarshal_float64 "onLoad" ms (PageTimings_OnLoad p);
    c ← field unmarshal_string "comment" ms (PageTimings_Comment p);
    Some (mkPageTimings a b c)).

Definition unmarshal_Pages : json -> Pages -> option Pages :=
  unmarshal_struct (fun ms p =>
    a ← field unmarshal_Time "startedDateTime" ms (Pages_StartedDateTime p);
    b ← field unmarshal_string "id" ms (Pages_ID p);
    c ← field unmarshal_string "title" ms (Pages_Title p);
    d ← field unmarshal_PageTimings "pageTimings" ms (Pages_PageTimings p);
    Some (mkPages a b c d)).

Definition unmarshal_Headers : json -> Headers -> option Headers :=
  unmarshal_struct (fun ms h =>
    n ← field unmarshal_string "name" ms (Headers_Name h);
    v ← field unmarshal_string "value" ms (Headers_Value h);
    Some (mkHeaders n v)).

Definition unmarshal_Cookie : json -> Cookie -> option Cookie :=
  unmarshal_struct (fun ms c =>
    a ← field unmarshal_string "name" ms (Cookie_Name c);
    b ← field unmarshal_string "value" ms (Cookie_Value c);
    p ← field unmarshal_string "path" ms (Cookie_Path c);
    d ← field unmarshal_string "domain" ms (Cookie_Domain c);
    e ← field unmarshal_Time "expires" ms (Cookie_Expires c);
    h ← field unmarshal_bool "httpOnly" ms (Cookie_HTTPOnly c);
    s ← field unmarshal_bool "secure" ms (Cookie_Secure c);
    m ← field unmarshal_string "sameSite" ms (Cookie_SameSite c);
    Some (mkCookie a b p d e h s m)).

Definition unmarshal_Content : json -> Content -> option Content :=
  unmarshal_struct (fun ms c =>
    a ← field unmarshal_int "size" ms (Content_Size c);
    b ← field unmarshal_string "mimeType" ms (Content_MimeType c);
    t ← field unmarshal_string "text" ms (Content_Text c);
    e ← field unmarshal_string "encoding" ms (Content_Encoding c);
    Some (mkContent a b t e)).

Definition unmarshal_Request : json -> Request -> option Request :=
  unmarshal_struct (fun ms r =>
    a ← field unmarshal_string "method" ms (Request_Method r);
    b ← field unmarshal_string "url" ms (Request_URL r);
    c ← field unmarshal_string "httpVersion" ms (Request_HTTPVersion r);
    d ← field (unmarshal_slice unmarshal_Cookie zero_Cookie) "cookies" ms
          (Request_Cookies r);
    e ← field (unmarshal_slice unmarshal_Headers zero_Headers) "headers" ms
          (Request_Headers r);
    f ← field (unmarshal_slice unmarshal_Headers zero_Headers) "queryString" ms
          (Request_QueryString r);
    g ← field unmarshal_any "postData" ms (Request_PostData r);
    h ← field unmarshal_int "headersSize" ms (Request_HeadersSize r);
    i ← field unmarshal_int "bodySize" ms (Request_BodySize r);
    Some (mkRequest a b c d e f g h i)).

Definition unmarshal_Response : json -> Response -> option Response :=
  unmarshal_struct (fun ms r =>
    a ← field unmarshal_int "status" ms (Response_Status r);
    b ← field unmarshal_string "statusText" ms (Response_StatusText r);
    c ← field unmarshal_string "httpVersion" ms (Response_HTTPVersion r);
    d ← field (unmarshal_slice unmarshal_Cookie zero_Cookie) "cookies" ms
          (Response_Cookies r);
    e ← field (unmarshal_slice unmarshal_Headers zero_Headers) "headers" ms
          (Response_Headers r);
    f ← field unmarshal_Content "content" ms (Response_Content r);
    g ← field unmarshal_string "redirectURL" ms (Response_RedirectURL r);
    h ← field unmarshal_int "headersSize" ms (Response_HeadersSize r);
    i ← field unmarshal_int "bodySize" ms (Response_BodySize r);
    k ← field unmarshal_int "_transferSize" ms (Response_TransferSize r);
    l ← field unmarshal_any "_error" ms (Response_Error r);
    Some (mkResponse a b c d e f g h i k l)).

Definition unmarshal_BeforeRequest
  : json -> BeforeRequest -> option BeforeRequest :=
  unmarshal_struct (fun ms b =>
    a ← field unmarshal_Time "expires" ms (BeforeRequest_Expires b);
    l ← field unmarshal_Time "lastAccess" ms (BeforeRequest_LastAccess b);
    e ← field unmarshal_string "eTag" ms (BeforeRequest_ETag b);
    h ← field unmarshal_int "hitCount" ms (BeforeRequest_HitCount b);
    c ← field unmarshal_string "comment" ms (BeforeRequest_Comment b);
    Some (mkBeforeRequest a l e h c)).

Definition unmarshal_AfterRequest
  : json -> AfterRequest -> option AfterRequest :=
  unmarshal_struct (fun ms b =>
    a ← field unmarshal_Time "expires" ms (AfterRequest_Expires b);
    l ← field unmarshal_Time "lastAccess" ms (AfterRequest_LastAccess b);
    e ← field unmarshal_string "eTag" ms (AfterRequest_ETag b);
    h ← field unmarshal_int "hitCount" ms (AfterRequest_HitCount b);
    c ← field unmarshal_string "comment" ms (AfterRequest_Comment b);
    Some (mkAfterRequest a l e h c)).

Definition unmarshal_Cache : json -> Cache -> option Cache :=
  unmarshal_struct (fun ms c =>
    a ← field (unmarshal_ptr unmarshal_BeforeRequest zero_BeforeRequest)
          "beforeRequest" ms (Cache_BeforeRequest c);
    b ← field (unmarshal_ptr unmarshal_AfterRequest zero_AfterRequest)
          "afterRequest" ms (Cache_AfterRequest c);
    m ← field unmarshal_string "comment" ms (Cache_Comment c);
    Some (mkCache a b m)).

Definition unmarshal_Timings : json -> Timings -> option Timings :=
  unmarshal_struct (fun ms t =>
    a ← field unmarshal_float64 "blocked" ms (Timings_Blocked t);
    b ← field unmarshal_float64 "dns" ms (Timings_DNS t);
    c ← field unmarshal_float64 "connect" ms (Timings_Connect t);
    d ← field unmarshal_float64 "ssl" ms (Timings_Ssl t);
    e ← field unmarshal_float64 "send" ms (Timings_Send t);
    f ← field unmarshal_float64 "wait" ms (Timings_Wait t);
    g ← field unmarshal_float64 "receive" ms (Timings_Receive t);
    h ← field unmarshal_float64 "_blocked_queueing" ms (Timings_BlockedQueueing t);
    i ← field unmarshal_float64 "_blocked_proxy" ms (Timings_BlockedProxy t);
    Some (mkTimings a b c d e f g h i)).

Definition unmarshal_CallFrame : json -> CallFrame -> option CallFrame :=
  unmarshal_struct (fun ms c =>
    a ← field unmarshal_string "functionName" ms (CallFrame_FunctionName c);
    b ← field unmarshal_string "scriptId" ms (CallFrame_ScriptID c);
    u ← field unmarshal_string "url" ms (CallFrame_URL c);
    l ← field unmarshal_int "lineNumber" ms (CallFrame_LineNumber c);
    n ← field unmarshal_int "columnNumber" ms (CallFrame_ColumnNumber c);
    Some (mkCallFrame a b u l n)).

Definition unmarshal_ParentID : json -> ParentID -> option ParentID :=
  unmarshal_struct (fun ms p =>
    a ← field unmarshal_string "id" ms (ParentID_ID p);
    b ← field unmarshal_string "debuggerId" ms (ParentID_DebuggerID p);
    Some (mkParentID a b)).

Fixpoint unmarshal_Parent (j : json) (p : Parent) {struct j} : option Parent :=
  match j with
  | JNull => Some p
  | JObj ms =>
      a ← field (unmarshal_ptr unmarshal_Parent zero_Parent) "parent" ms
            (Parent_Parent p);
      b ← field unmarshal_string "description" ms (Parent_Description p);
      c ← field (unmarshal_slice unmarshal_CallFrame zero_CallFrame)
            "callFrames" ms (Parent_CallFrames p);
      d ← field unmarshal_ParentID "parentId" ms (Parent_ParentID p);
      Some (mkParent a b c d)
  | _ => None
  end.

Definition unmarshal_Stack : json -> Stack -> option Stack :=
  unmarshal_struct (fun ms s =>
    a ← field (unmarshal_slice unmarshal_CallFrame zero_CallFrame)
          "callFrames" ms (Stack_CallFrames s);
    b ← field unmarshal_Parent "parent" ms (Stack_Parent s);
    Some (mkStack a b)).

Definition unmarshal_Initiator : json -> Initiator -> option Initiator :=
  unmarshal_struct (fun ms i =>
    a ← field unmarshal_string "type" ms (Initiator_Type i);
    b ← field unmarshal_string "url" ms (Initiator_URL i);
    c ← field unmarshal_int "lineNumber" ms (Initiator_LineNumber i);
    d ← field unmarshal_Stack "stack" ms (Initiator_Stack i);
    Some (mkInitiator a b c d)).

Definition unmarshal_Entries : json -> Entries -> option Entries :=
  unmarshal_struct (fun ms e =>
    a ← field unmarshal_Time "startedDateTime" ms (Entries_StartedDateTime e);
    b ← field unmarshal_float64 "time" ms (Entries_Time e);
    c ← field unmarshal_Request "request" ms (Entries_Request e);
    d ← field unmarshal_Response "response" ms (Entries_Response e);
    f ← field unmarshal_Cache "cache" ms (Entries_Cache e);
    g ← field unmarshal_Timings "timings" ms (Entries_Timings e);
    h ← field unmarshal_string "pageref" ms (Entries_Pageref e);
    i ← field unmarshal_string "serverIPAddress" ms (Entries_ServerIPAddress e);
    k ← field unmarshal_string "connection" ms (Entries_Connection e);
    l ← field unmarshal_Initiator "_initiator" ms (Entries_Initiator e);
    m ← field unmarshal_string "_priority" ms (Entries_Priority e);
    n ← field unmarshal_string "_resourceType" ms (Entries_ResourceType e);
    Some (mkEntries a b c d f g h i k l m n)).

Definition unmarshal_Log : json -> Log -> option Log :=
  unmarshal_struct (fun ms l =>
    a ← field unmarshal_string "version" ms (Log_Version l);
    b ← field unmarshal_Creator "creator" ms (Log_Creator l);
    c ← field (unmarshal_slice unmarshal_Pages zero_Pages) "pages" ms
          (Log_Pages l);
    d ← field (unmarshal_slice unmarshal_Entries zero_Entries) "entries" ms
          (Log_Entries l);
    Some (mkLog a b c d)).

Definition unmarshal_Har : json -> Har -> option Har :=
  unmarshal_struct (fun ms h =>
    a ← field unmarshal_Log "log" ms (Har_Log h);
    Some (mkHar a)).

(** [json.Unmarshal(data, &v)]: scan, then decode into [v]. *)
Definition json_Unmarshal {A} (dec : json -> A -> option A)
    (data : string) (v : A) : GoError + A :=
  match json_scan data with
  | None => inl json_SyntaxError
  | Some j =>
      match dec j v with
      | Some x => inr x
      | None => inl json_UnmarshalError
      end
  end.

End Decoders.

(** ** Validation (validator.go)

    The root error is a pointer that the checks append to; here every check
    takes the root error and returns it with its partial errors added. *)

Definition HarSpecVersion11 : string := "1.1".
Definition HarSpecVersion12 : string := "1.2".
Definition HarSpecVersion13 : string := "1.3".

Definition IsValidHarVersion (version : string) : bool :=
  String.eqb version HarSpecVersion11
  || String.eqb version HarSpecVersion12
  || String.eqb version HarSpecVersion13.

Definition DetectHarVersion (har : option Har) : string :=
  match har with
  | None => HarSpecVersion12
  | Some h =>
      if String.eqb (Log_Version (Har_Log h)) "" then HarSpecVersion12
      else
        let version := TrimSpace (Log_Version (Har_Log h)) in
        if IsValidHarVersion version then version
        else if HasPrefix version "1.1" then HarSpecVersion11
        else if HasPrefix version "1.2" then HarSpecVersion12
        else if HasPrefix version "1.3" then HarSpecVersion13
        else HarSpecVersion12
  end.

(** [for i, x := range xs]: the body is folded over the elements with
    their indices. *)
Fixpoint range_from {A S} (body : Z -> A -> S -> S) (i : Z) (xs : list A)
    (s : S) : S :=
  match xs with
  | [] => s
  | x :: r => range_from body (i + 1) r (body i x s)
  end.

Definition range {A S} (body : Z -> A -> S -> S) (xs : slice A) (s : S) : S :=
  range_from body 0 (elems xs) s.

(** [fmt.Sprintf("%s[%d]", path, i)]. *)
Definition indexed (path : string) (i : Z) : string :=
  path ++ "[" ++ itoa i ++ "]".

(** [validateBasicStructure] returns the root error itself when it has
    partial errors: the pair is the root error after the checks and the
    returned [error]. *)
Definition validateBasicStructure (har : Har) (rootError : HarError)
  : HarError * option HarError :=
  let rootError :=
    if String.eqb (Log_Version (Har_Log har)) ""
    then AddPartialError rootError (NewMissingFieldError "log.version")
    else rootError in
  let rootError :=
    if String.eqb (Creator_Name (Log_Creator (Har_Log har))) ""
    then AddPartialError rootError (NewMissingFieldError "log.creator.name")
    else rootError in
  let rootError :=
    if String.eqb (Creator_Version (Log_Creator (Har_Log har))) ""
    then AddPartialError rootError (NewMissingFieldError "log.creator.version")
    else rootError in
  let rootError :=
    match Log_Entries (Har_Log har) with
    | None => AddPartialError rootError (NewMissingFieldError "log.entries")
    | Some _ => rootError
    end in
  if HasPartialErrors rootError then (rootError, Some rootError)
  else (rootError, None).

Definition validateHarV11 (har : Har) (rootError : HarError) : HarError :=
  rootError.
Definition validateHarV12 (har : Har) (rootError : HarError) : HarError :=
  rootError.
Definition validateHarV13 (har : Har) (rootError : HarError) : HarError :=
  rootError.

Definition validateHeaders (headers : slice Headers) (fieldPath : string)
    (rootError : HarError) : HarError :=
  range (fun i header rootError =>
           let headerPath := indexed fieldPath i in
           if String.eqb (Headers_Name header) ""
           then AddPartialError rootError
                  (NewValidationError "HTTP头必须有名称" (headerPath ++ ".name"))
           else rootError)
    headers rootError.

Definition validateCookies (cookies : slice Cookie) (fieldPath : string)
    (rootError : HarError) : HarError :=
  range (fun i cookie rootError =>
           let cookiePath := indexed fieldPath i in
           if String.eqb (Cookie_Name cookie) ""
           then AddPartialError rootError
                  (NewValidationError "Cookie必须有名称" (cookiePath ++ ".name"))
           else rootError)
    cookies rootError.

Definition validateContent (content : Content) (fieldPath : string)
    (rootError : HarError) : HarError :=
  if String.eqb (Content_MimeType content) ""
  then AddPartialError rootError
         (NewValidationError "内容必须有MIME类型" (fieldPath ++ ".mimeType"))
  else rootError.

Definition validateTimings (timings : Timings) (fieldPath : string)
    (rootError : HarError) : HarError :=
  let rootError :=
    if fneg (Timings_Wait timings)
    then AddPartialError rootError
           (NewValidationError "等待时间不能为负" (fieldPath ++ ".wait"))
    else rootError in
  if fneg (Timings_Receive timings)
  then AddPartialError rootError
         (NewValidationError "接收时间不能为负" (fieldPath ++ ".receive"))
  else rootError.

Definition validatePageTimings (timings : PageTimings) (fieldPath : string)
    (rootError : HarError) : HarError :=
  rootError.

Definition validatePages (pages : slice Pages) (rootError : HarError)
  : HarError :=
  range (fun i page rootError =>
           let pagePath := indexed "log.pages" i in
           let rootError :=
             if String.eqb (Pages_ID page) ""
             then AddPartialError rootError
                    (NewValidationError "页面必须有ID" (pagePath ++ ".id"))
             else rootError in
           let rootError :=
             if IsZero (Pages_StartedDateTime page)
             then AddPartialError rootError
                    (NewValidationError "页面必须有开始时间"
                       (pagePath ++ ".startedDateTime"))
             else rootError in
           validatePageTimings (Pages_PageTimings page)
             (pagePath ++ ".pageTimings") rootError)
    pages rootError.

Section Validator.

Context `{!GoStdlib}.

Definition validateRequest (req : Request) (fieldPath : string)
    (rootError : HarError) : HarError :=
  let rootError :=
    if String.eqb (Request_Method req) ""
    then AddPartialError rootError
           (NewValidationError "HTTP请求必须有方法" (fieldPath ++ ".method"))
    else rootError in
  let rootError :=
    if String.eqb (Request_URL req) ""
    then AddPartialError rootError
           (NewValidationError "HTTP请求必须有URL" (fieldPath ++ ".url"))
    else
      match url_Parse (Request_URL req) with
      | Some err =>
          AddPartialError rootError
            (NewValidationError ("无效的URL格式: " ++ err) (fieldPath ++ ".url"))
      | None => rootError
      end in
  let rootError :=
    if String.eqb (Request_HTTPVersion req) ""
    then AddPartialError rootError
           (NewValidationError "HTTP请求必须有版本" (fieldPath ++ ".httpVersion"))
    else rootError in
  let rootError :=
    validateHeaders (Request_Headers req) (fieldPath ++ ".headers") rootError in
  validateCookies (Request_Cookies req) (fieldPath ++ ".cookies") rootError.

Definition validateResponse (resp : Response) (fieldPath : string)
    (rootError : HarError) : HarError :=
  let rootError :=
    if Z.leb (Response_Status resp) 0
    then AddPartialError rootError
           (NewValidationError "HTTP响应必须有有效的状态码" (fieldPath ++ ".status"))
    else rootError in
  let rootError :=
    if String.eqb (Response_HTTPVersion resp) ""
    then AddPartialError rootError
           (NewValidationError "HTTP响应必须有版本" (fieldPath ++ ".httpVersion"))
    else rootError in
  let rootError :=
    validateContent (Response_Content resp) (fieldPath ++ ".content") rootError in
  let rootError :=
    validateHeaders (Response_Headers resp) (fieldPath ++ ".headers") rootError in
  validateCookies (Response_Cookies resp) (fieldPath ++ ".cookies") rootError.

Definition validateEntries (entries : slice Entries) (rootError : HarError)
  : HarError :=
  range (fun i entry rootError =>
           let entryPrefix := indexed "log.entries" i in
           let rootError :=
             if IsZero (Entries_StartedDateTime entry)
             then AddPartialError rootError
                    (NewValidationError "条目必须有开始时间"
                       (entryPrefix ++ ".startedDateTime"))
             else rootError in
           let rootError :=
             validateRequest (Entries_Request entry)
               (entryPrefix ++ ".request") rootError in
           let rootError :=
             validateResponse (Entries_Response entry)
               (entryPrefix ++ ".response") rootError in
           validateTimings (Entries_Timings entry)
             (entryPrefix ++ ".timings") rootError)
    entries rootError.

(** The [switch] on the version of [ValidateHarFile]. *)
Definition validateVersion (har : Har) (rootError : HarError) : HarError :=
  let version := Log_Version (Har_Log har) in
  if String.eqb version HarSpecVersion11 then validateHarV11 har rootError
  else if String.eqb version HarSpecVersion12 then validateHarV12 har rootError
  else if String.eqb version HarSpecVersion13 then validateHarV13 har rootError
  else AddPartialError rootError
         (NewValidationError ("不支持的HAR版本: " ++ version) "log.version").

Definition ValidateHarFile (har : option Har) : option HarError :=
  match har with
  | None => Some (NewInvalidFormatError "HAR对象为空")
  | Some har =>
      let rootError :=
        mkHarError ErrCodeValidation "HAR验证失败" None "" [] [] in
      match validateBasicStructure har rootError with
      | (_, Some err) => Some err
      | (rootError, None) =>
          let rootError := validateVersion har rootError in
          let rootError := validateEntries (Log_Entries (Har_Log har)) rootError in
          let rootError := validatePages (Log_Pages (Har_Log har)) rootError in
          if HasPartialErrors rootError then Some rootError else None
      end
  end.

End Validator.

(** ** The compact representation (optimized.go) *)

(** [HTTPMethod] is a [uint8]; the named constants are 0 to 9. *)
Definition HTTPMethod : Type := N.

Definition MethodUnknown : HTTPMethod := 0%N.
Definition MethodGET : HTTPMethod := 1%N.
Definition MethodPOST : HTTPMethod := 2%N.
Definition MethodPUT : HTTPMethod := 3%N.
Definition MethodDELETE : HTTPMethod := 4%N.
Definition MethodHEAD : HTTPMethod := 5%N.
Definition MethodOPTIONS : HTTPMethod := 6%N.
Definition MethodPATCH : HTTPMethod := 7%N.
Definition MethodCONNECT : HTTPMethod := 8%N.
Definition MethodTRACE : HTTPMethod := 9%N.

Definition methodToString : gmap N string :=
  list_to_map
    [ (MethodUnknown, "UNKNOWN"); (MethodGET, "GET"); (MethodPOST, "POST");
      (MethodPUT, "PUT"); (MethodDELETE, "DELETE"); (MethodHEAD, "HEAD");
      (MethodOPTIONS, "OPTIONS"); (MethodPATCH, "PATCH");
      (MethodCONNECT, "CONNECT"); (MethodTRACE, "TRACE") ].

Definition stringToMethod : gmap string N :=
  list_to_map
    [ ("GET", MethodGET); ("POST", MethodPOST); ("PUT", MethodPUT);
      ("DELETE", MethodDELETE); ("HEAD", MethodHEAD);
      ("OPTIONS", MethodOPTIONS); ("PATCH", MethodPATCH);
      ("CONNECT", MethodCONNECT); ("TRACE", MethodTRACE) ].

Definition HTTPMethod_String (m : HTTPMethod) : string :=
  match methodToString !! m with
  | Some s => s
  | None => "UNKNOWN"
  end.

Definition ParseMethod (method : string) : HTTPMethod :=
  match stringToMethod !! ToUpper method with
  | Some m => m
  | None => MethodUnknown
  end.

Record OptimizedTimings : Type := mkOptimizedTimings {
  OptimizedTimings_Blocked : option float;
  OptimizedTimings_DNS : option float;
  OptimizedTimings_Connect : option float;
  OptimizedTimings_Send : option float;
  OptimizedTimings_Wait : option float;
  OptimizedTimings_Receive : option float;
  OptimizedTimings_Ssl : option float;
  OptimizedTimings_BlockedQueueing : option float;
  OptimizedTimings_BlockedProxy : option float
}.

Record OptimizedContent : Type := mkOptimizedContent {
  OptimizedContent_Size : Z;
  OptimizedContent_MimeType : string;
  OptimizedContent_Text : option string;
  OptimizedContent_Encoding : option string;
  OptimizedContent_Comment : option string
}.

Record OptimizedRequest : Type := mkOptimizedRequest {
  OptimizedRequest_Method : HTTPMethod;
  OptimizedRequest_URL : string;
  OptimizedRequest_HTTPVersion : string;
  OptimizedRequest_Cookies : slice Cookie;
  OptimizedRequest_Headers : gmap string string;
  OptimizedRequest_QueryString : gmap string string;
  OptimizedRequest_HeadersSize : option Z;
  OptimizedRequest_BodySize : option Z
}.

Record OptimizedResponse : Type := mkOptimizedResponse {
  OptimizedResponse_Status : Z;
  OptimizedResponse_StatusText : string;
  OptimizedResponse_HTTPVersion : string;
  OptimizedResponse_Cookies : slice Cookie;
  OptimizedResponse_Headers : gmap string string;
  OptimizedResponse_RedirectURL : string;
  OptimizedResponse_HeadersSize : option Z;
  OptimizedResponse_BodySize : option Z;
  OptimizedResponse_Content : option OptimizedContent;
  OptimizedResponse_TransferSize : option Z
}.

Record OptimizedEntries : Type := mkOptimizedEntries {
  OptimizedEntries_StartedDateTime : Time;
  OptimizedEntries_Time : float;
  OptimizedEntries_Request : OptimizedRequest;
  OptimizedEntries_Response : OptimizedResponse;
  OptimizedEntries_Cache : option Cache;
  OptimizedEntries_Timings : OptimizedTimings;
  OptimizedEntries_PageRef : option string;
  OptimizedEntries_ServerIP : option string;
  OptimizedEntries_Connection : option string
}.

Record OptimizedLog : Type := mkOptimizedLog {
  OptimizedLog_Version : string;
  OptimizedLog_Creator : Creator;
  OptimizedLog_Pages : slice Pages;
  OptimizedLog_Entries : slice OptimizedEntries
}.

Record OptimizedHar : Type := mkOptimizedHar {
  OptimizedHar_Log : OptimizedLog
}.

(** [for _, header := range headers { m[header.Name] = header.Value }]. *)
Definition headers_to_map (headers : slice Headers) : gmap string string :=
  fold_left (fun m h => <[Headers_Name h := Headers_Value h]> m)
    (elems headers) ∅.

(** [for name, value := range m { s = append(s, Headers{name, value}) }]
    into an empty slice.  Go leaves the order of a map iteration
    unspecified; the model takes the order of [map_to_list], and what is
    proved of the resulting list is stated up to permutation. *)
Definition map_to_headers (m : gmap string string) : list Headers :=
  (fun kv => mkHeaders (fst kv) (snd kv)) <$> map_to_list m.

(** [if x != 0 { v := x; p = &v }]. *)
Definition int_ptr (x : Z) : option Z :=
  if Z.eqb x 0 then None else Some x.
Definition float_ptr (x : float) : option float :=
  if fnonzero x then Some x else None.
Definition string_ptr (x : string) : option string :=
  if String.eqb x "" then None else Some x.

Definition convertToOptimizedEntry (entry : Entries) : OptimizedEntries :=
  let req := Entries_Request entry in
  let resp := Entries_Response entry in
  let tm := Entries_Timings entry in
  let cache := Entries_Cache entry in
  {| OptimizedEntries_StartedDateTime := Entries_StartedDateTime entry;
     OptimizedEntries_Time := Entries_Time entry;
     OptimizedEntries_Request :=
       {| OptimizedRequest_Method := ParseMethod (Request_Method req);
          OptimizedRequest_URL := Request_URL req;
          OptimizedRequest_HTTPVersion := Request_HTTPVersion req;
          OptimizedRequest_Cookies := Request_Cookies req;
          OptimizedRequest_Headers := headers_to_map (Request_Headers req);
          OptimizedRequest_QueryString := ∅;
          OptimizedRequest_HeadersSize := int_ptr (Request_HeadersSize req);
          OptimizedRequest_BodySize := int_ptr (Request_BodySize req) |};
     OptimizedEntries_Response :=
       {| OptimizedResponse_Status := Response_Status resp;
          OptimizedResponse_StatusText := Response_StatusText resp;
          OptimizedResponse_HTTPVersion := Response_HTTPVersion resp;
          OptimizedResponse_Cookies := Response_Cookies resp;
          OptimizedResponse_Headers := headers_to_map (Response_Headers resp);
          OptimizedResponse_RedirectURL := Response_RedirectURL resp;
          OptimizedResponse_HeadersSize := int_ptr (Response_HeadersSize resp);
          OptimizedResponse_BodySize := int_ptr (Response_BodySize resp);
          OptimizedResponse_Content :=
            if negb (Z.eqb (Content_Size (Response_Content resp)) 0)
               || negb (String.eqb (Content_MimeType (Response_Content resp)) "")
            then Some {| OptimizedContent_Size :=
                           Content_Size (Response_Content resp);
                         OptimizedContent_MimeType :=
                           Content_MimeType (Response_Content resp);
                         OptimizedContent_Text := None;
                         OptimizedContent_Encoding := None;
                         OptimizedContent_Comment := None |}
            else None;
          OptimizedResponse_TransferSize :=
            int_ptr (Response_TransferSize resp) |};
     OptimizedEntries_Cache :=
       if negb (String.eqb (Cache_Comment cache) "")
          || bool_decide (is_Some (Cache_BeforeRequest cache))
          || bool_decide (is_Some (Cache_AfterRequest cache))
       then Some cache else None;
     OptimizedEntries_Timings :=
       {| OptimizedTimings_Blocked := float_ptr (Timings_Blocked tm);
          OptimizedTimings_DNS := float_ptr (Timings_DNS tm);
          OptimizedTimings_Connect := float_ptr (Timings_Connect tm);
          OptimizedTimings_Send := float_ptr (Timings_Send tm);
          OptimizedTimings_Wait := float_ptr (Timings_Wait tm);
          OptimizedTimings_Receive := float_ptr (Timings_Receive tm);
          OptimizedTimings_Ssl := float_ptr (Timings_Ssl tm);
          OptimizedTimings_BlockedQueueing :=
            float_ptr (Timings_BlockedQueueing tm);
          OptimizedTimings_BlockedProxy :=
            float_ptr (Timings_BlockedProxy tm) |};
     OptimizedEntries_PageRef := string_ptr (Entries_Pageref entry);
     OptimizedEntries_ServerIP := string_ptr (Entries_ServerIPAddress entry);
     OptimizedEntries_Connection := string_ptr (Entries_Connection entry) |}.

Definition ToOptimizedHar (standardHar : Har) : OptimizedHar :=
  let log := Har_Log standardHar in
  {| OptimizedHar_Log :=
       {| OptimizedLog_Version := Log_Version log;
          OptimizedLog_Creator := Log_Creator log;
          OptimizedLog_Pages := Log_Pages log;
          OptimizedLog_Entries :=
            Some (convertToOptimizedEntry <$> elems (Log_Entries log)) |} |}.

(** [if p != nil { x = *p }] on a field that holds its zero value. *)
Definition deref {A} (p : option A) (zero : A) : A :=
  match p with Some x => x | None => zero end.

Definition convertToStandardEntry (entry : OptimizedEntries) : Entries :=
  let req := OptimizedEntries_Request entry in
  let resp := OptimizedEntries_Response entry in
  let tm := OptimizedEntries_Timings entry in
  {| Entries_StartedDateTime := OptimizedEntries_StartedDateTime entry;
     Entries_Time := OptimizedEntries_Time entry;
     Entries_Request :=
       {| Request_Method := HTTPMethod_String (OptimizedRequest_Method req);
          Request_URL := OptimizedRequest_URL req;
          Request_HTTPVersion := OptimizedRequest_HTTPVersion req;
          Request_Cookies := OptimizedRequest_Cookies req;
          Request_Headers := Some (map_to_headers (OptimizedRequest_Headers req));
          Request_QueryString := None;
          Request_PostData := JNull;
          Request_HeadersSize := deref (OptimizedRequest_HeadersSize req) 0;
          Request_BodySize := deref (OptimizedRequest_BodySize req) 0 |};
     Entries_Response :=
       {| Response_Status := OptimizedResponse_Status resp;
          Response_StatusText := OptimizedResponse_StatusText resp;
          Response_HTTPVersion := OptimizedResponse_HTTPVersion resp;
          Response_Cookies := OptimizedResponse_Cookies resp;
          Response_Headers :=
            Some (map_to_headers (OptimizedResponse_Headers resp));
          Response_Content :=
            match OptimizedResponse_Content resp with
            | Some c =>
                mkContent (OptimizedContent_Size c)
                  (OptimizedContent_MimeType c) "" ""
            | None => zero_Content
            end;
          Response_RedirectURL := OptimizedResponse_RedirectURL resp;
          Response_HeadersSize := deref (OptimizedResponse_HeadersSize resp) 0;
          Response_BodySize := deref (OptimizedResponse_BodySize resp) 0;
          Response_TransferSize := deref (OptimizedResponse_TransferSize resp) 0;
          Response_Error := JNull |};
     Entries_Cache := deref (OptimizedEntries_Cache entry) zero_Cache;
     Entries_Timings :=
       {| Timings_Blocked := deref (OptimizedTimings_Blocked tm) float_zero;
          Timings_DNS := deref (OptimizedTimings_DNS tm) float_zero;
          Timings_Connect := deref (OptimizedTimings_Connect tm) float_zero;
          Timings_Ssl := deref (OptimizedTimings_Ssl tm) float_zero;
          Timings_Send := deref (OptimizedTimings_Send tm) float_zero;
          Timings_Wait := deref (OptimizedTimings_Wait tm) float_zero;
          Timings_Receive := deref (OptimizedTimings_Receive tm) float_zero;
          Timings_BlockedQueueing :=
            deref (OptimizedTimings_BlockedQueueing tm) float_zero;
          Timings_BlockedProxy := deref (OptimizedTimings_BlockedProxy tm) float_zero |};
     Entries_Pageref := deref (OptimizedEntries_PageRef entry) "";
     Entries_ServerIPAddress := deref (OptimizedEntries_ServerIP entry) "";
     Entries_Connection := deref (OptimizedEntries_Connection entry) "";
     Entries_Initiator := zero_Initiator;
     Entries_Priority := "";
     Entries_ResourceType := "" |}.

Definition ToStandardHar (oh : OptimizedHar) : Har :=
  let log := OptimizedHar_Log oh in
  {| Har_Log :=
       {| Log_Version := OptimizedLog_Version log;
          Log_Creator := OptimizedLog_Creator log;
          Log_Pages := OptimizedLog_Pages log;
          Log_Entries :=
            Some (convertToStandardEntry <$> elems (OptimizedLog_Entries log)) |} |}.

(** ** The deferred representation (lazy.go) *)

(** [rawData] is the text of the content value as the decoder handed it to
    [UnmarshalJSON], kept here as its syntax tree; it is [None] for a
    [LazyContent] that was never decoded (no bytes). *)
Record LazyContent : Type := mkLazyContent {
  LazyContent_Size : Z;
  LazyContent_MimeType : string;
  LazyContent_Text : option string;
  LazyContent_Encoding : option string;
  LazyContent_Comment : string;
  LazyContent_rawData : option json;
  LazyContent_loaded : bool
}.

Record LazyResponse : Type := mkLazyResponse {
  LazyResponse_Status : Z;
  LazyResponse_StatusText : string;
  LazyResponse_HTTPVersion : string;
  LazyResponse_Cookies : slice Cookie;
  LazyResponse_Headers : slice Headers;
  LazyResponse_RedirectURL : string;
  LazyResponse_HeadersSize : Z;
  LazyResponse_BodySize : Z;
  LazyResponse_Content : option LazyContent;
  LazyResponse_TransferSize : Z;
  LazyResponse_Error : any
}.

Record LazyEntries : Type := mkLazyEntries {
  LazyEntries_StartedDateTime : Time;
  LazyEntries_Time : float;
  LazyEntries_Request : Request;
  LazyEntries_Response : LazyResponse;
  LazyEntries_Cache : Cache;
  LazyEntries_Timings : Timings;
  LazyEntries_Pageref : string;
  LazyEntries_Initiator : Initiator;
  LazyEntries_Priority : string;
  LazyEntries_ResourceType : string;
  LazyEntries_Connection : string;
  LazyEntries_ServerIPAddress : string
}.

Record LazyLog : Type := mkLazyLog {
  LazyLog_Version : string;
  LazyLog_Creator : Creator;
  LazyLog_Pages : slice Pages;
  LazyLog_Entries : slice LazyEntries
}.

Record LazyHar : Type := mkLazyHar {
  LazyHar_Log : LazyLog
}.

Definition zero_LazyContent : LazyContent :=
  mkLazyContent 0 "" None None "" None false.
Definition zero_LazyResponse : LazyResponse :=
  mkLazyResponse 0 "" "" None None "" 0 0 None 0 JNull.
Definition zero_LazyEntries : LazyEntries :=
  mkLazyEntries Time_zero 0 zero_Request zero_LazyResponse zero_Cache
    zero_Timings "" zero_Initiator "" "" "" "".
Definition zero_LazyLog : LazyLog := mkLazyLog "" zero_Creator None None.
Definition zero_LazyHar : LazyHar := mkLazyHar zero_LazyLog.

(** The local struct [BasicContent] of [UnmarshalJSON]. *)
Record BasicContent : Type := mkBasicContent {
  BasicContent_Size : Z;
  BasicContent_MimeType : string;
  BasicContent_Comment : string
}.

(** The local struct [FullContent] of [Load]. *)
Record FullContent : Type := mkFullContent {
  FullContent_Text : option string;
  FullContent_Encoding : option string
}.

Definition unmarshal_BasicContent : json -> BasicContent -> option BasicContent :=
  unmarshal_struct (fun ms b =>
    a ← field unmarshal_int "size" ms (BasicContent_Size b);
    m ← field unmarshal_string "mimeType" ms (BasicContent_MimeType b);
    c ← field unmarshal_string "comment" ms (BasicContent_Comment b);
    Some (mkBasicContent a m c)).

Definition unmarshal_FullContent : json -> FullContent -> option FullContent :=
  unmarshal_struct (fun ms f =>
    t ← field (unmarshal_ptr unmarshal_string "") "text" ms (FullContent_Text f);
    e ← field (unmarshal_ptr unmarshal_string "") "encoding" ms
          (FullContent_Encoding f);
    Some (mkFullContent t e)).

(** [LazyContent.UnmarshalJSON]: keep the raw value, decode the basic
    fields. *)
Definition LazyContent_UnmarshalJSON (data : json) (lc : LazyContent)
  : option LazyContent :=
  match unmarshal_BasicContent data (mkBasicContent 0 "" "") with
  | None => None
  | Some basic =>
      Some {| LazyContent_Size := BasicContent_Size basic;
              LazyContent_MimeType := BasicContent_MimeType basic;
              LazyContent_Text := LazyContent_Text lc;
              LazyContent_Encoding := LazyContent_Encoding lc;
              LazyContent_Comment := BasicContent_Comment basic;
              LazyContent_rawData := Some data;
              LazyContent_loaded := false |}
  end.

(** [Load]: the content after the call, and the returned error. *)
Definition Load (lc : LazyContent) : LazyContent * option GoError :=
  if LazyContent_loaded lc then (lc, None)
  else
    match LazyContent_rawData lc with
    | None => (lc, Some json_SyntaxError)
    | Some raw =>
        match unmarshal_FullContent raw (mkFullContent None None) with
        | None => (lc, Some json_UnmarshalError)
        | Some full =>
            ({| LazyContent_Size := LazyContent_Size lc;
                LazyContent_MimeType := LazyContent_MimeType lc;
                LazyContent_Text := FullContent_Text full;
                LazyContent_Encoding := FullContent_Encoding full;
                LazyContent_Comment := LazyContent_Comment lc;
                LazyContent_rawData := LazyContent_rawData lc;
                LazyContent_loaded := true |}, None)
        end
    end.

(** [LazyContent.GetText]: the content after the call, the text and the
    error. *)
Definition LazyContent_GetText (lc : LazyContent)
  : LazyContent * (option string * option GoError) :=
  if LazyContent_loaded lc then (lc, (LazyContent_Text lc, None))
  else
    match Load lc with
    | (lc', Some err) => (lc', (None, Some err))
    | (lc', None) => (lc', (LazyContent_Text lc', None))
    end.

(** The loop body of [LazyHar.ToStandardHar]. *)
Definition lazyEntry_ToStandard (lazyEntry : LazyEntries)
  : LazyEntries * (HarError + Entries) :=
  let lr := LazyEntries_Response lazyEntry in
  let entry content :=
    {| Entries_StartedDateTime := LazyEntries_StartedDateTime lazyEntry;
       Entries_Time := LazyEntries_Time lazyEntry;
       Entries_Request := LazyEntries_Request lazyEntry;
       Entries_Response :=
         {| Response_Status := LazyResponse_Status lr;
            Response_StatusText := LazyResponse_StatusText lr;
            Response_HTTPVersion := LazyResponse_HTTPVersion lr;
            Response_Cookies := LazyResponse_Cookies lr;
            Response_Headers := LazyResponse_Headers lr;
            Response_Content := content;
            Response_RedirectURL := LazyResponse_RedirectURL lr;
            Response_HeadersSize := LazyResponse_HeadersSize lr;
            Response_BodySize := LazyResponse_BodySize lr;
            Response_TransferSize := LazyResponse_TransferSize lr;
            Response_Error := LazyResponse_Error lr |};
       Entries_Cache := LazyEntries_Cache lazyEntry;
       Entries_Timings := LazyEntries_Timings lazyEntry;
       Entries_Pageref := LazyEntries_Pageref lazyEntry;
       Entries_ServerIPAddress := LazyEntries_ServerIPAddress lazyEntry;
       Entries_Connection := LazyEntries_Connection lazyEntry;
       Entries_Initiator := LazyEntries_Initiator lazyEntry;
       Entries_Priority := LazyEntries_Priority lazyEntry;
       Entries_ResourceType := LazyEntries_ResourceType lazyEntry |} in
  let with_content c :=
    {| LazyEntries_StartedDateTime := LazyEntries_StartedDateTime lazyEntry;
       LazyEntries_Time := LazyEntries_Time lazyEntry;
       LazyEntries_Request := LazyEntries_Request lazyEntry;
       LazyEntries_Response :=
         {| LazyResponse_Status := LazyResponse_Status lr;
            LazyResponse_StatusText := LazyResponse_StatusText lr;
            LazyResponse_HTTPVersion := LazyResponse_HTTPVersion lr;
            LazyResponse_Cookies := LazyResponse_Cookies lr;
            LazyResponse_Headers := LazyResponse_Headers lr;
            LazyResponse_RedirectURL := LazyResponse_RedirectURL lr;
            LazyResponse_HeadersSize := LazyResponse_HeadersSize lr;
            LazyResponse_BodySize := LazyResponse_BodySize lr;
            LazyResponse_Content := Some c;
            LazyResponse_TransferSize := LazyResponse_TransferSize lr;
            LazyResponse_Error := LazyResponse_Error lr |};
       LazyEntries_Cache := LazyEntries_Cache lazyEntry;
       LazyEntries_Timings := LazyEntries_Timings lazyEntry;
       LazyEntries_Pageref := LazyEntries_Pageref lazyEntry;
       LazyEntries_Initiator := LazyEntries_Initiator lazyEntry;
       LazyEntries_Priority := LazyEntries_Priority lazyEntry;
       LazyEntries_ResourceType := LazyEntries_ResourceType lazyEntry;
       LazyEntries_Connection := LazyEntries_Connection lazyEntry;
       LazyEntries_ServerIPAddress := LazyEntries_ServerIPAddress lazyEntry |} in
  match LazyResponse_Content lr with
  | None => (lazyEntry, inr (entry zero_Content))
  | Some content =>
      match Load content with
      | (content', Some err) =>
          (with_content content',
           inl (NewJSONParseError "无法加载延迟加载的内容" (Some err)))
      | (content', None) =>
          (with_content content',
           inr (entry (mkContent (LazyContent_Size content')
                         (LazyContent_MimeType content') "" "")))
      end
  end.

(** The loop of [ToStandardHar] over the entries: the entries after the
    loaded contents were stored, and the converted entries or the error that
    stopped the loop. *)
Fixpoint lazyEntries_ToStandard (entries : list LazyEntries)
  : list LazyEntries * (HarError + list Entries) :=
  match entries with
  | [] => ([], inr [])
  | e :: r =>
      match lazyEntry_ToStandard e with
      | (e', inl err) => (e' :: r, inl err)
      | (e', inr x) =>
          match lazyEntries_ToStandard r with
          | (r', inl err) => (e' :: r', inl err)
          | (r', inr xs) => (e' :: r', inr (x :: xs))
          end
      end
  end.

(** [LazyHar.ToStandardHar]: the receiver after the call, and the result. *)
Definition LazyHar_ToStandardHar (lh : LazyHar) : LazyHar * (HarError + Har) :=
  let log := LazyHar_Log lh in
  match lazyEntries_ToStandard (elems (LazyLog_Entries log)) with
  | (es, res) =>
      (mkLazyHar
         {| LazyLog_Version := LazyLog_Version log;
            LazyLog_Creator := LazyLog_Creator log;
            LazyLog_Pages := LazyLog_Pages log;
            LazyLog_Entries :=
              match LazyLog_Entries log with
              | None => None
              | Some _ => Some es
              end |},
       match res with
       | inl err => inl err
       | inr entries =>
           inr {| Har_Log :=
                    {| Log_Version := LazyLog_Version log;
                       Log_Creator := LazyLog_Creator log;
                       Log_Pages := LazyLog_Pages log;
                       Log_Entries := Some entries |} |}
       end)
  end.

Section LazyDecoders.

Context `{!GoStdlib}.

(** A [*LazyContent] field: [null] resets the pointer, any other value is
    handed to [UnmarshalJSON]. *)
Definition unmarshal_LazyContent_ptr (j : json) (old : option LazyContent)
  : option (option LazyContent) :=
  match j with
  | JNull => Some None
  | _ =>
      match LazyContent_UnmarshalJSON j
              (match old with Some x => x | None => zero_LazyContent end) with
      | Some x => Some (Some x)
      | None => None
      end
  end.

Definition unmarshal_LazyResponse
  : json -> LazyResponse -> option LazyResponse :=
  unmarshal_struct (fun ms r =>
    a ← field unmarshal_int "status" ms (LazyResponse_Status r);
    b ← field unmarshal_string "statusText" ms (LazyResponse_StatusText r);
    c ← field unmarshal_string "httpVersion" ms (LazyResponse_HTTPVersion r);
    d ← field (unmarshal_slice unmarshal_Cookie zero_Cookie) "cookies" ms
          (LazyResponse_Cookies r);
    e ← field (unmarshal_slice unmarshal_Headers zero_Headers) "headers" ms
          (LazyResponse_Headers r);
    g ← field unmarshal_string "redirectURL" ms (LazyResponse_RedirectURL r);
    h ← field unmarshal_int "headersSize" ms (LazyResponse_HeadersSize r);
    i ← field unmarshal_int "bodySize" ms (LazyResponse_BodySize r);
    f ← field unmarshal_LazyContent_ptr "content" ms (LazyResponse_Content r);
    k ← field unmarshal_int "_transferSize" ms (LazyResponse_TransferSize r);
    l ← field unmarshal_any "_error" ms (LazyResponse_Error r);
    Some (mkLazyResponse a b c d e g h i f k l)).

Definition unmarshal_LazyEntries : json -> LazyEntries -> option LazyEntries :=
  unmarshal_struct (fun ms e =>
    a ← field unmarshal_Time "startedDateTime" ms
          (LazyEntries_StartedDateTime e);
    b ← field unmarshal_float64 "time" ms (LazyEntries_Time e);
    c ← field unmarshal_Request "request" ms (LazyEntries_Request e);
    d ← field unmarshal_LazyResponse "response" ms (LazyEntries_Response e);
    f ← field unmarshal_Cache "cache" ms (LazyEntries_Cache e);
    g ← field unmarshal_Timings "timings" ms (LazyEntries_Timings e);
    h ← field unmarshal_string "pageref" ms (LazyEntries_Pageref e);
    l ← field unmarshal_Initiator "_initiator" ms (LazyEntries_Initiator e);
    m ← field unmarshal_string "_priority" ms (LazyEntries_Priority e);
    n ← field unmarshal_string "_resourceType" ms (LazyEntries_ResourceType e);
    k ← field unmarshal_string "connection" ms (LazyEntries_Connection e);
    i ← field unmarshal_string "serverIPAddress" ms
          (LazyEntries_ServerIPAddress e);
    Some (mkLazyEntries a b c d f g h l m n k i)).

Definition unmarshal_LazyLog : json -> LazyLog -> option LazyLog :=
  unmarshal_struct (fun ms l =>
    a ← field unmarshal_string "version" ms (LazyLog_Version l);
    b ← field unmarshal_Creator "creator" ms (LazyLog_Creator l);
    c ← field (unmarshal_slice unmarshal_Pages zero_Pages) "pages" ms
          (LazyLog_Pages l);
    d ← field (unmarshal_slice unmarshal_LazyEntries zero_LazyEntries)
          "entries" ms (LazyLog_Entries l);
    Some (mkLazyLog a b c d)).

Definition unmarshal_LazyHar : json -> LazyHar -> option LazyHar :=
  unmarshal_struct (fun ms h =>
    a ← field unmarshal_LazyLog "log" ms (LazyHar_Log h);
    Some (mkLazyHar a)).

Definition ParseHarWithLazyLoading (harFileBytes : string)
  : HarError + LazyHar :=
  match json_Unmarshal unmarshal_LazyHar harFileBytes zero_LazyHar with
  | inl err => inl (WrapJSONUnmarshalError err)
  | inr har => inr har
  end.

End LazyDecoders.

(** ** The providers' top-level interface value and the options (options.go) *)

(** A [HARProvider] holds a pointer to one of the three representations.
    An interface value that holds a nil pointer is not the nil interface:
    the nil interface is [None : option HARProvider]. *)
Inductive HARProvider : Type :=
| HARProvider_Har (p : option Har)
| HARProvider_OptimizedHar (p : option OptimizedHar)
| HARProvider_LazyHar (p : option LazyHar).

(** The [error] values the entry points return. *)
Inductive error : Type :=
| error_HarError (e : HarError)
| error_Go (e : GoError)
| error_Wrap (prefix : string) (cause : error).   (* fmt.Errorf("...: %w", err) *)

Record options : Type := mkOptions {
  lenient : bool;
  skipValidation : bool;
  collectWarnings : bool;
  maxWarnings : Z;
  useMemoryOptimized : bool;
  useLazyLoading : bool;
  useStreaming : bool;
  harVersion : string;
  autoDetectVersion : bool
}.

Definition defaultOptions : options :=
  {| lenient := false;
     skipValidation := false;
     collectWarnings := false;
     maxWarnings := 100;
     useMemoryOptimized := false;
     useLazyLoading := false;
     useStreaming := false;
     harVersion := HarSpecVersion12;
     autoDetectVersion := true |}.

Definition toParseOptions (o : options) : ParseOptions :=
  {| Lenient := lenient o;
     SkipValidation := skipValidation o;
     CollectWarnings := collectWarnings o;
     MaxWarnings := maxWarnings o |}.

(** An [Option] is a function on [*options]; the type [options] is not
    exported, so the options a caller can pass are the ones the package
    constructs. *)
Inductive Option : Type :=
| WithLenient
| WithSkipValidation
| WithCollectWarnings
| WithMaxWarnings (max : Z)
| WithMemoryOptimized
| WithLazyLoading
| WithStreaming
| WithHarVersion (version : string)
| WithAutoDetectVersion (enabled : bool).

Definition applyOption (opt : Option) (o : options) : options :=
  match opt with
  | WithLenient =>
      mkOptions true (skipValidation o) (collectWarnings o) (maxWarnings o)
        (useMemoryOptimized o) (useLazyLoading o) (useStreaming o)
        (harVersion o) (autoDetectVersion o)
  | WithSkipValidation =>
      mkOptions (lenient o) true (collectWarnings o) (maxWarnings o)
        (useMemoryOptimized o) (useLazyLoading o) (useStreaming o)
        (harVersion o) (autoDetectVersion o)
  | WithCollectWarnings =>
      mkOptions (lenient o) (skipValidation o) true (maxWarnings o)
        (useMemoryOptimized o) (useLazyLoading o) (useStreaming o)
        (harVersion o) (autoDetectVersion o)
  | WithMaxWarnings max =>
      mkOptions (lenient o) (skipValidation o) (collectWarnings o) max
        (useMemoryOptimized o) (useLazyLoading o) (useStreaming o)
        (harVersion o) (autoDetectVersion o)
  | WithMemoryOptimized =>
      mkOptions (lenient o) (skipValidation o) (collectWarnings o)
        (maxWarnings o) true (useLazyLoading o) (useStreaming o)
        (harVersion o) (autoDetectVersion o)
  | WithLazyLoading =>
      mkOptions (lenient o) (skipValidation o) (collectWarnings o)
        (maxWarnings o) (useMemoryOptimized o) true (useStreaming o)
        (harVersion o) (autoDetectVersion o)
  | WithStreaming =>
      mkOptions (lenient o) (skipValidation o) (collectWarnings o)
        (maxWarnings o) (useMemoryOptimized o) (useLazyLoading o) true
        (harVersion o) (autoDetectVersion o)
  | WithHarVersion version =>
      if IsValidHarVersion version
      then mkOptions (lenient o) (skipValidation o) (collectWarnings o)
             (maxWarnings o) (useMemoryOptimized o) (useLazyLoading o)
             (useStreaming o) version false
      else o
  | WithAutoDetectVersion enabled =>
      mkOptions (lenient o) (skipValidation o) (collectWarnings o)
        (maxWarnings o) (useMemoryOptimized o) (useLazyLoading o)
        (useStreaming o) (harVersion o) enabled
  end.

Definition applyOptions (opts : list Option) : options :=
  fold_left (fun o opt => applyOption opt o) opts defaultOptions.

(** ** The entry points (har.go, parse.go, parser.go) *)

Definition isJSONContent (content : string) : bool :=
  let trimmed := TrimSpace content in
  (HasPrefix trimmed "{" && HasSuffix trimmed "}")
  || (HasPrefix trimmed "[" && HasSuffix trimmed "]").

Definition validateInput (harFileBytes : string) : option HarError :=
  if Nat.eqb (String.length harFileBytes) 0
  then Some (NewInvalidFormatError "输入为空")
  else if negb (isJSONContent harFileBytes)
  then Some (NewInvalidFormatError "输入不是有效的JSON格式")
  else None.

Definition ErrNotJsonContent : HarError :=
  NewInvalidFormatError "内容不是JSON格式".

(** [map[string]json.RawMessage]: the members of an object by key, a
    later member replacing an earlier one of the same key; [null] leaves
    the map nil. *)
Definition unmarshal_rawmap (j : json) : option (gmap string json) :=
  match j with
  | JNull => Some ∅
  | JObj ms => Some (fold_left (fun m kv => <[fst kv := snd kv]> m) ms ∅)
  | _ => None
  end.

(** [[]json.RawMessage]. *)
Definition unmarshal_rawlist (j : json) : option (list json) :=
  match j with
  | JNull => Some []
  | JArr l => Some l
  | _ => None
  end.

Section Parse.

Context `{!GoStdlib}.

Definition ParseHar (harFileBytes : string) : HarError + Har :=
  if Nat.eqb (String.length harFileBytes) 0
  then inl (NewInvalidFormatError "输入为空")
  else if negb (isJSONContent harFileBytes) then inl ErrNotJsonContent
  else
    match json_Unmarshal unmarshal_Har harFileBytes zero_Har with
    | inl err => inl (WrapJSONUnmarshalError err)
    | inr har =>
        match ValidateHarFile (Some har) with
        | Some err => inl err
        | None => inr har
        end
    end.

Definition validateHar (har : option Har) : option HarError :=
  match har with
  | None => Some (NewInvalidFormatError "HAR对象为空")
  | Some _ => ValidateHarFile har
  end.

(** The loop of [parseLenient] over the raw pages: the pages decoded so
    far and the root error. *)
Definition lenient_pages (pages : list json) (acc : list Pages * HarError)
  : list Pages * HarError :=
  range_from
    (fun i pageBytes acc =>
       match unmarshal_Pages pageBytes zero_Pages with
       | Some page => ((fst acc ++ [page])%list, snd acc)
       | None =>
           (fst acc,
            AddPartialError (snd acc)
              (WithField
                 (NewJSONParseError
                    ("无法解析第" ++ itoa (i + 1) ++ "个page")
                    (Some json_UnmarshalError))
                 (indexed "log.pages" i)))
       end)
    0 pages acc.

Definition lenient_entries (entries : list json)
    (acc : list Entries * HarError) : list Entries * HarError :=
  range_from
    (fun i entryBytes acc =>
       match unmarshal_Entries entryBytes zero_Entries with
       | Some entry => ((fst acc ++ [entry])%list, snd acc)
       | None =>
           (fst acc,
            AddPartialError (snd acc)
              (WithField
                 (NewJSONParseError
                    ("无法解析第" ++ itoa (i + 1) ++ "个entry")
                    (Some json_UnmarshalError))
                 (indexed "log.entries" i)))
       end)
    0 entries acc.

(** The body of [parseLenient] on the [log] object: the archive under
    construction and the root error are threaded through the four
    fields. *)
Definition lenient_log (logData : gmap string json) (har : Har)
    (rootError : HarError) : Har * HarError :=
  let log := Har_Log har in
  let '(version, rootError) :=
    match logData !! "version" with
    | Some versionBytes =>
        match unmarshal_string versionBytes "" with
        | Some version => (version, rootError)
        | None =>
            (Log_Version log,
             AddPartialError rootError
               (WithField
                  (NewJSONParseError "无法解析version字段"
                     (Some json_UnmarshalError))
                  "log.version"))
        end
    | None => (Log_Version log, rootError)
    end in
  let '(creator, rootError) :=
    match logData !! "creator" with
    | Some creatorBytes =>
        match unmarshal_Creator creatorBytes zero_Creator with
        | Some creator => (creator, rootError)
        | None =>
            (Log_Creator log,
             AddPartialError rootError
               (WithField
                  (NewJSONParseError "无法解析creator字段"
                     (Some json_UnmarshalError))
                  "log.creator"))
        end
    | None => (Log_Creator log, rootError)
    end in
  let '(pages, rootError) :=
    match logData !! "pages" with
    | Some pagesBytes =>
        match unmarshal_rawlist pagesBytes with
        | Some pages => lenient_pages pages (elems (Log_Pages log), rootError)
        | None =>
            (elems (Log_Pages log),
             AddPartialError rootError
               (WithField
                  (NewJSONParseError "无法解析pages字段"
                     (Some json_UnmarshalError))
                  "log.pages"))
        end
    | None => (elems (Log_Pages log), rootError)
    end in
  let '(entries, rootError) :=
    match logData !! "entries" with
    | Some entriesBytes =>
        match unmarshal_rawlist entriesBytes with
        | Some entries =>
            lenient_entries entries (elems (Log_Entries log), rootError)
        | None =>
            (elems (Log_Entries log),
             AddPartialError rootError
               (WithField
                  (NewJSONParseError "无法解析entries字段"
                     (Some json_UnmarshalError))
                  "log.entries"))
        end
    | None => (elems (Log_Entries log), rootError)
    end in
  (mkHar (mkLog version creator (Some pages) (Some entries)), rootError).

(** The first part of [parseLenient], up to the final decision: the
    error of the top-level decoding, or the archive under construction
    with the root error. *)
Definition lenient_collect (harFileBytes : string)
  : GoError + (Har * HarError) :=
  let har := mkHar (mkLog "" zero_Creator (Some []) (Some [])) in
  match json_Unmarshal (fun j _ => unmarshal_rawmap j) harFileBytes ∅ with
  | inl err => inl err
  | inr rawData =>
      let rootError :=
        mkHarError ErrCodeJSONParse
          "HAR解析过程中发生错误，但部分内容已成功解析" None "" [] [] in
      match rawData !! "log" with
      | Some logBytes =>
          match unmarshal_rawmap logBytes with
          | None =>
              inr (har,
                   AddPartialError rootError
                     (WithField
                        (NewJSONParseError "无法解析log字段"
                           (Some json_UnmarshalError))
                        "log"))
          | Some logData => inr (lenient_log logData har rootError)
          end
      | None =>
          inr (har, AddPartialError rootError (NewMissingFieldError "log"))
      end
  end.

(** Whether [parseLenient] counts the archive as partly decoded. *)
Definition recovered (har : Har) : bool :=
  negb (String.eqb (Log_Version (Har_Log har)) "")
  || Z.ltb 0 (len (Log_Entries (Har_Log har)))
  || Z.ltb 0 (len (Log_Pages (Har_Log har))).

(** [parseLenient]: the returned archive ([None] is nil) and the returned
    error. *)
Definition parseLenient (harFileBytes : string) (options : ParseOptions)
  : option Har * option HarError :=
  match lenient_collect harFileBytes with
  | inl err => (None, Some (WrapJSONUnmarshalError err))
  | inr (har, rootError) =>
      if HasPartialErrors rootError && CollectWarnings options then
        if recovered har then (Some har, Some rootError)
        else (None, Some rootError)
      else if HasPartialErrors rootError then (None, Some rootError)
      else (Some har, None)
  end.

Definition ParseHarWithOptions (harFileBytes : string)
    (options : ParseOptions) : option Har * option HarError :=
  if Nat.eqb (String.length harFileBytes) 0
  then (None, Some (NewInvalidFormatError "输入为空"))
  else if negb (isJSONContent harFileBytes)
  then (None, Some (NewInvalidFormatError "输入不是有效的JSON格式"))
  else if negb (Lenient options) then
    match json_Unmarshal unmarshal_Har harFileBytes zero_Har with
    | inl err => (None, Some (WrapJSONUnmarshalError err))
    | inr har =>
        if negb (SkipValidation options) then
          match validateHar (Some har) with
          | Some err => (None, Some err)
          | None => (Some har, None)
          end
        else (Some har, None)
    end
  else parseLenient harFileBytes options.

Definition ParseHarOptimized (harFileBytes : string) : error + OptimizedHar :=
  match ParseHar harFileBytes with
  | inl err => inl (error_Wrap "failed to parse HAR bytes" (error_HarError err))
  | inr standardHar => inr (ToOptimizedHar standardHar)
  end.

(** [parseWithStrategy]: the provider ([None] is the nil interface) and the
    error. *)
Definition parseWithStrategy (harFileBytes : string) (options : options)
  : option HARProvider * option error :=
  if useStreaming options then
    (None,
     Some (error_HarError
             (NewUnsupportedError
                "流式解析不支持直接返回完整HAR对象，请使用NewStreamingParser")))
  else if useMemoryOptimized options then
    match ParseHarOptimized harFileBytes with
    | inl err => (Some (HARProvider_OptimizedHar None), Some err)
    | inr h => (Some (HARProvider_OptimizedHar (Some h)), None)
    end
  else if useLazyLoading options then
    match ParseHarWithLazyLoading harFileBytes with
    | inl err => (Some (HARProvider_LazyHar None), Some (error_HarError err))
    | inr h => (Some (HARProvider_LazyHar (Some h)), None)
    end
  else
    let parseOptions := toParseOptions options in
    match ParseHarWithOptions harFileBytes parseOptions with
    | (har, err) => (Some (HARProvider_Har har), error_HarError <$> err)
    end.

Definition Parse (harFileBytes : string) (opts : list Option)
  : option HARProvider * option error :=
  let options := applyOptions opts in
  match validateInput harFileBytes with
  | Some err => (None, Some (error_HarError err))
  | None => parseWithStrategy harFileBytes options
  end.

End Parse.

(** ** The streaming iterator (streaming.go) *)

(** A [json.Decoder] over a text: the tokens still to be read, and the
    error that [Token] reports once they are exhausted. *)
Record Decoder : Type := mkDecoder {
  pending : list token;
  at_end : GoError
}.

Definition is_closing (t : token) : bool :=
  match t with
  | TDelim c => Ascii.eqb c "]" || Ascii.eqb c "}"
  | _ => false
  end.

(** [Decoder.More]: the next token exists and does not close an array or
    an object. *)
Definition More (d : Decoder) : bool :=
  match pending d with
  | [] => false
  | t :: _ => negb (is_closing t)
  end.

(** [Decoder.Token]. *)
Definition Token (d : Decoder) : Decoder * (GoError + token) :=
  match pending d with
  | [] => (d, inl (at_end d))
  | t :: r => (mkDecoder r (at_end d), inr t)
  end.

(** The value that starts at the head of a token list, rebuilt by one pass
    with a stack of the arrays and objects that are open. *)
Inductive frame : Type :=
| FArr (done : list json)
| FKey (done : list (string * json))
| FVal (done : list (string * json)) (key : string).

Fixpoint parse_value (stack : list frame) (ts : list token)
  : option (json * list token) :=
  match ts with
  | [] => None
  | t :: r =>
      let reduce (st : list frame) (v : json) :=
        match st with
        | [] => Some (v, r)
        | FArr done :: st' => parse_value (FArr (v :: done) :: st') r
        | FVal done k :: st' => parse_value (FKey ((k, v) :: done) :: st') r
        | FKey _ :: _ => None
        end in
      match t, stack with
      | TStr k, FKey done :: st' => parse_value (FVal done k :: st') r
      | _, FKey done :: st' =>
          match t with
          | TDelim c =>
              if Ascii.eqb c "}" then reduce st' (JObj (rev done)) else None
          | _ => None
          end
      | TDelim c, _ =>
          if Ascii.eqb c "[" then parse_value (FArr [] :: stack) r
          else if Ascii.eqb c "{" then parse_value (FKey [] :: stack) r
          else if Ascii.eqb c "]" then
            match stack with
            | FArr done :: st' => reduce st' (JArr (rev done))
            | _ => None
            end
          else None
      | TNull, _ => reduce stack JNull
      | TBool b, _ => reduce stack (JBool b)
      | TNum i f, _ => reduce stack (JNum i f)
      | TStr s, _ => reduce stack (JStr s)
      end
  end.

Record StreamingHar : Type := mkStreamingHar {
  StreamingHar_creator : Creator;
  StreamingHar_pages : slice Pages;
  StreamingHar_version : string;
  StreamingHar_data : string
}.

(** The iterator.  Its [file] and [reader] fields are never set by the
    package and are left out. *)
Record StreamingEntryIterator : Type := mkStreamingEntryIterator {
  it_har : StreamingHar;
  it_decoder : Decoder;
  it_err : option GoError;
  it_currentPos : Z;
  it_entry : Entries;
  it_closed : bool
}.

(** The search loop of [Next]: read tokens up to a string ["entries"] and
    the token after it.  Returns the tokens left and the error, if any. *)
Fixpoint find_entries (ts : list token) (eof : GoError)
  : list token * option GoError :=
  match ts with
  | [] => ([], Some eof)
  | t :: r =>
      match t with
      | TStr s =>
          if String.eqb s "entries" then
            match r with
            | [] => ([], Some eof)
            | t' :: r' =>
                match t' with
                | TDelim c =>
                    if Ascii.eqb c "[" then (r', None)
                    else (r', Some (fmt_Errorf
                                      "预期在'entries'字段后找到'['，但实际为: %v" [t']))
                | _ => (r', Some (fmt_Errorf
                                    "预期在'entries'字段后找到'['，但实际为: %v" [t']))
                end
            end
          else find_entries r eof
      | _ => find_entries r eof
      end
  end.

(** [StreamingEntryIterator.Err] (the name [Err] is the field of
    [HarError]). *)
Definition Iterator_Err (it : StreamingEntryIterator) : option GoError :=
  match it_err it with
  | Some io_EOF => None
  | e => e
  end.

Definition Entry (it : StreamingEntryIterator) : Entries := it_entry it.
Definition Position (it : StreamingEntryIterator) : Z := it_currentPos it.

Definition Close (it : StreamingEntryIterator) : StreamingEntryIterator :=
  if it_closed it then it
  else mkStreamingEntryIterator (it_har it) (it_decoder it) (it_err it)
         (it_currentPos it) (it_entry it) true.

Section Streaming.

Context `{!GoStdlib}.

(** [json.NewDecoder(bytes.NewReader(data))].  The package builds a
    [StreamingHar] either without data (the file-backed constructor) or
    from a text that [json.Unmarshal] accepted; the tokens of a text
    with a syntax error are not modelled. *)
Definition NewDecoder (data : string) : Decoder :=
  if Nat.eqb (String.length data) 0 then mkDecoder [] io_EOF
  else
    match json_scan data with
    | Some j => mkDecoder (tokens j) io_EOF
    | None => mkDecoder [] json_SyntaxError
    end.

(** [Decoder.Decode(&entry)] into a fresh [Entries]. *)
Definition Decode_Entries (d : Decoder) : Decoder * (GoError + Entries) :=
  match parse_value [] (pending d) with
  | None =>
      (d, inl (match pending d with [] => at_end d | _ => json_SyntaxError end))
  | Some (j, rest) =>
      match unmarshal_Entries j zero_Entries with
      | Some e => (mkDecoder rest (at_end d), inr e)
      | None => (mkDecoder rest (at_end d), inl json_UnmarshalError)
      end
  end.

Definition NewStreamingHarFromBytes (data : string) : error + StreamingHar :=
  match json_Unmarshal unmarshal_Har data zero_Har with
  | inl err => inl (error_Wrap "无法解析HAR数据" (error_Go err))
  | inr tempHar =>
      inr {| StreamingHar_creator := Log_Creator (Har_Log tempHar);
             StreamingHar_pages := Log_Pages (Har_Log tempHar);
             StreamingHar_version := Log_Version (Har_Log tempHar);
             StreamingHar_data := data |}
  end.

Definition StreamingHar_Entries (h : StreamingHar) : StreamingEntryIterator :=
  {| it_har := h;
     it_decoder := NewDecoder (StreamingHar_data h);
     it_err := None;
     it_currentPos := 0;
     it_entry := zero_Entries;
     it_closed := false |}.

(** [Next]: the iterator after the call, and the returned boolean. *)
Definition Next (it : StreamingEntryIterator) : StreamingEntryIterator * bool :=
  if it_closed it || bool_decide (is_Some (it_err it)) then (it, false)
  else
    let '(ts, scan_err) :=
      if Z.eqb (it_currentPos it) 0
      then find_entries (pending (it_decoder it)) (at_end (it_decoder it))
      else (pending (it_decoder it), None) in
    let decoder := mkDecoder ts (at_end (it_decoder it)) in
    match scan_err with
    | Some err =>
        (mkStreamingEntryIterator (it_har it) decoder (Some err)
           (it_currentPos it) (it_entry it) (it_closed it), false)
    | None =>
        if negb (More decoder) then
          (mkStreamingEntryIterator (it_har it) decoder (it_err it)
             (it_currentPos it) (it_entry it) (it_closed it), false)
        else
          match Decode_Entries decoder with
          | (decoder', inl err) =>
              (mkStreamingEntryIterator (it_har it) decoder' (Some err)
                 (it_currentPos it) (it_entry it) (it_closed it), false)
          | (decoder', inr entry) =>
              (mkStreamingEntryIterator (it_har it) decoder' (it_err it)
                 (it_currentPos it + 1) entry (it_closed it), true)
          end
    end.

Definition NewStreamingParser (harFileBytes : string)
  : error + StreamingEntryIterator :=
  match validateInput harFileBytes with
  | Some err => inl (error_HarError err)
  | None =>
      match NewStreamingHarFromBytes harFileBytes with
      | inl err => inl err
      | inr streamingHar => inr (StreamingHar_Entries streamingHar)
      end
  end.

(** The results of the first [n] calls of [Next]. *)
Fixpoint Next_results (n : nat) (it : StreamingEntryIterator)
  : list bool * StreamingEntryIterator :=
  match n with
  | O => ([], it)
  | S k =>
      match Next it with
      | (it', b) =>
          match Next_results k it' with
          | (bs, it'') => (b :: bs, it'')
          end
      end
  end.

End Streaming.

(** ** The provider layer (providers.go and the three implementations)

    An interface value holds one of the implementing types; the nil
    interface is [None].  The accessors are given per implementation under
    the name of the receiver type, then by dispatch on the interface
    value. *)

Module Standard.
(** standard_impl.go *)
Definition GetVersion (h : Har) : string := Log_Version (Har_Log h).
Definition GetCreator (h : Har) : Creator := Log_Creator (Har_Log h).
Definition GetPageref (e : Entries) : string := Entries_Pageref e.
Definition GetTime (e : Entries) : float := Entries_Time e.
Definition GetStartedDateTime (e : Entries) : Time := Entries_StartedDateTime e.
Definition GetMethod (r : Request) : string := Request_Method r.
Definition GetURL (r : Request) : string := Request_URL r.
Definition Request_GetHTTPVersion (r : Request) : string := Request_HTTPVersion r.
Definition Request_GetBodySize (r : Request) : Z := Request_BodySize r.
Definition Request_GetHeadersSize (r : Request) : Z := Request_HeadersSize r.
Definition GetStatus (r : Response) : Z := Response_Status r.
Definition GetStatusText (r : Response) : string := Response_StatusText r.
Definition GetHTTPVersion (r : Response) : string := Response_HTTPVersion r.
Definition GetBodySize (r : Response) : Z := Response_BodySize r.
Definition GetHeadersSize (r : Response) : Z := Response_HeadersSize r.
Definition GetSize (c : Content) : Z := Content_Size c.
Definition GetMimeType (c : Content) : string := Content_MimeType c.
Definition GetText (c : Content) : string := "".
Definition GetEncoding (c : Content) : string := "".
Definition GetBlocked (t : Timings) : float := Timings_Blocked t.
Definition GetDNS (t : Timings) : float := Timings_DNS t.
Definition GetConnect (t : Timings) : float := Timings_Connect t.
Definition GetSend (t : Timings) : float := Timings_Send t.
Definition GetWait (t : Timings) : float := Timings_Wait t.
Definition GetReceive (t : Timings) : float := Timings_Receive t.
Definition GetSSL (t : Timings) : float := Timings_Ssl t.
End Standard.

Module Optimized.
(** optimized_impl.go *)
Definition GetVersion (h : OptimizedHar) : string :=
  OptimizedLog_Version (OptimizedHar_Log h).
Definition GetCreator (h : OptimizedHar) : Creator :=
  OptimizedLog_Creator (OptimizedHar_Log h).
Definition GetStartedDateTime (e : OptimizedEntries) : Time :=
  OptimizedEntries_StartedDateTime e.
Definition GetTime (e : OptimizedEntries) : float := OptimizedEntries_Time e.
Definition GetPageref (e : OptimizedEntries) : string :=
  match OptimizedEntries_PageRef e with
  | Some s => s
  | None => ""
  end.

Definition GetMethod (r : OptimizedRequest) : string :=
  let m := OptimizedRequest_Method r in
  if N.eqb m MethodGET then "GET"
  else if N.eqb m MethodPOST then "POST"
  else if N.eqb m MethodPUT then "PUT"
  else if N.eqb m MethodDELETE then "DELETE"
  else if N.eqb m MethodHEAD then "HEAD"
  else if N.eqb m MethodOPTIONS then "OPTIONS"
  else if N.eqb m MethodPATCH then "PATCH"
  else if N.eqb m MethodCONNECT then "CONNECT"
  else if N.eqb m MethodTRACE then "TRACE"
  else "UNKNOWN".
Definition GetURL (r : OptimizedRequest) : string := OptimizedRequest_URL r.
Definition Request_GetHTTPVersion (r : OptimizedRequest) : string :=
  OptimizedRequest_HTTPVersion r.
Definition Request_GetHeaders (r : OptimizedRequest) : list Headers :=
  map_to_headers (OptimizedRequest_Headers r).
Definition Request_GetBodySize (r : OptimizedRequest) : Z :=
  match OptimizedRequest_BodySize r with Some x => x | None => 0 end.
Definition Request_GetHeadersSize (r : OptimizedRequest) : Z :=
  match OptimizedRequest_HeadersSize r with Some x => x | None => 0 end.

Definition GetStatus (r : OptimizedResponse) : Z := OptimizedResponse_Status r.
Definition GetStatusText (r : OptimizedResponse) : string :=
  OptimizedResponse_StatusText r.
Definition GetHTTPVersion (r : OptimizedResponse) : string :=
  OptimizedResponse_HTTPVersion r.
Definition GetHeaders (r : OptimizedResponse) : list Headers :=
  map_to_headers (OptimizedResponse_Headers r).
Definition GetBodySize (r : OptimizedResponse) : Z :=
  match OptimizedResponse_BodySize r with Some x => x | None => 0 end.
Definition GetHeadersSize (r : OptimizedResponse) : Z :=
  match OptimizedResponse_HeadersSize r with Some x => x | None => 0 end.

Definition GetSize (c : OptimizedContent) : Z := OptimizedContent_Size c.
Definition GetMimeType (c : OptimizedContent) : string :=
  OptimizedContent_MimeType c.
Definition GetText (c : OptimizedContent) : string :=
  match OptimizedContent_Text c with Some s => s | None => "" end.
Definition GetEncoding (c : OptimizedContent) : string :=
  match OptimizedContent_Encoding c with Some s => s | None => "" end.
Definition Content_ToStandard (c : OptimizedContent) : Content :=
  mkContent (OptimizedContent_Size c) (OptimizedContent_MimeType c) "" "".

Definition or_minus_one (p : option float) : float :=
  match p with Some x => x | None => float_minus_one end.
Definition GetBlocked (t : OptimizedTimings) : float :=
  or_minus_one (OptimizedTimings_Blocked t).
Definition GetDNS (t : OptimizedTimings) : float :=
  or_minus_one (OptimizedTimings_DNS t).
Definition GetConnect (t : OptimizedTimings) : float :=
  or_minus_one (OptimizedTimings_Connect t).
Definition GetSend (t : OptimizedTimings) : float :=
  or_minus_one (OptimizedTimings_Send t).
Definition GetWait (t : OptimizedTimings) : float :=
  or_minus_one (OptimizedTimings_Wait t).
Definition GetReceive (t : OptimizedTimings) : float :=
  or_minus_one (OptimizedTimings_Receive t).
Definition GetSSL (t : OptimizedTimings) : float :=
  or_minus_one (OptimizedTimings_Ssl t).

(** [OptimizedTimings.ToStandard]: the two extension fields are left at
    zero. *)
Definition Timings_ToStandard (t : OptimizedTimings) : Timings :=
  {| Timings_Blocked := or_minus_one (OptimizedTimings_Blocked t);
     Timings_DNS := or_minus_one (OptimizedTimings_DNS t);
     Timings_Connect := or_minus_one (OptimizedTimings_Connect t);
     Timings_Ssl := or_minus_one (OptimizedTimings_Ssl t);
     Timings_Send := or_minus_one (OptimizedTimings_Send t);
     Timings_Wait := or_minus_one (OptimizedTimings_Wait t);
     Timings_Receive := or_minus_one (OptimizedTimings_Receive t);
     Timings_BlockedQueueing := float_zero;
     Timings_BlockedProxy := float_zero |}.
End Optimized.

Module Lazy.
(** lazy_impl.go *)
Definition GetVersion (h : LazyHar) : string := LazyLog_Version (LazyHar_Log h).
Definition GetCreator (h : LazyHar) : Creator := LazyLog_Creator (LazyHar_Log h).
Definition GetStartedDateTime (e : LazyEntries) : Time :=
  LazyEntries_StartedDateTime e.
Definition GetTime (e : LazyEntries) : float := LazyEntries_Time e.
Definition GetPageref (e : LazyEntries) : string := LazyEntries_Pageref e.
Definition GetStatus (r : LazyResponse) : Z := LazyResponse_Status r.
Definition GetStatusText (r : LazyResponse) : string :=
  LazyResponse_StatusText r.
Definition GetHTTPVersion (r : LazyResponse) : string :=
  LazyResponse_HTTPVersion r.
Definition GetBodySize (r : LazyResponse) : Z := LazyResponse_BodySize r.
Definition GetHeadersSize (r : LazyResponse) : Z := LazyResponse_HeadersSize r.

(** [lazyContentWrapper]: the wrapped pointer; the methods that load
    return the content after the call with their result. *)
Definition GetSize (content : option LazyContent) : Z :=
  match content with
  | None => 0
  | Some c => LazyContent_Size c
  end.
Definition GetMimeType (content : option LazyContent) : string :=
  match content with
  | None => ""
  | Some c => LazyContent_MimeType c
  end.
Definition GetText (content : option LazyContent)
  : option LazyContent * string :=
  match content with
  | None => (None, "")
  | Some c =>
      match LazyContent_GetText c with
      | (c', (Some text, None)) => (Some c', text)
      | (c', _) => (Some c', "")
      end
  end.
Definition GetEncoding (content : option LazyContent)
  : option LazyContent * string :=
  match content with
  | None => (None, "")
  | Some c =>
      let c' := fst (Load c) in
      match LazyContent_Encoding c' with
      | None => (Some c', "")
      | Some e => (Some c', e)
      end
  end.
End Lazy.

Inductive ContentProvider : Type :=
| ContentProvider_Content (c : Content)
| ContentProvider_OptimizedContent (c : OptimizedContent)
| ContentProvider_lazyContentWrapper (content : option LazyContent).

Inductive TimingsProvider : Type :=
| TimingsProvider_Timings (t : Timings)
| TimingsProvider_OptimizedTimings (t : OptimizedTimings).

Inductive RequestProvider : Type :=
| RequestProvider_Request (r : Request)
| RequestProvider_OptimizedRequest (r : OptimizedRequest).

Inductive ResponseProvider : Type :=
| ResponseProvider_Response (r : Response)
| ResponseProvider_OptimizedResponse (r : OptimizedResponse)
| ResponseProvider_LazyResponse (r : LazyResponse).

Inductive EntryProvider : Type :=
| EntryProvider_Entries (e : Entries)
| EntryProvider_OptimizedEntries (e : OptimizedEntries)
| EntryProvider_LazyEntries (e : LazyEntries).





Definition GetRequest (e : EntryProvider) : option RequestProvider :=
  match e with
  | EntryProvider_Entries e => Some (RequestProvider_Request (Entries_Request e))
  | EntryProvider_OptimizedEntries e =>
      Some (RequestProvider_OptimizedRequest (OptimizedEntries_Request e))
  | EntryProvider_LazyEntries e =>
      Some (RequestProvider_Request (LazyEntries_Request e))
  end.

Definition GetResponse (e : EntryProvider) : option ResponseProvider :=
  match e with
  | EntryProvider_Entries e =>
      Some (ResponseProvider_Response (Entries_Response e))
  | EntryProvider_OptimizedEntries e =>
      Some (ResponseProvider_OptimizedResponse (OptimizedEntries_Response e))
  | EntryProvider_LazyEntries e =>
      Some (ResponseProvider_LazyResponse (LazyEntries_Response e))
  end.

Definition GetTimings (e : EntryProvider) : option TimingsProvider :=
  match e with
  | EntryProvider_Entries e => Some (TimingsProvider_Timings (Entries_Timings e))
  | EntryProvider_OptimizedEntries e =>
      Some (TimingsProvider_OptimizedTimings (OptimizedEntries_Timings e))
  | EntryProvider_LazyEntries e =>
      Some (TimingsProvider_Timings (LazyEntries_Timings e))
  end.

(** The accessors of [ContentProvider], by dispatch. *)
Definition GetSize (p : ContentProvider) : Z :=
  match p with
  | ContentProvider_Content c => Standard.GetSize c
  | ContentProvider_OptimizedContent c => Optimized.GetSize c
  | ContentProvider_lazyContentWrapper w => Lazy.GetSize w
  end.

Definition GetMimeType (p : ContentProvider) : string :=
  match p with
  | ContentProvider_Content c => Standard.GetMimeType c
  | ContentProvider_OptimizedContent c => Optimized.GetMimeType c
  | ContentProvider_lazyContentWrapper w => Lazy.GetMimeType w
  end.

Definition GetText (p : ContentProvider) : string :=
  match p with
  | ContentProvider_Content c => Standard.GetText c
  | ContentProvider_OptimizedContent c => Optimized.GetText c
  | ContentProvider_lazyContentWrapper w => snd (Lazy.GetText w)
  end.

Definition GetEncoding (p : ContentProvider) : string :=
  match p with
  | ContentProvider_Content c => Standard.GetEncoding c
  | ContentProvider_OptimizedContent c => Optimized.GetEncoding c
  | ContentProvider_lazyContentWrapper w => snd (Lazy.GetEncoding w)
  end.

Definition GetSSL (p : TimingsProvider) : float :=
  match p with
  | TimingsProvider_Timings t => Standard.GetSSL t
  | TimingsProvider_OptimizedTimings t => Optimized.GetSSL t
  end.


(** ** Documents and a library instance for the examples

    The examples run the entry points on JSON texts.  [render] writes the
    text of a document made of objects, arrays, plain strings, booleans,
    [null] and integer numbers; [example_stdlib] answers as the Go library
    does on the texts, times and URLs the examples use (the text
    [render d] scans to [d]), and reports an error on any other text. *)

Module Examples.

Definition float_of_Z (z : Z) : float :=
  match z with
  | Z0 => 0%float
  | Zpos _ => PrimFloat.of_uint63 (Uint63.of_Z z)
  | Zneg p => PrimFloat.opp (PrimFloat.of_uint63 (Uint63.of_Z (Zpos p)))
  end.

(** An integer literal. *)
Definition jint (z : Z) : json := JNum (Some z) (float_of_Z z).

Definition dquote : string := String (ascii_of_nat 34) EmptyString.
Definition quoted (s : string) : string := dquote ++ s ++ dquote.

Fixpoint join (sep : string) (l : list string) : string :=
  match l with
  | [] => ""
  | [x] => x
  | x :: r => x ++ sep ++ join sep r
  end.

Fixpoint render (j : json) : string :=
  match j with
  | JNull => "null"
  | JBool b => if b then "true" else "false"
  | JNum i _ => match i with Some z => itoa z | None => "1e999" end
  | JStr s => quoted s
  | JArr l => "[" ++ join "," (map render l) ++ "]"
  | JObj ms =>
      "{" ++ join "," (map (fun kv => quoted (fst kv) ++ ":" ++ render (snd kv)) ms)
        ++ "}"
  end.

Definition ex_time : string := "2024-01-01T00:00:00Z".
Definition ex_url : string := "https://example.com/".

Definition ex_request (method : string) (headers query : list json) : json :=
  JObj [ ("method", JStr method); ("url", JStr ex_url);
         ("httpVersion", JStr "HTTP/1.1"); ("cookies", JArr []);
         ("headers", JArr headers); ("queryString", JArr query);
         ("headersSize", jint 10); ("bodySize", jint 0) ].

Definition ex_content : json :=
  JObj [ ("size", jint 5); ("mimeType", JStr "text/plain");
         ("text", JStr "hello") ].

Definition ex_response (status : json) : json :=
  JObj [ ("status", status); ("statusText", JStr "OK");
         ("httpVersion", JStr "HTTP/1.1"); ("cookies", JArr []);
         ("headers", JArr []); ("content", ex_content);
         ("redirectURL", JStr ""); ("headersSize", jint 10);
         ("bodySize", jint 5) ].

(** A timings object; [ssl] is the list of its [ssl] members. *)
Definition ex_timings (ssl : list (string * json)) : json :=
  JObj ([ ("blocked", jint 1); ("dns", jint 1); ("connect", jint 1) ]
          ++ ssl
          ++ [ ("send", jint 1); ("wait", jint 1); ("receive", jint 1) ])%list.

Definition ex_entry (status : json) (ssl : list (string * json)) : json :=
  JObj [ ("startedDateTime", JStr ex_time); ("time", jint 6);
         ("request", ex_request "GET" [] []);
         ("response", ex_response status); ("cache", JObj []);
         ("timings", ex_timings ssl) ].

Definition ex_archive (creator : string) (entries : list json) : json :=
  JObj [ ("log",
          JObj [ ("version", JStr "1.2");
                 ("creator",
                  JObj [ ("name", JStr creator); ("version", JStr "1.0") ]);
                 ("entries", JArr entries) ]) ].

(** One valid entry with a body text and no [ssl] timing. *)
Definition doc_one : json := ex_archive "go-har" [ex_entry (jint 200) []].
(** The same with an explicit ["ssl": 0]. *)
Definition doc_ssl0 : json :=
  ex_archive "go-har" [ex_entry (jint 200) [("ssl", jint 0)]].
(** Two entries, the second with the status ["not-a-number"]. *)
Definition doc_bad_status : json :=
  ex_archive "go-har"
    [ex_entry (jint 200) []; ex_entry (JStr "not-a-number") []].
(** An empty [log] object. *)
Definition doc_empty_log : json := JObj [("log", JObj [])].
(** A valid archive of one entry whose creator is named ["entries"]. *)
Definition doc_creator_entries : json :=
  ex_archive "entries" [ex_entry (jint 200) []].
(** The empty object: no [log] member. *)
Definition doc_empty : json := JObj [].
(** A valid archive of two entries. *)
Definition doc_two : json :=
  ex_archive "go-har" [ex_entry (jint 200) []; ex_entry (jint 404) []].

Definition documents : list json :=
  [doc_one; doc_ssl0; doc_bad_status; doc_empty_log; doc_creator_entries;
   doc_two; doc_empty].

(** January 1, 2024 is 738885 days after January 1 of year 1. *)
Definition ex_instant : Time := 738885 * 86400 * 1000000000.

#[export] Instance example_stdlib : GoStdlib := {|
  json_scan s := List.find (fun d => String.eqb (render d) s) documents;
  time_Parse s := if String.eqb s ex_time then Some ex_instant else None;
  url_Parse s := None
|}.

End Examples.

(** ** Definitions used in the statements *)

Definition har_of_version (version : string) : Har :=
  mkHar (mkLog version zero_Creator None None).

(** The prefix match that [DetectHarVersion] amounts to. *)
Definition normalize_version (version : string) : string :=
  let t := TrimSpace version in
  if HasPrefix t "1.1" then "1.1"
  else if HasPrefix t "1.2" then "1.2"
  else if HasPrefix t "1.3" then "1.3"
  else "1.2".

Definition selects (name : string) (kv : string * json) : bool :=
  key_is name (fst kv).

(** The root error that [ValidateHarFile] starts from. *)
Definition validation_root : HarError :=
  mkHarError ErrCodeValidation "HAR验证失败" None "" [] [].

(** An error with its partial errors replaced. *)
Definition with_partial (e : HarError) (l : list HarError) : HarError :=
  mkHarError (Code e) (Message e) (Err e) (Field e) (Metadata e) l.

(** The violations that the basic-structure checks find: version, creator
    name, creator version and entries presence. *)
Definition basic_violations (h : Har) : list HarError :=
  PartialErrors (fst (validateBasicStructure h validation_root)).

(** The violations that the version check, the per-entry checks (request,
    response, content, headers, cookies, timings) and the page checks
    find. *)
Definition content_violations `{!GoStdlib} (h : Har) : list HarError :=
  PartialErrors
    (validatePages (Log_Pages (Har_Log h))
       (validateEntries (Log_Entries (Har_Log h))
          (validateVersion h validation_root))).

(** All violations found by all checks, as the claim words it. *)
Definition all_violations `{!GoStdlib} (h : Har) : list HarError :=
  (basic_violations h ++ content_violations h)%list.

(** An archive without a version whose one page has no ID. *)
Definition har_no_version_no_page_id : Har :=
  mkHar
    (mkLog "" (mkCreator "go-har" "1.0")
       (Some [mkPages Examples.ex_instant "" "title" zero_PageTimings])
       (Some [])).

(** The partial error that [parseLenient] records for the entry at
    index [i]. *)
Definition entry_error (i : Z) : HarError :=
  WithField
    (NewJSONParseError ("无法解析第" ++ itoa (i + 1) ++ "个entry")
       (Some json_UnmarshalError))
    (indexed "log.entries" i).

(** The raw entry [j] decodes to the entry [e]. *)
Definition decodes_to `{!GoStdlib} (j : json) (e : Entries) : Prop :=
  unmarshal_Entries j zero_Entries = Some e.

(** The options of [ParseHarLenient]. *)
Definition lenient_options (collect : bool) : ParseOptions :=
  mkParseOptions true false collect 100.

(** *** The compact round trip *)

Definition round_trip (A : Har) : Har := ToStandardHar (ToOptimizedHar A).

Definition round_trip_entry (e : Entries) : Entries :=
  convertToStandardEntry (convertToOptimizedEntry e).

(** The value that the last header of the name [name] has. *)
Definition last_value (name : string) (hs : list Headers) : option string :=
  Headers_Value
    <$> List.find (fun h => String.eqb (Headers_Name h) name) (rev hs).

(** A header list after the round trip: its name/value pairs are those of
    the name-keyed map, in which the last header of a name wins; when no
    name occurs twice, it is the original list up to order. *)
Definition headers_kept (hs hs' : slice Headers) : Prop :=
  NoDup (Headers_Name <$> elems hs')
  /\ (forall n v, mkHeaders n v ∈ elems hs' <-> last_value n (elems hs) = Some v)
  /\ (NoDup (Headers_Name <$> elems hs) -> elems hs' ≡ₚ elems hs).

(** A timing after the round trip: a zero (of either sign) comes back as
    [0], any other value as it was. *)
Definition timing_kept (x y : float) : Prop :=
  y = if fnonzero x then x else 0%float.

Record timings_kept (t t' : Timings) : Prop := {
  kept_blocked : timing_kept (Timings_Blocked t) (Timings_Blocked t');
  kept_dns : timing_kept (Timings_DNS t) (Timings_DNS t');
  kept_connect : timing_kept (Timings_Connect t) (Timings_Connect t');
  kept_ssl : timing_kept (Timings_Ssl t) (Timings_Ssl t');
  kept_send : timing_kept (Timings_Send t) (Timings_Send t');
  kept_wait : timing_kept (Timings_Wait t) (Timings_Wait t');
  kept_receive : timing_kept (Timings_Receive t) (Timings_Receive t');
  kept_queueing :
    timing_kept (Timings_BlockedQueueing t) (Timings_BlockedQueueing t');
  kept_proxy : timing_kept (Timings_BlockedProxy t) (Timings_BlockedProxy t')
}.

(** The nine verbs of [stringToMethod]. *)
Definition known_methods : list string :=
  ["GET"; "POST"; "PUT"; "DELETE"; "HEAD"; "OPTIONS"; "PATCH"; "CONNECT";
   "TRACE"].

(** The method after the round trip: the upper case of the method when
    that is one of the nine verbs, whatever the case of its letters, and
    [UNKNOWN] otherwise. *)
Definition method_kept (m m' : string) : Prop :=
  m' = if existsb (String.eqb (ToUpper m)) known_methods
       then ToUpper m else "UNKNOWN".

Record request_kept (r r' : Request) : Prop := {
  kept_method : method_kept (Request_Method r) (Request_Method r');
  kept_url : Request_URL r' = Request_URL r;
  kept_req_version : Request_HTTPVersion r' = Request_HTTPVersion r;
  kept_req_cookies : Request_Cookies r' = Request_Cookies r;
  kept_req_headers : headers_kept (Request_Headers r) (Request_Headers r');
  kept_req_headers_size : Request_HeadersSize r' = Request_HeadersSize r;
  kept_req_body_size : Request_BodySize r' = Request_BodySize r
}.

Record response_kept (r r' : Response) : Prop := {
  kept_status : Response_Status r' = Response_Status r;
  kept_status_text : Response_StatusText r' = Response_StatusText r;
  kept_resp_version : Response_HTTPVersion r' = Response_HTTPVersion r;
  kept_resp_cookies : Response_Cookies r' = Response_Cookies r;
  kept_resp_headers : headers_kept (Response_Headers r) (Response_Headers r');
  kept_content_size :
    Content_Size (Response_Content r') = Content_Size (Response_Content r);
  kept_content_mime :
    Content_MimeType (Response_Content r')
    = Content_MimeType (Response_Content r);
  kept_redirect : Response_RedirectURL r' = Response_RedirectURL r;
  kept_resp_headers_size : Response_HeadersSize r' = Response_HeadersSize r;
  kept_resp_body_size : Response_BodySize r' = Response_BodySize r;
  kept_transfer_size : Response_TransferSize r' = Response_TransferSize r
}.

(** What the compact round trip keeps of an entry.  The request's query
    string and post data, the content's text and encoding, and the
    [_error], [_initiator], [_priority] and [_resourceType] extensions are
    not mentioned. *)
Record entry_kept (e e' : Entries) : Prop := {
  kept_started : Entries_StartedDateTime e' = Entries_StartedDateTime e;
  kept_time : Entries_Time e' = Entries_Time e;
  kept_request : request_kept (Entries_Request e) (Entries_Request e');
  kept_response : response_kept (Entries_Response e) (Entries_Response e');
  kept_cache : Entries_Cache e' = Entries_Cache e;
  kept_timings : timings_kept (Entries_Timings e) (Entries_Timings e');
  kept_pageref : Entries_Pageref e' = Entries_Pageref e;
  kept_server_ip : Entries_ServerIPAddress e' = Entries_ServerIPAddress e;
  kept_connection : Entries_Connection e' = Entries_Connection e
}.

(** Equality modulo the order of the header and query-string lists, as the
    claim words it: the lists have the same name/value pairs, every other
    field is equal. *)
Definition same_pairs (l l' : slice Headers) : Prop :=
  forall h : Headers, h ∈ elems l <-> h ∈ elems l'.

Definition without_lists (e : Entries) : Entries :=
  let q := Entries_Request e in
  let r := Entries_Response e in
  mkEntries (Entries_StartedDateTime e) (Entries_Time e)
    (mkRequest (Request_Method q) (Request_URL q) (Request_HTTPVersion q)
       (Request_Cookies q) None None (Request_PostData q)
       (Request_HeadersSize q) (Request_BodySize q))
    (mkResponse (Response_Status r) (Response_StatusText r)
       (Response_HTTPVersion r) (Response_Cookies r) None
       (Response_Content r) (Response_RedirectURL r) (Response_HeadersSize r)
       (Response_BodySize r) (Response_TransferSize r) (Response_Error r))
    (Entries_Cache e) (Entries_Timings e) (Entries_Pageref e)
    (Entries_ServerIPAddress e) (Entries_Connection e) (Entries_Initiator e)
    (Entries_Priority e) (Entries_ResourceType e).

Definition entry_equal_modulo_order (e e' : Entries) : Prop :=
  without_lists e = without_lists e'
  /\ same_pairs (Request_Headers (Entries_Request e))
       (Request_Headers (Entries_Request e'))
  /\ same_pairs (Request_QueryString (Entries_Request e))
       (Request_QueryString (Entries_Request e'))
  /\ same_pairs (Response_Headers (Entries_Response e))
       (Response_Headers (Entries_Response e')).

Definition equal_modulo_order (A A' : Har) : Prop :=
  Log_Version (Har_Log A') = Log_Version (Har_Log A)
  /\ Log_Creator (Har_Log A') = Log_Creator (Har_Log A)
  /\ Log_Pages (Har_Log A') = Log_Pages (Har_Log A)
  /\ Forall2 entry_equal_modulo_order
       (elems (Log_Entries (Har_Log A))) (elems (Log_Entries (Har_Log A'))).

(** A valid archive of one entry whose request method is [PURGE]. *)
Definition har_purge : Har :=
  mkHar
    (mkLog "1.2" (mkCreator "go-har" "1.0") None
       (Some
          [ mkEntries Examples.ex_instant 6%float
              (mkRequest "PURGE" Examples.ex_url "HTTP/1.1" None None None
                 JNull 0 0)
              (mkResponse 200 "OK" "HTTP/1.1" None None
                 (mkContent 5 "text/plain" "" "") "" 0 0 0 JNull)
              zero_Cache zero_Timings "" "" "" zero_Initiator "" "" ])).

(** The entry that the valid raw entry of the examples decodes to. *)
Definition example_entry : Entries :=
  match @unmarshal_Entries Examples.example_stdlib
          (Examples.ex_entry (Examples.jint 200) []) zero_Entries with
  | Some e => e
  | None => zero_Entries
  end.

(** *** Auxiliary definitions of the proofs *)

(** The checks leave everything but the partial errors of the root error
    as it is. *)
Definition same_head (r r' : HarError) : Prop :=
  Code r' = Code r /\ Message r' = Message r /\ Err r' = Err r
  /\ Field r' = Field r /\ Metadata r' = Metadata r.

(** The loop body of the entries loop of [parseLenient]. *)
Definition entries_step `{!GoStdlib} (i : Z) (entryBytes : json)
    (acc : list Entries * HarError) : list Entries * HarError :=
  match unmarshal_Entries entryBytes zero_Entries with
  | Some entry => ((fst acc ++ [entry])%list, snd acc)
  | None => (fst acc, AddPartialError (snd acc) (entry_error i))
  end.

(** The map that the header loop builds. *)
Definition fold_headers (l : list Headers) : gmap string string :=
  fold_left (fun m h => <[Headers_Name h := Headers_Value h]> m) l ∅.

(** The body texts of the responses of an archive. *)
Definition body_texts (h : Har) : list string :=
  Content_Text ∘ Response_Content ∘ Entries_Response
    <$> elems (Log_Entries (Har_Log h)).

(** The deferred contents of a lazy archive: whether they are loaded, and
    their text. *)
Definition deferred_texts (lh : LazyHar) : list (option (bool * option string)) :=
  (fun e =>
     (fun c => (LazyContent_loaded c, LazyContent_Text c))
       <$> LazyResponse_Content (LazyEntries_Response e))
    <$> elems (LazyLog_Entries (LazyHar_Log lh)).


(** Induction on a document and, with it, on the elements of its arrays
    and the members of its objects. *)
Section json_induction.

Variable P : json -> Prop.
Hypothesis Hnull : P JNull.
Hypothesis Hbool : forall b, P (JBool b).
Hypothesis Hnum : forall i f, P (JNum i f).
Hypothesis Hstr : forall s, P (JStr s).
Hypothesis Harr : forall l, Forall P l -> P (JArr l).
Hypothesis Hobj : forall ms, Forall (fun kv => P (snd kv)) ms -> P (JObj ms).

Fixpoint json_nested_ind (j : json) : P j :=
  match j with
  | JNull => Hnull
  | JBool b => Hbool b
  | JNum i f => Hnum i f
  | JStr s => Hstr s
  | JArr l =>
      Harr l
        ((fix go (l : list json) : Forall P l :=
            match l with
            | [] => List.Forall_nil P
            | x :: r => @List.Forall_cons _ P x r (json_nested_ind x) (go r)
            end) l)
  | JObj ms =>
      Hobj ms
        ((fix go (ms : list (string * json))
           : Forall (fun kv => P (snd kv)) ms :=
            match ms with
            | [] => List.Forall_nil _
            | kv :: r =>
                @List.Forall_cons _ (fun kv => P (snd kv)) kv r
                  (json_nested_ind (snd kv)) (go r)
            end) ms)
  end.

End json_induction.

(** What [parse_value] does with a complete value [v] under the open
    arrays and objects of [stack]. *)
Definition feed (stack : list frame) (v : json) (rest : list token)
  : option (json * list token) :=
  match stack with
  | [] => Some (v, rest)
  | FArr done :: st => parse_value (FArr (v :: done) :: st) rest
  | FVal done k :: st => parse_value (FKey ((k, v) :: done) :: st) rest
  | FKey _ :: _ => None
  end.

(** The stack expects a value, not a key. *)
Definition value_position (stack : list frame) : Prop :=
  match stack with
  | FKey _ :: _ => False
  | _ => True
  end.

(** The tokens of [j], under any stack that expects a value, are read
    back as [j]. *)
Definition parses (j : json) : Prop :=
  forall (stack : list frame) (rest : list token),
    value_position stack ->
    parse_value stack (tokens j ++ rest) = feed stack j rest.

(** An iterator that is open. *)
Definition iter_at (h : StreamingHar) (ts : list token) (eof : GoError)
    (err : option GoError) (pos : Z) (e : Entries) : StreamingEntryIterator :=
  mkStreamingEntryIterator h (mkDecoder ts eof) err pos e false.

(** A token other than the string "entries". *)
Definition not_entries (t : token) : Prop := t <> TStr "entries".

(** * The other parts of the package *)

(** ** More of the standard library

    The operations of [regexp], [strings], [time], [fmt] and
    [encoding/csv] that the filter and the converter call. *)

Class GoText : Type := {
  (** [regexp.Compile(expr)]: [None] on a compile error, else the
      [MatchString] of the compiled expression; *)
  regexp_Compile : string -> option (string -> bool);
  (** [strings.EqualFold]: equality under Unicode simple case folding; *)
  EqualFold : string -> string -> bool;
  (** [t.Format(time.RFC3339)]; *)
  time_Format : Time -> string;
  (** [fmt.Sprintf("%.2f", x)]; *)
  Sprintf_2f : float -> string;
  (** the line that a [csv.Writer] with the default settings writes for
      a record. *)
  csv_Write : list string -> string
}.

(** [append(s, x)]: never nil. *)
Definition append {A} (s : slice A) (x : A) : slice A :=
  Some (elems s ++ [x])%list.

(** ** Building an archive (builder.go)

    The methods mutate their receiver and return it; here each method
    returns the receiver after the call.  [AddPage] and [AddEntry] return
    a pointer to the element they appended, [&h.Log.Entries[i]]: the model
    returns the index [i], and [Har_at_entry] is a method call through
    that pointer while it still points into the slice of the archive (no
    later [append] has moved the elements).  The time of [time.Now()] is
    the argument [now]. *)

Definition NewHar : Har :=
  {| Har_Log :=
       {| Log_Version := "1.2";
          Log_Creator := {| Creator_Name := "go-har"; Creator_Version := "1.0" |};
          Log_Pages := Some [];
          Log_Entries := Some [] |} |}.

Definition Har_SetCreator (h : Har) (name version : string) : Har :=
  let log := Har_Log h in
  {| Har_Log :=
       {| Log_Version := Log_Version log;
          Log_Creator := {| Creator_Name := name; Creator_Version := version |};
          Log_Pages := Log_Pages log;
          Log_Entries := Log_Entries log |} |}.

Definition Har_AddPage (now : Time) (h : Har) (id title : string) : Har * nat :=
  let log := Har_Log h in
  let page :=
    {| Pages_StartedDateTime := now;
       Pages_ID := id;
       Pages_Title := title;
       Pages_PageTimings :=
         {| PageTimings_OnContentLoad := (-1)%float;
            PageTimings_OnLoad := (-1)%float;
            PageTimings_Comment := "" |} |} in
  let pages := append (Log_Pages log) page in
  ({| Har_Log :=
        {| Log_Version := Log_Version log;
           Log_Creator := Log_Creator log;
           Log_Pages := pages;
           Log_Entries := Log_Entries log |} |},
   (length (elems pages) - 1)%nat).

Definition Pages_SetPageTimings (p : Pages) (onContentLoad onLoad : float)
  : Pages :=
  {| Pages_StartedDateTime := Pages_StartedDateTime p;
     Pages_ID := Pages_ID p;
     Pages_Title := Pages_Title p;
     Pages_PageTimings :=
       {| PageTimings_OnContentLoad := onContentLoad;
          PageTimings_OnLoad := onLoad;
          PageTimings_Comment := PageTimings_Comment (Pages_PageTimings p) |} |}.

Definition Har_AddEntry (now : Time) (h : Har)
    (method url httpVersion pageref : string) : Har * nat :=
  let log := Har_Log h in
  let entry :=
    {| Entries_StartedDateTime := now;
       Entries_Time := 0%float;
       Entries_Request :=
         {| Request_Method := method;
            Request_URL := url;
            Request_HTTPVersion := httpVersion;
            Request_Cookies := Some [];
            Request_Headers := Some [];
            Request_QueryString := Some [];
            Request_PostData := JNull;
            Request_HeadersSize := -1;
            Request_BodySize := -1 |};
       Entries_Response :=
         {| Response_Status := 0;
            Response_StatusText := "";
            Response_HTTPVersion := httpVersion;
            Response_Cookies := Some [];
            Response_Headers := Some [];
            Response_Content :=
              {| Content_Size := 0; Content_MimeType := "";
                 Content_Text := ""; Content_Encoding := "" |};
            Response_RedirectURL := "";
            Response_HeadersSize := -1;
            Response_BodySize := -1;
            Response_TransferSize := -1;
            Response_Error := JNull |};
       Entries_Cache := zero_Cache;
       Entries_Timings :=
         {| Timings_Blocked := (-1)%float;
            Timings_DNS := (-1)%float;
            Timings_Connect := (-1)%float;
            Timings_Ssl := (-1)%float;
            Timings_Send := (-1)%float;
            Timings_Wait := (-1)%float;
            Timings_Receive := (-1)%float;
            Timings_BlockedQueueing := 0%float;
            Timings_BlockedProxy := 0%float |};
       Entries_Pageref := pageref;
       Entries_ServerIPAddress := "";
       Entries_Connection := "";
       Entries_Initiator := zero_Initiator;
       Entries_Priority := "";
       Entries_ResourceType := "" |} in
  let entries := append (Log_Entries log) entry in
  ({| Har_Log :=
        {| Log_Version := Log_Version log;
           Log_Creator := Log_Creator log;
           Log_Pages := Log_Pages log;
           Log_Entries := entries |} |},
   (length (elems entries) - 1)%nat).

(** The receiver with its request, response or timings replaced. *)
Definition Entries_with_Request (e : Entries) (r : Request) : Entries :=
  {| Entries_StartedDateTime := Entries_StartedDateTime e;
     Entries_Time := Entries_Time e;
     Entries_Request := r;
     Entries_Response := Entries_Response e;
     Entries_Cache := Entries_Cache e;
     Entries_Timings := Entries_Timings e;
     Entries_Pageref := Entries_Pageref e;
     Entries_ServerIPAddress := Entries_ServerIPAddress e;
     Entries_Connection := Entries_Connection e;
     Entries_Initiator := Entries_Initiator e;
     Entries_Priority := Entries_Priority e;
     Entries_ResourceType := Entries_ResourceType e |}.

Definition Entries_with_Response (e : Entries) (r : Response) : Entries :=
  {| Entries_StartedDateTime := Entries_StartedDateTime e;
     Entries_Time := Entries_Time e;
     Entries_Request := Entries_Request e;
     Entries_Response := r;
     Entries_Cache := Entries_Cache e;
     Entries_Timings := Entries_Timings e;
     Entries_Pageref := Entries_Pageref e;
     Entries_ServerIPAddress := Entries_ServerIPAddress e;
     Entries_Connection := Entries_Connection e;
     Entries_Initiator := Entries_Initiator e;
     Entries_Priority := Entries_Priority e;
     Entries_ResourceType := Entries_ResourceType e |}.

Definition Entries_AddRequestHeader (e : Entries) (name value : string)
  : Entries :=
  let r := Entries_Request e in
  Entries_with_Request e
    {| Request_Method := Request_Method r;
       Request_URL := Request_URL r;
       Request_HTTPVersion := Request_HTTPVersion r;
       Request_Cookies := Request_Cookies r;
       Request_Headers :=
         append (Request_Headers r)
           {| Headers_Name := name; Headers_Value := value |};
       Request_QueryString := Request_QueryString r;
       Request_PostData := Request_PostData r;
       Request_HeadersSize := Request_HeadersSize r;
       Request_BodySize := Request_BodySize r |}.

Definition Entries_AddResponseHeader (e : Entries) (name value : string)
  : Entries :=
  let r := Entries_Response e in
  Entries_with_Response e
    {| Response_Status := Response_Status r;
       Response_StatusText := Response_StatusText r;
       Response_HTTPVersion := Response_HTTPVersion r;
       Response_Cookies := Response_Cookies r;
       Response_Headers :=
         append (Response_Headers r)
           {| Headers_Name := name; Headers_Value := value |};
       Response_Content := Response_Content r;
       Response_RedirectURL := Response_RedirectURL r;
       Response_HeadersSize := Response_HeadersSize r;
       Response_BodySize := Response_BodySize r;
       Response_TransferSize := Response_TransferSize r;
       Response_Error := Response_Error r |}.

Definition Entries_SetResponseStatus (e : Entries) (status : Z)
    (statusText : string) : Entries :=
  let r := Entries_Response e in
  Entries_with_Response e
    {| Response_Status := status;
       Response_StatusText := statusText;
       Response_HTTPVersion := Response_HTTPVersion r;
       Response_Cookies := Response_Cookies r;
       Response_Headers := Response_Headers r;
       Response_Content := Response_Content r;
       Response_RedirectURL := Response_RedirectURL r;
       Response_HeadersSize := Response_HeadersSize r;
       Response_BodySize := Response_BodySize r;
       Response_TransferSize := Response_TransferSize r;
       Response_Error := Response_Error r |}.

Definition Entries_SetResponseContent (e : Entries) (size : Z)
    (mimeType : string) : Entries :=
  let r := Entries_Response e in
  Entries_with_Response e
    {| Response_Status := Response_Status r;
       Response_StatusText := Response_StatusText r;
       Response_HTTPVersion := Response_HTTPVersion r;
       Response_Cookies := Response_Cookies r;
       Response_Headers := Response_Headers r;
       Response_Content :=
         {| Content_Size := size;
            Content_MimeType := mimeType;
            Content_Text := Content_Text (Response_Content r);
            Content_Encoding := Content_Encoding (Response_Content r) |};
       Response_RedirectURL := Response_RedirectURL r;
       Response_HeadersSize := Response_HeadersSize r;
       Response_BodySize := Response_BodySize r;
       Response_TransferSize := Response_TransferSize r;
       Response_Error := Response_Error r |}.

Definition Entries_SetTimings (e : Entries)
    (blocked dns connect send wait receive ssl : float) : Entries :=
  let t := Entries_Timings e in
  {| Entries_StartedDateTime := Entries_StartedDateTime e;
     Entries_Time := (blocked + dns + connect + send + wait + receive)%float;
     Entries_Request := Entries_Request e;
     Entries_Response := Entries_Response e;
     Entries_Cache := Entries_Cache e;
     Entries_Timings :=
       {| Timings_Blocked := blocked;
          Timings_DNS := dns;
          Timings_Connect := connect;
          Timings_Ssl := ssl;
          Timings_Send := send;
          Timings_Wait := wait;
          Timings_Receive := receive;
          Timings_BlockedQueueing := Timings_BlockedQueueing t;
          Timings_BlockedProxy := Timings_BlockedProxy t |};
     Entries_Pageref := Entries_Pageref e;
     Entries_ServerIPAddress := Entries_ServerIPAddress e;
     Entries_Connection := Entries_Connection e;
     Entries_Initiator := Entries_Initiator e;
     Entries_Priority := Entries_Priority e;
     Entries_ResourceType := Entries_ResourceType e |}.

(** A method call [p.m(...)] through the pointer [p = &h.Log.Entries[i]]. *)
Definition Har_at_entry (i : nat) (m : Entries -> Entries) (h : Har) : Har :=
  let log := Har_Log h in
  {| Har_Log :=
       {| Log_Version := Log_Version log;
          Log_Creator := Log_Creator log;
          Log_Pages := Log_Pages log;
          Log_Entries :=
            match Log_Entries log with
            | None => None
            | Some l => Some (alter m i l)
            end |} |}.

(** ** Filtering entries (filter.go) *)

Record FilterOptions : Type := mkFilterOptions {
  FilterOptions_URL : string;
  FilterOptions_Method : string;
  FilterOptions_StatusCode : Z;
  FilterOptions_StatusCodeMin : Z;
  FilterOptions_StatusCodeMax : Z;
  FilterOptions_ContentType : string;
  FilterOptions_StartTime : Time;
  FilterOptions_EndTime : Time;
  FilterOptions_MinDuration : float;
  FilterOptions_MaxDuration : float;
  FilterOptions_ResourceType : string;
  FilterOptions_HasError : bool;
  FilterOptions_HeaderName : string;
  FilterOptions_HeaderValue : string;
  FilterOptions_RespHeaderName : string;
  FilterOptions_RespHeaderValue : string;
  FilterOptions_UseRegex : bool
}.

Record FilterResult : Type := mkFilterResult {
  FilterResult_Entries : slice Entries
}.

(** The zero value [FilterOptions{}]. *)
Definition zero_FilterOptions : FilterOptions :=
  {| FilterOptions_URL := "";
     FilterOptions_Method := "";
     FilterOptions_StatusCode := 0;
     FilterOptions_StatusCodeMin := 0;
     FilterOptions_StatusCodeMax := 0;
     FilterOptions_ContentType := "";
     FilterOptions_StartTime := Time_zero;
     FilterOptions_EndTime := Time_zero;
     FilterOptions_MinDuration := 0%float;
     FilterOptions_MaxDuration := 0%float;
     FilterOptions_ResourceType := "";
     FilterOptions_HasError := false;
     FilterOptions_HeaderName := "";
     FilterOptions_HeaderValue := "";
     FilterOptions_RespHeaderName := "";
     FilterOptions_RespHeaderValue := "";
     FilterOptions_UseRegex := false |}.

(** The options with the URL criterion cleared. *)
Definition FilterOptions_without_URL (o : FilterOptions) : FilterOptions :=
  {| FilterOptions_URL := "";
     FilterOptions_Method := FilterOptions_Method o;
     FilterOptions_StatusCode := FilterOptions_StatusCode o;
     FilterOptions_StatusCodeMin := FilterOptions_StatusCodeMin o;
     FilterOptions_StatusCodeMax := FilterOptions_StatusCodeMax o;
     FilterOptions_ContentType := FilterOptions_ContentType o;
     FilterOptions_StartTime := FilterOptions_StartTime o;
     FilterOptions_EndTime := FilterOptions_EndTime o;
     FilterOptions_MinDuration := FilterOptions_MinDuration o;
     FilterOptions_MaxDuration := FilterOptions_MaxDuration o;
     FilterOptions_ResourceType := FilterOptions_ResourceType o;
     FilterOptions_HasError := FilterOptions_HasError o;
     FilterOptions_HeaderName := FilterOptions_HeaderName o;
     FilterOptions_HeaderValue := FilterOptions_HeaderValue o;
     FilterOptions_RespHeaderName := FilterOptions_RespHeaderName o;
     FilterOptions_RespHeaderValue := FilterOptions_RespHeaderValue o;
     FilterOptions_UseRegex := FilterOptions_UseRegex o |}.

Section Filter.

Context `{!GoText}.

(** [matchesFilter]: every criterion that is set and not met returns
    [false]; the header loops stop at the first match. *)
Definition matchesFilter (entry : Entries) (options : FilterOptions) : bool :=
  let req := Entries_Request entry in
  let resp := Entries_Response entry in
  if negb (String.eqb (FilterOptions_URL options) "")
     && (if FilterOptions_UseRegex options
         then match regexp_Compile (FilterOptions_URL options) with
              | Some re => negb (re (Request_URL req))
              | None => false
              end
         else negb (Contains (Request_URL req) (FilterOptions_URL options)))
  then false
  else if negb (String.eqb (FilterOptions_Method options) "")
          && negb (String.eqb (Request_Method req) (FilterOptions_Method options))
  then false
  else if Z.ltb 0 (FilterOptions_StatusCode options)
          && negb (Z.eqb (Response_Status resp) (FilterOptions_StatusCode options))
  then false
  else if Z.ltb 0 (FilterOptions_StatusCodeMin options)
          && Z.ltb (Response_Status resp) (FilterOptions_StatusCodeMin options)
  then false
  else if Z.ltb 0 (FilterOptions_StatusCodeMax options)
          && Z.ltb (FilterOptions_StatusCodeMax options) (Response_Status resp)
  then false
  else if negb (String.eqb (FilterOptions_ContentType options) "")
          && negb (existsb
                     (fun header =>
                        EqualFold (Headers_Name header) "Content-Type"
                        && Contains (Headers_Value header)
                             (FilterOptions_ContentType options))
                     (elems (Response_Headers resp)))
  then false
  else if negb (IsZero (FilterOptions_StartTime options))
          && Z.ltb (Entries_StartedDateTime entry) (FilterOptions_StartTime options)
  then false
  else if negb (IsZero (FilterOptions_EndTime options))
          && Z.ltb (FilterOptions_EndTime options) (Entries_StartedDateTime entry)
  then false
  else if PrimFloat.ltb 0%float (FilterOptions_MinDuration options)
          && PrimFloat.ltb (Entries_Time entry) (FilterOptions_MinDuration options)
  then false
  else if PrimFloat.ltb 0%float (FilterOptions_MaxDuration options)
          && PrimFloat.ltb (FilterOptions_MaxDuration options) (Entries_Time entry)
  then false
  else if negb (String.eqb (FilterOptions_ResourceType options) "")
          && negb (String.eqb (Entries_ResourceType entry)
                     (FilterOptions_ResourceType options))
  then false
  else if FilterOptions_HasError options
          && (Z.ltb (Response_Status resp) 400 || Z.leb 600 (Response_Status resp))
  then false
  else if negb (String.eqb (FilterOptions_HeaderName options) "")
          && negb (existsb
                     (fun header =>
                        EqualFold (Headers_Name header)
                          (FilterOptions_HeaderName options)
                        && (String.eqb (FilterOptions_HeaderValue options) ""
                            || Contains (Headers_Value header)
                                 (FilterOptions_HeaderValue options)))
                     (elems (Request_Headers req)))
  then false
  else if negb (String.eqb (FilterOptions_RespHeaderName options) "")
          && negb (existsb
                     (fun header =>
                        EqualFold (Headers_Name header)
                          (FilterOptions_RespHeaderName options)
                        && (String.eqb (FilterOptions_RespHeaderValue options) ""
                            || Contains (Headers_Value header)
                                 (FilterOptions_RespHeaderValue options)))
                     (elems (Response_Headers resp)))
  then false
  else true.

(** [Har.Filter]: the result starts as the nil slice. *)
Definition Har_Filter (h : Har) (options : FilterOptions) : FilterResult :=
  {| FilterResult_Entries :=
       fold_left
         (fun result entry =>
            if matchesFilter entry options then append result entry else result)
         (elems (Log_Entries (Har_Log h))) None |}.

Definition Har_FindByURL (h : Har) (urlStr : string) (useRegex : bool)
  : FilterResult :=
  Har_Filter h
    (mkFilterOptions urlStr "" 0 0 0 "" Time_zero Time_zero 0%float 0%float ""
       false "" "" "" "" useRegex).

Definition Har_FindByMethod (h : Har) (method : string) : FilterResult :=
  Har_Filter h
    (mkFilterOptions "" method 0 0 0 "" Time_zero Time_zero 0%float 0%float ""
       false "" "" "" "" false).

Definition Har_FindByStatusCode (h : Har) (statusCode : Z) : FilterResult :=
  Har_Filter h
    (mkFilterOptions "" "" statusCode 0 0 "" Time_zero Time_zero 0%float 0%float
       "" false "" "" "" "" false).

Definition Har_FindErrors (h : Har) : FilterResult :=
  Har_Filter h
    (mkFilterOptions "" "" 0 0 0 "" Time_zero Time_zero 0%float 0%float ""
       true "" "" "" "" false).

Definition Har_FindByTimeRange (h : Har) (start end_ : Time) : FilterResult :=
  Har_Filter h
    (mkFilterOptions "" "" 0 0 0 "" start end_ 0%float 0%float ""
       false "" "" "" "" false).

Definition Har_FindByContentType (h : Har) (contentType : string)
  : FilterResult :=
  Har_Filter h
    (mkFilterOptions "" "" 0 0 0 contentType Time_zero Time_zero 0%float 0%float
       "" false "" "" "" "" false).

Definition Har_FindSlowRequests (h : Har) (minDuration : float) : FilterResult :=
  Har_Filter h
    (mkFilterOptions "" "" 0 0 0 "" Time_zero Time_zero minDuration 0%float ""
       false "" "" "" "" false).

End Filter.

Definition FilterResult_Count (fr : FilterResult) : Z :=
  len (FilterResult_Entries fr).

(** [FilterResult.First]: a pointer to the first entry, or nil. *)
Definition FilterResult_First (fr : FilterResult) : option Entries :=
  if Z.ltb 0 (len (FilterResult_Entries fr))
  then head (elems (FilterResult_Entries fr))
  else None.

Definition FilterResult_ToHar (fr : FilterResult) : Har :=
  let log := Har_Log NewHar in
  {| Har_Log :=
       {| Log_Version := Log_Version log;
          Log_Creator := Log_Creator log;
          Log_Pages := Log_Pages log;
          Log_Entries := FilterResult_Entries fr |} |}.

(** *** Definitions used in the statements on validation *)

(** An error with more partial errors appended. *)
Definition add_partial_errors (r : HarError) (l : list HarError) : HarError :=
  with_partial r (PartialErrors r ++ l).

(** The loop body of [validateEntries]. *)
Definition entry_checks `{!GoStdlib} (i : Z) (entry : Entries)
    (rootError : HarError) : HarError :=
  let entryPrefix := indexed "log.entries" i in
  let rootError :=
    if IsZero (Entries_StartedDateTime entry)
    then AddPartialError rootError
           (NewValidationError "条目必须有开始时间"
              (entryPrefix ++ ".startedDateTime"))
    else rootError in
  let rootError :=
    validateRequest (Entries_Request entry) (entryPrefix ++ ".request") rootError in
  let rootError :=
    validateResponse (Entries_Response entry) (entryPrefix ++ ".response")
      rootError in
  validateTimings (Entries_Timings entry) (entryPrefix ++ ".timings") rootError.

(** The violations that [validateEntries] finds in the entry at index [i]. *)
Definition entry_violations `{!GoStdlib} (i : Z) (e : Entries) : list HarError :=
  PartialErrors (entry_checks i e validation_root).

(** The four violations of an entry as [AddEntry] makes it. *)
Definition fresh_entry_violations (i : Z) : list HarError :=
  [ NewValidationError "HTTP响应必须有有效的状态码"
      ((indexed "log.entries" i ++ ".response") ++ ".status");
    NewValidationError "内容必须有MIME类型"
      (((indexed "log.entries" i ++ ".response") ++ ".content") ++ ".mimeType");
    NewValidationError "等待时间不能为负"
      ((indexed "log.entries" i ++ ".timings") ++ ".wait");
    NewValidationError "接收时间不能为负"
      ((indexed "log.entries" i ++ ".timings") ++ ".receive") ].

(** A check that only appends partial errors, the same whatever the root
    error holds already. *)
Definition appends_only (f : HarError -> HarError) : Prop :=
  forall r : HarError,
    f r = add_partial_errors r (PartialErrors (f validation_root)).

(** The chain [e.SetResponseStatus(...).SetResponseContent(...).SetTimings(...)]. *)
Definition complete_entry (status : Z) (statusText : string) (size : Z)
    (mimeType : string) (blocked dns connect send wait receive ssl : float)
    (e : Entries) : Entries :=
  Entries_SetTimings
    (Entries_SetResponseContent
       (Entries_SetResponseStatus e status statusText) size mimeType)
    blocked dns connect send wait receive ssl.

(** What the validator wants of the arguments of an entry built by
    [AddEntry] and completed by [complete_entry]. *)
Definition entry_arguments_valid `{!GoStdlib} (now : Time)
    (method url httpVersion : string) (status : Z) (mimeType : string)
    (wait receive : float) : bool :=
  negb (IsZero now)
  && negb (String.eqb method "")
  && negb (String.eqb url "")
  && match url_Parse url with None => true | Some _ => false end
  && negb (String.eqb httpVersion "")
  && Z.ltb 0 status
  && negb (String.eqb mimeType "")
  && negb (fneg wait)
  && negb (fneg receive).

(** *** What the validator accepts

    The conditions that the checks of validator.go test, as predicates on
    the data. *)

Definition Headers_valid (hs : slice Headers) : Prop :=
  Forall (fun h => Headers_Name h <> "") (elems hs).

Definition Cookies_valid (cs : slice Cookie) : Prop :=
  Forall (fun c => Cookie_Name c <> "") (elems cs).

Definition Request_valid `{!GoStdlib} (q : Request) : Prop :=
  Request_Method q <> ""
  /\ Request_URL q <> ""
  /\ url_Parse (Request_URL q) = None
  /\ Request_HTTPVersion q <> ""
  /\ Headers_valid (Request_Headers q)
  /\ Cookies_valid (Request_Cookies q).

Definition Response_valid (r : Response) : Prop :=
  0 < Response_Status r
  /\ Response_HTTPVersion r <> ""
  /\ Content_MimeType (Response_Content r) <> ""
  /\ Headers_valid (Response_Headers r)
  /\ Cookies_valid (Response_Cookies r).

Definition Timings_valid (t : Timings) : Prop :=
  fneg (Timings_Wait t) = false /\ fneg (Timings_Receive t) = false.

Definition Entries_valid `{!GoStdlib} (e : Entries) : Prop :=
  IsZero (Entries_StartedDateTime e) = false
  /\ Request_valid (Entries_Request e)
  /\ Response_valid (Entries_Response e)
  /\ Timings_valid (Entries_Timings e).

Definition Pages_valid (p : Pages) : Prop :=
  Pages_ID p <> "" /\ IsZero (Pages_StartedDateTime p) = false.

Definition Har_valid `{!GoStdlib} (h : Har) : Prop :=
  IsValidHarVersion (Log_Version (Har_Log h)) = true
  /\ Creator_Name (Log_Creator (Har_Log h)) <> ""
  /\ Creator_Version (Log_Creator (Har_Log h)) <> ""
  /\ Log_Entries (Har_Log h) <> None
  /\ Forall Entries_valid (elems (Log_Entries (Har_Log h)))
  /\ Forall Pages_valid (elems (Log_Pages (Har_Log h))).

(** A check that finds nothing. *)
Definition silent (f : HarError -> HarError) : Prop :=
  PartialErrors (f validation_root) = [].

(** ** Converting an archive to text (converter.go) *)

(** The bytes that the Go source writes as escapes: new line, tab and
    double quote. *)
Definition newline : string := String (ascii_of_nat 10) EmptyString.
Definition tab : string := String (ascii_of_nat 9) EmptyString.
Definition double_quote : ascii := ascii_of_nat 34.

(** [strings.Join]. *)
Fixpoint Join (elems : list string) (sep : string) : string :=
  match elems with
  | [] => ""
  | [x] => x
  | x :: r => x ++ sep ++ Join r sep
  end.

(** [strings.Repeat] for a count that is not negative. *)
Fixpoint Repeat (s : string) (count : nat) : string :=
  match count with
  | O => ""
  | S n => s ++ Repeat s n
  end.

(** [strings.ReplaceAll(s, old, new)] for an [old] of one byte, which is
    how the converter calls it. *)
Fixpoint ReplaceAll (s : string) (old : ascii) (new : string) : string :=
  match s with
  | EmptyString => EmptyString
  | String c r =>
      if Ascii.eqb c old then new ++ ReplaceAll r old new
      else String c (ReplaceAll r old new)
  end.

(** [append(s, x1, ..., xn)] for [n > 0]. *)
Definition append_all {A} (s : slice A) (xs : list A) : slice A :=
  Some (elems s ++ xs)%list.

Definition ConvertFormat : Type := string.
Definition FormatCSV : ConvertFormat := "csv".
Definition FormatMarkdown : ConvertFormat := "markdown".
Definition FormatHTML : ConvertFormat := "html".
Definition FormatText : ConvertFormat := "text".

Record ConvertOptions : Type := mkConvertOptions {
  ConvertOptions_IncludeURL : bool;
  ConvertOptions_IncludeMethod : bool;
  ConvertOptions_IncludeStatus : bool;
  ConvertOptions_IncludeContentType : bool;
  ConvertOptions_IncludeSize : bool;
  ConvertOptions_IncludeTime : bool;
  ConvertOptions_IncludeTimings : bool;
  ConvertOptions_IncludeHeaders : bool;
  ConvertOptions_IncludeDateTime : bool;
  ConvertOptions_Headers : slice string;
  ConvertOptions_Filter : option FilterOptions
}.

Definition DefaultConvertOptions : ConvertOptions :=
  {| ConvertOptions_IncludeURL := true;
     ConvertOptions_IncludeMethod := true;
     ConvertOptions_IncludeStatus := true;
     ConvertOptions_IncludeContentType := true;
     ConvertOptions_IncludeSize := true;
     ConvertOptions_IncludeTime := true;
     ConvertOptions_IncludeTimings := false;
     ConvertOptions_IncludeHeaders := false;
     ConvertOptions_IncludeDateTime := true;
     ConvertOptions_Headers := None;
     ConvertOptions_Filter := None |}.

Definition getHeaders (options : ConvertOptions) : slice string :=
  if Z.ltb 0 (len (ConvertOptions_Headers options))
  then ConvertOptions_Headers options
  else
    let headers : slice string := None in
    let headers :=
      if ConvertOptions_IncludeDateTime options
      then append headers "日期时间" else headers in
    let headers :=
      if ConvertOptions_IncludeMethod options
      then append headers "方法" else headers in
    let headers :=
      if ConvertOptions_IncludeURL options
      then append headers "URL" else headers in
    let headers :=
      if ConvertOptions_IncludeStatus options
      then append headers "状态码" else headers in
    let headers :=
      if ConvertOptions_IncludeContentType options
      then append headers "内容类型" else headers in
    let headers :=
      if ConvertOptions_IncludeSize options
      then append headers "大小(字节)" else headers in
    let headers :=
      if ConvertOptions_IncludeTime options
      then append headers "时间(ms)" else headers in
    if ConvertOptions_IncludeTimings options
    then append_all headers
           ["阻塞(ms)"; "DNS(ms)"; "连接(ms)"; "发送(ms)"; "等待(ms)"; "接收(ms)"]
    else headers.

(** [escapeHTML]: four replacements, one after the other. *)
Definition escapeHTML (s : string) : string :=
  let s := ReplaceAll s "&" "&amp;" in
  let s := ReplaceAll s "<" "&lt;" in
  let s := ReplaceAll s ">" "&gt;" in
  ReplaceAll s double_quote "&quot;".

Section Converter.

Context `{!GoText}.

Definition createDataRow (entry : Entries) (options : ConvertOptions)
  : slice string :=
  let row : slice string := None in
  let row :=
    if ConvertOptions_IncludeDateTime options
    then append row (time_Format (Entries_StartedDateTime entry)) else row in
  let row :=
    if ConvertOptions_IncludeMethod options
    then append row (Request_Method (Entries_Request entry)) else row in
  let row :=
    if ConvertOptions_IncludeURL options
    then append row (Request_URL (Entries_Request entry)) else row in
  let row :=
    if ConvertOptions_IncludeStatus options
    then append row
           (itoa (Response_Status (Entries_Response entry)) ++ " "
              ++ Response_StatusText (Entries_Response entry))
    else row in
  let row :=
    if ConvertOptions_IncludeContentType options
    then append row
           (Content_MimeType (Response_Content (Entries_Response entry)))
    else row in
  let row :=
    if ConvertOptions_IncludeSize options
    then append row
           (itoa (Content_Size (Response_Content (Entries_Response entry))))
    else row in
  let row :=
    if ConvertOptions_IncludeTime options
    then append row (Sprintf_2f (Entries_Time entry)) else row in
  if ConvertOptions_IncludeTimings options
  then append_all row
         [ Sprintf_2f (Timings_Blocked (Entries_Timings entry));
           Sprintf_2f (Timings_DNS (Entries_Timings entry));
           Sprintf_2f (Timings_Connect (Entries_Timings entry));
           Sprintf_2f (Timings_Send (Entries_Timings entry));
           Sprintf_2f (Timings_Wait (Entries_Timings entry));
           Sprintf_2f (Timings_Receive (Entries_Timings entry)) ]
  else row.

(** The writes to the buffer are the concatenation of the written
    texts.  Writing to a [bytes.Buffer] does not fail, so that the
    [csv.Writer] reports no error. *)
Definition convertToCSV (entries : slice Entries) (options : ConvertOptions)
  : string * option GoError :=
  let headers := getHeaders options in
  (fold_left
     (fun buf entry => buf ++ csv_Write (elems (createDataRow entry options)))
     (elems entries) (csv_Write (elems headers)),
   None).

Definition convertToMarkdown (entries : slice Entries)
    (options : ConvertOptions) : string * option GoError :=
  let headers := getHeaders options in
  let buf := "| " ++ Join (elems headers) " | " ++ " |" ++ newline in
  let buf :=
    buf ++ "|" ++ Repeat " --- |" (length (elems headers)) ++ "|" ++ newline in
  (fold_left
     (fun buf entry =>
        let row := elems (createDataRow entry options) in
        let row := map (fun cell => ReplaceAll cell "|" "\|") row in
        buf ++ "| " ++ Join row " | " ++ " |" ++ newline)
     (elems entries) buf,
   None).

Definition convertToHTML (entries : slice Entries) (options : ConvertOptions)
  : string * option GoError :=
  let buf :=
    "<table border=" ++ String double_quote "1" ++ String double_quote ">"
      ++ newline in
  let headers := getHeaders options in
  let buf := buf ++ "  <thead>" ++ newline in
  let buf := buf ++ "    <tr>" ++ newline in
  let buf :=
    fold_left
      (fun buf header =>
         buf ++ "      <th>" ++ escapeHTML header ++ "</th>" ++ newline)
      (elems headers) buf in
  let buf := buf ++ "    </tr>" ++ newline in
  let buf := buf ++ "  </thead>" ++ newline in
  let buf := buf ++ "  <tbody>" ++ newline in
  let buf :=
    fold_left
      (fun buf entry =>
         let row := createDataRow entry options in
         let buf := buf ++ "    <tr>" ++ newline in
         let buf :=
           fold_left
             (fun buf cell =>
                buf ++ "      <td>" ++ escapeHTML cell ++ "</td>" ++ newline)
             (elems row) buf in
         buf ++ "    </tr>" ++ newline)
      (elems entries) buf in
  let buf := buf ++ "  </tbody>" ++ newline in
  let buf := buf ++ "</table>" ++ newline in
  (buf, None).

Definition convertToText (entries : slice Entries) (options : ConvertOptions)
  : string * option GoError :=
  let headers := getHeaders options in
  let buf := Join (elems headers) tab ++ newline in
  let buf := buf ++ Repeat "-" 80 ++ newline in
  (fold_left
     (fun buf entry =>
        buf ++ Join (elems (createDataRow entry options)) tab ++ newline)
     (elems entries) buf,
   None).

(** [Har.Convert]: the text and the error. *)
Definition Har_Convert (h : Har) (format : ConvertFormat)
    (options : ConvertOptions) : string * option GoError :=
  let entries := Log_Entries (Har_Log h) in
  let entries :=
    match ConvertOptions_Filter options with
    | Some filter => FilterResult_Entries (Har_Filter h filter)
    | None => entries
    end in
  if String.eqb format FormatCSV then convertToCSV entries options
  else if String.eqb format FormatMarkdown then convertToMarkdown entries options
  else if String.eqb format FormatHTML then convertToHTML entries options
  else if String.eqb format FormatText then convertToText entries options
  else ("", Some (fmt_Errorf "不支持的转换格式: %s" [TStr format])).

End Converter.

(** *** Definitions used in the statements on the converter *)

(** The escape of one byte. *)
Definition escape_byte (c : ascii) : string :=
  if Ascii.eqb c "&" then "&amp;"
  else if Ascii.eqb c "<" then "&lt;"
  else if Ascii.eqb c ">" then "&gt;"
  else if Ascii.eqb c double_quote then "&quot;"
  else String c EmptyString.

(** A text escaped byte by byte, in one pass. *)
Fixpoint escape_bytes (s : string) : string :=
  match s with
  | EmptyString => EmptyString
  | String c r => escape_byte c ++ escape_bytes r
  end.

(** The options with the filter taken out, and with [IncludeHeaders]
    set. *)
Definition ConvertOptions_with (o : ConvertOptions) (includeHeaders : bool)
    (filter : option FilterOptions) : ConvertOptions :=
  {| ConvertOptions_IncludeURL := ConvertOptions_IncludeURL o;
     ConvertOptions_IncludeMethod := ConvertOptions_IncludeMethod o;
     ConvertOptions_IncludeStatus := ConvertOptions_IncludeStatus o;
     ConvertOptions_IncludeContentType := ConvertOptions_IncludeContentType o;
     ConvertOptions_IncludeSize := ConvertOptions_IncludeSize o;
     ConvertOptions_IncludeTime := ConvertOptions_IncludeTime o;
     ConvertOptions_IncludeTimings := ConvertOptions_IncludeTimings o;
     ConvertOptions_IncludeHeaders := includeHeaders;
     ConvertOptions_IncludeDateTime := ConvertOptions_IncludeDateTime o;
     ConvertOptions_Headers := ConvertOptions_Headers o;
     ConvertOptions_Filter := filter |}.

(** The four formats of [Convert]. *)
Definition known_format (format : ConvertFormat) : bool :=
  String.eqb format "csv" || String.eqb format "markdown"
  || String.eqb format "html" || String.eqb format "text".

(** ** The option presets (options.go) *)

Definition OptMemoryEfficient : list Option :=
  [WithMemoryOptimized; WithSkipValidation].
Definition OptFast : list Option := [WithSkipValidation].
Definition OptLenient : list Option := [WithLenient; WithCollectWarnings].
Definition OptPerformance : list Option :=
  [WithMemoryOptimized; WithSkipValidation; WithLazyLoading].

(** *** Definitions used in the statements on the options *)

(** The options that set the version, the version detection or the
    warning limit. *)
Definition sets_version_or_limit (opt : Option) : bool :=
  match opt with
  | WithHarVersion _ | WithAutoDetectVersion _ | WithMaxWarnings _ => true
  | _ => false
  end.

(** The fields of the options that select and steer the parsing
    strategy. *)
Definition strategy (o : options) : list bool :=
  [lenient o; skipValidation o; collectWarnings o; useMemoryOptimized o;
   useLazyLoading o; useStreaming o].

(** The provider is an interface value that holds a pointer that is not
    nil. *)
Definition holds_archive (p : option HARProvider) : bool :=
  match p with
  | Some (HARProvider_Har (Some _))
  | Some (HARProvider_OptimizedHar (Some _))
  | Some (HARProvider_LazyHar (Some _)) => true
  | _ => false
  end.

(** What [Parse] does with [WithMemoryOptimized]. *)
Definition Parse_optimized `{!GoStdlib} (harFileBytes : string)
  : option HARProvider * option error :=
  match validateInput harFileBytes with
  | Some err => (None, Some (error_HarError err))
  | None =>
      match ParseHar harFileBytes with
      | inl err =>
          (Some (HARProvider_OptimizedHar None),
           Some (error_Wrap "failed to parse HAR bytes" (error_HarError err)))
      | inr h => (Some (HARProvider_OptimizedHar (Some (ToOptimizedHar h))), None)
      end
  end.

(** ** Searching the compact form (optimized.go) *)

Definition OptimizedHar_SearchByURL (oh : OptimizedHar) (urlPattern : string)
  : slice OptimizedEntries :=
  fold_left
    (fun results entry =>
       if Contains (OptimizedRequest_URL (OptimizedEntries_Request entry))
            urlPattern
       then append results entry else results)
    (elems (OptimizedLog_Entries (OptimizedHar_Log oh))) None.

Definition OptimizedHar_SearchByMethod (oh : OptimizedHar) (method : HTTPMethod)
  : slice OptimizedEntries :=
  fold_left
    (fun results entry =>
       if N.eqb (OptimizedRequest_Method (OptimizedEntries_Request entry)) method
       then append results entry else results)
    (elems (OptimizedLog_Entries (OptimizedHar_Log oh))) None.

Definition OptimizedHar_SearchByStatusCode (oh : OptimizedHar) (statusCode : Z)
  : slice OptimizedEntries :=
  fold_left
    (fun results entry =>
       if Z.eqb (OptimizedResponse_Status (OptimizedEntries_Response entry))
            statusCode
       then append results entry else results)
    (elems (OptimizedLog_Entries (OptimizedHar_Log oh))) None.

(** [value, ok := req.Headers[name]]: [None] when [ok] is false. *)
Definition OptimizedRequest_GetRequestHeaderValue (req : OptimizedRequest)
    (name : string) : option string :=
  OptimizedRequest_Headers req !! name.

Definition OptimizedResponse_GetResponseHeaderValue (resp : OptimizedResponse)
    (name : string) : option string :=
  OptimizedResponse_Headers resp !! name.

(** ** The conversions of the provider interface (optimized_impl.go)

    [ToStandard] of the compact form is written apart from
    [ToStandardHar].  The headers are appended to a nil slice in the order
    of the map iteration, which Go leaves unspecified; the model takes the
    order of [map_to_list], and what is proved of the resulting list is
    stated up to permutation. *)

Definition headers_of_map (m : gmap string string) : slice Headers :=
  fold_left
    (fun headers kv =>
       append headers {| Headers_Name := fst kv; Headers_Value := snd kv |})
    (map_to_list m) None.

Definition OptimizedRequest_ToStandard (r : OptimizedRequest) : Request :=
  {| Request_Method := Optimized.GetMethod r;
     Request_URL := OptimizedRequest_URL r;
     Request_HTTPVersion := OptimizedRequest_HTTPVersion r;
     Request_Cookies := Some (elems (OptimizedRequest_Cookies r));
     Request_Headers := headers_of_map (OptimizedRequest_Headers r);
     Request_QueryString := None;
     Request_PostData := JNull;
     Request_HeadersSize := deref (OptimizedRequest_HeadersSize r) 0;
     Request_BodySize := deref (OptimizedRequest_BodySize r) 0 |}.

Definition OptimizedResponse_ToStandard (r : OptimizedResponse) : Response :=
  {| Response_Status := OptimizedResponse_Status r;
     Response_StatusText := OptimizedResponse_StatusText r;
     Response_HTTPVersion := OptimizedResponse_HTTPVersion r;
     Response_Cookies := Some (elems (OptimizedResponse_Cookies r));
     Response_Headers := headers_of_map (OptimizedResponse_Headers r);
     Response_Content :=
       match OptimizedResponse_Content r with
       | Some c => Optimized.Content_ToStandard c
       | None => zero_Content
       end;
     Response_RedirectURL := OptimizedResponse_RedirectURL r;
     Response_HeadersSize := deref (OptimizedResponse_HeadersSize r) 0;
     Response_BodySize := deref (OptimizedResponse_BodySize r) 0;
     Response_TransferSize := 0;
     Response_Error := JNull |}.

Definition OptimizedEntries_ToStandard (e : OptimizedEntries) : Entries :=
  {| Entries_StartedDateTime := OptimizedEntries_StartedDateTime e;
     Entries_Time := OptimizedEntries_Time e;
     Entries_Request := OptimizedRequest_ToStandard (OptimizedEntries_Request e);
     Entries_Response :=
       OptimizedResponse_ToStandard (OptimizedEntries_Response e);
     Entries_Cache := zero_Cache;
     Entries_Timings := Optimized.Timings_ToStandard (OptimizedEntries_Timings e);
     Entries_Pageref := deref (OptimizedEntries_PageRef e) "";
     Entries_ServerIPAddress := "";
     Entries_Connection := "";
     Entries_Initiator := zero_Initiator;
     Entries_Priority := "";
     Entries_ResourceType := "" |}.

Definition OptimizedHar_ToStandard (h : OptimizedHar) : Har :=
  let log := OptimizedHar_Log h in
  {| Har_Log :=
       {| Log_Version := OptimizedLog_Version log;
          Log_Creator := OptimizedLog_Creator log;
          Log_Pages := OptimizedLog_Pages log;
          Log_Entries :=
            Some (OptimizedEntries_ToStandard
                    <$> elems (OptimizedLog_Entries log)) |} |}.

(** *** Definitions used in the statements on the compact form *)

(** A timing through [ToOptimizedHar] and the interface's [ToStandard]:
    a zero (of either sign) comes back as [-1]. *)
Definition timing_through_interface (x : float) : float :=
  if fnonzero x then x else (-1)%float.

(** The canonical form, the compact form of it, and back through the
    interface. *)
Definition through_interface (e : Entries) : Entries :=
  OptimizedEntries_ToStandard (convertToOptimizedEntry e).

(** What the way through the compact form and the interface keeps of a
    request: the header list as [headers_kept] has it, up to order. *)
Record request_through_interface (q q' : Request) : Prop := {
  through_method : method_kept (Request_Method q) (Request_Method q');
  through_url : Request_URL q' = Request_URL q;
  through_req_version : Request_HTTPVersion q' = Request_HTTPVersion q;
  through_req_cookies : elems (Request_Cookies q') = elems (Request_Cookies q);
  through_req_headers : headers_kept (Request_Headers q) (Request_Headers q');
  through_req_headers_size : Request_HeadersSize q' = Request_HeadersSize q;
  through_req_body_size : Request_BodySize q' = Request_BodySize q
}.

(** Of a response: the content keeps its size and MIME type and loses its
    text and encoding; the transfer size is reset. *)
Record response_through_interface (r r' : Response) : Prop := {
  through_status : Response_Status r' = Response_Status r;
  through_status_text : Response_StatusText r' = Response_StatusText r;
  through_resp_version : Response_HTTPVersion r' = Response_HTTPVersion r;
  through_resp_cookies :
    elems (Response_Cookies r') = elems (Response_Cookies r);
  through_resp_headers :
    headers_kept (Response_Headers r) (Response_Headers r');
  through_content :
    Response_Content r'
    = mkContent (Content_Size (Response_Content r))
        (Content_MimeType (Response_Content r)) "" "";
  through_redirect : Response_RedirectURL r' = Response_RedirectURL r;
  through_resp_headers_size : Response_HeadersSize r' = Response_HeadersSize r;
  through_resp_body_size : Response_BodySize r' = Response_BodySize r;
  through_transfer_size : Response_TransferSize r' = 0
}.

(** Of the seven timings: a zero comes back as -1. *)
Record timings_through_interface (t t' : Timings) : Prop := {
  through_blocked :
    Timings_Blocked t' = timing_through_interface (Timings_Blocked t);
  through_dns : Timings_DNS t' = timing_through_interface (Timings_DNS t);
  through_connect :
    Timings_Connect t' = timing_through_interface (Timings_Connect t);
  through_ssl : Timings_Ssl t' = timing_through_interface (Timings_Ssl t);
  through_send : Timings_Send t' = timing_through_interface (Timings_Send t);
  through_wait : Timings_Wait t' = timing_through_interface (Timings_Wait t);
  through_receive :
    Timings_Receive t' = timing_through_interface (Timings_Receive t)
}.

(** Of an entry: the cache state, the server address and the connection
    are reset. *)
Record entry_through_interface (e e' : Entries) : Prop := {
  through_started : Entries_StartedDateTime e' = Entries_StartedDateTime e;
  through_time : Entries_Time e' = Entries_Time e;
  through_pageref : Entries_Pageref e' = Entries_Pageref e;
  through_request :
    request_through_interface (Entries_Request e) (Entries_Request e');
  through_response :
    response_through_interface (Entries_Response e) (Entries_Response e');
  through_timings :
    timings_through_interface (Entries_Timings e) (Entries_Timings e');
  through_cache : Entries_Cache e' = zero_Cache;
  through_server_ip : Entries_ServerIPAddress e' = "";
  through_connection : Entries_Connection e' = ""
}.

(** ** Access by index to the deferred form (lazy.go)

    An index expression [s[i]] panics when [i] is out of range: its value
    is [None] then. *)

Definition index_expr {A} (s : slice A) (i : Z) : option A :=
  if Z.ltb i 0 then None else nth_error (elems s) (Z.to_nat i).

(** [LazyHar.GetEntry]: [None] is a run-time panic; otherwise the error, or
    the entry that the returned pointer points to. *)
Definition LazyHar_GetEntry (lh : LazyHar) (index : Z)
  : option (HarError + LazyEntries) :=
  if Z.ltb index 0 || Z.leb (len (LazyLog_Entries (LazyHar_Log lh))) index
  then Some (inl (NewInvalidValueError "index" (MetaInt index) "索引超出范围"))
  else match index_expr (LazyLog_Entries (LazyHar_Log lh)) index with
       | Some e => Some (inr e)
       | None => None
       end.

Definition LazyHar_GetEntriesCount (lh : LazyHar) : Z :=
  len (LazyLog_Entries (LazyHar_Log lh)).

Definition LazyHar_GetResponseContent (lh : LazyHar) (index : Z)
  : option (HarError + option LazyContent) :=
  match LazyHar_GetEntry lh index with
  | None => None
  | Some (inl err) => Some (inl err)
  | Some (inr entry) => Some (inr (LazyResponse_Content (LazyEntries_Response entry)))
  end.

(** The archive after a write through the content pointer of the entry at
    [index]. *)
Definition LazyHar_with_content (lh : LazyHar) (index : Z) (c : LazyContent)
  : LazyHar :=
  let log := LazyHar_Log lh in
  let set_content (e : LazyEntries) : LazyEntries :=
    let r := LazyEntries_Response e in
    {| LazyEntries_StartedDateTime := LazyEntries_StartedDateTime e;
       LazyEntries_Time := LazyEntries_Time e;
       LazyEntries_Request := LazyEntries_Request e;
       LazyEntries_Response :=
         {| LazyResponse_Status := LazyResponse_Status r;
            LazyResponse_StatusText := LazyResponse_StatusText r;
            LazyResponse_HTTPVersion := LazyResponse_HTTPVersion r;
            LazyResponse_Cookies := LazyResponse_Cookies r;
            LazyResponse_Headers := LazyResponse_Headers r;
            LazyResponse_RedirectURL := LazyResponse_RedirectURL r;
            LazyResponse_HeadersSize := LazyResponse_HeadersSize r;
            LazyResponse_BodySize := LazyResponse_BodySize r;
            LazyResponse_Content := Some c;
            LazyResponse_TransferSize := LazyResponse_TransferSize r;
            LazyResponse_Error := LazyResponse_Error r |};
       LazyEntries_Cache := LazyEntries_Cache e;
       LazyEntries_Timings := LazyEntries_Timings e;
       LazyEntries_Pageref := LazyEntries_Pageref e;
       LazyEntries_Initiator := LazyEntries_Initiator e;
       LazyEntries_Priority := LazyEntries_Priority e;
       LazyEntries_ResourceType := LazyEntries_ResourceType e;
       LazyEntries_Connection := LazyEntries_Connection e;
       LazyEntries_ServerIPAddress := LazyEntries_ServerIPAddress e |} in
  {| LazyHar_Log :=
       {| LazyLog_Version := LazyLog_Version log;
          LazyLog_Creator := LazyLog_Creator log;
          LazyLog_Pages := LazyLog_Pages log;
          LazyLog_Entries :=
            match LazyLog_Entries log with
            | None => None
            | Some l => Some (alter set_content (Z.to_nat index) l)
            end |} |}.

(** [LazyHar.GetResponseText]: [None] is a run-time panic; otherwise the
    archive after the call (the content is loaded in place), the text and
    the error. *)
Definition LazyHar_GetResponseText (lh : LazyHar) (index : Z)
  : option (LazyHar * (option string * option error)) :=
  match LazyHar_GetResponseContent lh index with
  | None => None
  | Some (inl err) => Some (lh, (None, Some (error_HarError err)))
  | Some (inr None) => Some (lh, (None, None))
  | Some (inr (Some content)) =>
      match LazyContent_GetText content with
      | (content', (text, err)) =>
          Some (LazyHar_with_content lh index content',
                (text, error_Go <$> err))
      end
  end.

(** *** Definitions used in the statements on the deferred form *)

(** No member that sets the field [name] is [null]. *)
Definition never_null (name : string) (ms : list (string * json)) : Prop :=
  Forall (fun kv => selects name kv = true -> snd kv <> JNull) ms.

(** ** Parsing with warnings (parse.go) *)

Record Result : Type := mkResult {
  Result_Har : option Har;
  Result_Warnings : slice HarError
}.

(** A slice that was built by [append] from the nil slice, as the partial
    errors of an error are. *)
Definition slice_of_list {A} (l : list A) : slice A :=
  match l with
  | [] => None
  | _ => Some l
  end.

(** The key under which [appendWarnings] records a warning. *)
Definition warning_key (warn : HarError) : string :=
  Field warn ++ ":" ++ Message warn.

(** [warningMap[key]]: [false] for a key that is not in the map. *)
Definition map_flag (m : gmap string bool) (key : string) : bool :=
  match m !! key with
  | Some b => b
  | None => false
  end.

Definition appendWarnings (existing newWarnings : slice HarError)
  : slice HarError :=
  if Z.eqb (len newWarnings) 0 then existing
  else
    match existing with
    | None => newWarnings
    | Some _ =>
        let warningMap : gmap string bool :=
          fold_left (fun m warn => <[warning_key warn := true]> m)
            (elems existing) ∅ in
        fst (fold_left
               (fun (st : slice HarError * gmap string bool) warn =>
                  let key := warning_key warn in
                  if negb (map_flag (snd st) key)
                  then (append (fst st) warn, <[key := true]> (snd st))
                  else st)
               (elems newWarnings) (existing, warningMap))
    end.

Section Warnings.

Context `{!GoStdlib}.

Definition validateURLs (har : option Har) : slice HarError :=
  match har with
  | None => None
  | Some h =>
      if Z.eqb (len (Log_Entries (Har_Log h))) 0 then None
      else
        range
          (fun i entry (warnings : slice HarError) =>
             let url := Request_URL (Entries_Request entry) in
             if String.eqb url "" then warnings
             else
               match url_Parse url with
               | Some err =>
                   append warnings
                     (NewValidationError ("无效的URL格式: " ++ err)
                        ("log.entries[" ++ itoa i ++ "].request.url"))
               | None =>
                   let warnings :=
                     if Contains url " "
                     then append warnings
                            (NewValidationError ("URL包含空格: " ++ url)
                               ("log.entries[" ++ itoa i ++ "].request.url"))
                     else warnings in
                   if negb (Contains url "://")
                   then append warnings
                          (NewValidationError ("URL缺少协议: " ++ url)
                             ("log.entries[" ++ itoa i ++ "].request.url"))
                   else warnings
               end)
          (Log_Entries (Har_Log h)) None
  end.

(** [performFullValidation].  [ValidateHarFile] returns nothing but a
    [*HarError], so that the last branch of the source is not taken. *)
Definition performFullValidation (har : option Har) : slice HarError :=
  match har with
  | None => None
  | Some _ =>
      match ValidateHarFile har with
      | None => None
      | Some harErr => slice_of_list (GetPartialErrors harErr)
      end
  end.

Definition ParseHarEnhanced (harFileBytes : string)
  : option Har * option HarError :=
  match ParseHarWithOptions harFileBytes DefaultParseOptions with
  | (har, Some harErr) => (None, Some harErr)
  | (har, None) => (har, None)
  end.

Definition ParseHarLenient (harFileBytes : string)
  : option Har * option HarError :=
  ParseHarWithOptions harFileBytes
    {| Lenient := true;
       SkipValidation := SkipValidation DefaultParseOptions;
       CollectWarnings := true;
       MaxWarnings := MaxWarnings DefaultParseOptions |}.

(** [ParseHarWithWarnings]: the result ([None] is nil) and the error. *)
Definition ParseHarWithWarnings (harFileBytes : string)
  : option Result * option HarError :=
  let options :=
    {| Lenient := true;
       SkipValidation := SkipValidation DefaultParseOptions;
       CollectWarnings := true;
       MaxWarnings := MaxWarnings DefaultParseOptions |} in
  match ParseHarWithOptions harFileBytes options with
  | (har, err) =>
      let warnings : slice HarError := Some [] in
      let parsed : HarError + slice HarError :=
        match err, har with
        | Some harErr, Some _ =>
            inr (appendWarnings warnings
                   (slice_of_list (GetPartialErrors harErr)))
        | Some harErr, None => inl harErr
        | None, _ => inr warnings
        end in
      match parsed with
      | inl harErr => (None, Some harErr)
      | inr warnings =>
          let urlWarnings := validateURLs har in
          let warnings :=
            if Z.ltb 0 (len urlWarnings)
            then appendWarnings warnings urlWarnings
            else warnings in
          let warnings :=
            if Z.eqb (len warnings) 0
            then appendWarnings warnings (performFullValidation har)
            else warnings in
          (Some {| Result_Har := har; Result_Warnings := warnings |}, None)
      end
  end.

End Warnings.

(** *** Definitions used in the statements on the warnings *)

(** No two warnings have the same key. *)
Definition distinct_keys (l : list HarError) : Prop :=
  NoDup (warning_key <$> l).

(** ** All entries of a stream (streaming.go) *)

Section StreamingAll.

Context `{!GoStdlib}.

(** The loop [for it.Next() { entries = append(entries, *it.Entry()) }],
    run for at most [fuel] calls of [Next]; [None] when the calls are used
    up before [Next] answers false. *)
Fixpoint GetAllEntries_loop (fuel : nat) (it : StreamingEntryIterator)
    (entries : slice Entries)
  : option (slice Entries * StreamingEntryIterator) :=
  match fuel with
  | O => None
  | S k =>
      match Next it with
      | (it', true) => GetAllEntries_loop k it' (append entries (Entry it'))
      | (it', false) => Some (entries, it')
      end
  end.

(** [GetAllEntries]: the entries and the error.  The loop is given one
    call of [Next] more than the decoder has tokens. *)
Definition GetAllEntries (sh : StreamingHar)
  : option (slice Entries * option GoError) :=
  let it := StreamingHar_Entries sh in
  match GetAllEntries_loop (S (length (pending (it_decoder it)))) it None with
  | Some (entries, it') => Some (entries, Iterator_Err it')
  | None => None
  end.

End StreamingAll.

(** ** Examples for the builder, the filter and the converter *)

Module TextExamples.

(** An ASCII letter or digit. *)
Definition is_word (c : ascii) : bool :=
  let n := nat_of_ascii c in
  ((48 <=? n) && (n <=? 57) || (65 <=? n) && (n <=? 90)
   || (97 <=? n) && (n <=? 122))%nat.

(** The text functions on the inputs of the examples.  A pattern of
    letters and digits matches the texts that contain it; the pattern of
    one opening parenthesis does not compile, and the instance knows no
    other pattern.  [EqualFold] is that of ASCII texts.  The date and the
    numbers are those of the examples, and a record is written as it is
    when no field needs quoting. *)
#[export] Instance example_text : GoText := {|
  regexp_Compile expr :=
    if forallb is_word (list_ascii_of_string expr)
    then Some (fun s => Contains s expr)
    else None;
  EqualFold s t := String.eqb (ToUpper s) (ToUpper t);
  time_Format t :=
    if Z.eqb t Examples.ex_instant then Examples.ex_time else "";
  Sprintf_2f x :=
    if PrimFloat.eqb x 0 then "0.00"
    else if PrimFloat.eqb x 1 then "1.00"
    else if PrimFloat.eqb x 6 then "6.00"
    else "";
  csv_Write record := Join record "," ++ newline
|}.

(** The archive of one entry, made by the builder and completed. *)
Definition built_har : Har :=
  Har_at_entry 0
    (complete_entry 200 "OK" 5 "text/plain" 1 1 1 1 1 1 0)
    (fst (Har_AddEntry Examples.ex_instant NewHar "GET" Examples.ex_url
            "HTTP/1.1" "")).

(** The options of [FindByURL] for a pattern that does not compile. *)
Definition bad_pattern : FilterOptions :=
  mkFilterOptions "(" "" 0 0 0 "" Time_zero Time_zero 0%float 0%float ""
    false "" "" "" "" true.

(** A warning. *)
Definition warning (message field : string) : HarError :=
  NewValidationError message field.

(** The members of the content object of the examples. *)
Definition content_members : list (string * json) :=
  [ ("size", Examples.jint 5); ("mimeType", JStr "text/plain");
    ("text", JStr "hello") ].



End TextExamples.

(** ** The conversions of the deferred provider (lazy_impl.go) *)

(** [LazyResponse.ToStandard]: the content without loading it. *)
Definition LazyResponse_ToStandard (r : LazyResponse) : Response :=
  let content :=
    match LazyResponse_Content r with
    | Some c => mkContent (LazyContent_Size c) (LazyContent_MimeType c) "" ""
    | None => zero_Content
    end in
  {| Response_Status := LazyResponse_Status r;
     Response_StatusText := LazyResponse_StatusText r;
     Response_HTTPVersion := LazyResponse_HTTPVersion r;
     Response_Cookies := LazyResponse_Cookies r;
     Response_Headers := LazyResponse_Headers r;
     Response_Content := content;
     Response_RedirectURL := LazyResponse_RedirectURL r;
     Response_HeadersSize := LazyResponse_HeadersSize r;
     Response_BodySize := LazyResponse_BodySize r;
     Response_TransferSize := LazyResponse_TransferSize r;
     Response_Error := LazyResponse_Error r |}.

(** [LazyEntries.ToStandard]: seven fields are copied. *)
Definition LazyEntries_ToStandard (e : LazyEntries) : Entries :=
  {| Entries_StartedDateTime := LazyEntries_StartedDateTime e;
     Entries_Time := LazyEntries_Time e;
     Entries_Request := LazyEntries_Request e;
     Entries_Response := LazyResponse_ToStandard (LazyEntries_Response e);
     Entries_Cache := LazyEntries_Cache e;
     Entries_Timings := LazyEntries_Timings e;
     Entries_Pageref := LazyEntries_Pageref e;
     Entries_ServerIPAddress := "";
     Entries_Connection := "";
     Entries_Initiator := zero_Initiator;
     Entries_Priority := "";
     Entries_ResourceType := "" |}.

(** [LazyHar.ToStandard]: the receiver after the call, and the archive of
    [ToStandardHar], nil when it fails. *)
Definition LazyHar_ToStandard (h : LazyHar) : LazyHar * option Har :=
  match LazyHar_ToStandardHar h with
  | (h', inr standardHar) => (h', Some standardHar)
  | (h', inl _) => (h', None)
  end.

(** *** Definitions used in the statements on the conversions *)

(** An entry without its server address, connection, initiator, priority
    and resource type. *)
Definition without_extras (x : Entries) : Entries :=
  {| Entries_StartedDateTime := Entries_StartedDateTime x;
     Entries_Time := Entries_Time x;
     Entries_Request := Entries_Request x;
     Entries_Response := Entries_Response x;
     Entries_Cache := Entries_Cache x;
     Entries_Timings := Entries_Timings x;
     Entries_Pageref := Entries_Pageref x;
     Entries_ServerIPAddress := "";
     Entries_Connection := "";
     Entries_Initiator := zero_Initiator;
     Entries_Priority := "";
     Entries_ResourceType := "" |}.

(** * Properties *)

(** ** Version normalization *)

Lemma IsValidHarVersion_cases (v : string) :
  IsValidHarVersion v = true -> v = "1.1" \/ v = "1.2" \/ v = "1.3".
Proof.
  unfold IsValidHarVersion, HarSpecVersion11, HarSpecVersion12, HarSpecVersion13.
  intros H.
  apply orb_true_iff in H as [H | H]; [apply orb_true_iff in H as [H | H] |];
    apply String.eqb_eq in H; auto.
Qed.

(** C7.  [DetectHarVersion] is a prefix match on the trimmed version with the
    baseline 1.2: a version that starts with 1.1, 1.2 or 1.3 is mapped to
    that version, any other version, the empty one and a nil archive are
    mapped to 1.2; so "1.2.1" gives "1.2", "1.3.5" gives "1.3", and "0.9" and
    "" give "1.2". *)
Theorem DetectHarVersion_prefix_match :
  (forall h : Har,
      DetectHarVersion (Some h) = normalize_version (Log_Version (Har_Log h)))
  /\ DetectHarVersion None = "1.2"
  /\ DetectHarVersion (Some (har_of_version "1.2.1")) = "1.2"
  /\ DetectHarVersion (Some (har_of_version "1.3.5")) = "1.3"
  /\ DetectHarVersion (Some (har_of_version "0.9")) = "1.2"
  /\ DetectHarVersion (Some (har_of_version "")) = "1.2".
Proof.
  split; [| repeat split; reflexivity].
  intros h. unfold DetectHarVersion, normalize_version.
  destruct (String.eqb (Log_Version (Har_Log h)) "") eqn:Hempty.
  - apply String.eqb_eq in Hempty. rewrite Hempty. reflexivity.
  - destruct (IsValidHarVersion (TrimSpace (Log_Version (Har_Log h)))) eqn:Hvalid.
    + apply IsValidHarVersion_cases in Hvalid as [-> | [-> | ->]]; reflexivity.
    + reflexivity.
Qed.

(** ** The streaming option of [Parse] *)

Lemma applyOption_keeps_streaming (opt : Option) (o : options) :
  useStreaming o = true -> useStreaming (applyOption opt o) = true.
Proof.
  intros H. destruct opt; simpl; auto.
  destruct (IsValidHarVersion version); simpl; auto.
Qed.

Lemma fold_applyOption_keeps_streaming (opts : list Option) (o : options) :
  useStreaming o = true ->
  useStreaming (fold_left (fun o opt => applyOption opt o) opts o) = true.
Proof.
  revert o. induction opts as [| opt opts IH]; intros o H; simpl; [exact H |].
  apply IH. now apply applyOption_keeps_streaming.
Qed.

Lemma applyOptions_streaming (opts : list Option) :
  In WithStreaming opts -> useStreaming (applyOptions opts) = true.
Proof.
  unfold applyOptions. generalize defaultOptions.
  induction opts as [| opt opts IH]; intros o Hin; [destruct Hin |].
  destruct Hin as [-> | Hin]; simpl.
  - now apply fold_applyOption_keeps_streaming.
  - now apply IH.
Qed.

Lemma validateInput_code (b : string) (e : HarError) :
  validateInput b = Some e -> Code e = ErrCodeInvalidFormat.
Proof.
  unfold validateInput. intros H.
  destruct (Nat.eqb (String.length b) 0); [injection H as <-; reflexivity |].
  destruct (negb (isJSONContent b)); [injection H as <-; reflexivity | discriminate].
Qed.

(** C10, as the code has it.  With [WithStreaming] among the options,
    [Parse] returns the nil provider and an error for every input: the
    error of the input validation (kind [InvalidFormat]) when the input is
    empty or not JSON-shaped, and an error of kind [Unsupported]
    otherwise. *)
Theorem Parse_streaming_unsupported `{!GoStdlib} (b : string)
    (opts : list Option) :
  In WithStreaming opts ->
  exists e : HarError,
    Parse b opts = (None, Some (error_HarError e))
    /\ (validateInput b = None -> Code e = ErrCodeUnsupported)
    /\ (validateInput b <> None ->
        validateInput b = Some e /\ Code e = ErrCodeInvalidFormat).
Proof.
  intros Hin. unfold Parse.
  destruct (validateInput b) as [e |] eqn:Hv.
  - exists e. split; [reflexivity |]. split; [discriminate |].
    intros _. split; [reflexivity |]. now apply (validateInput_code b).
  - unfold parseWithStrategy. rewrite (applyOptions_streaming opts Hin).
    eexists. split; [reflexivity |]. split; [reflexivity | congruence].
Qed.

(** The theorem at a JSON-shaped input: the error is [Unsupported]. *)
Lemma Parse_streaming_unsupported_witness :
  In WithStreaming [WithLenient; WithStreaming]
  /\ exists e : HarError,
      @Parse Examples.example_stdlib "{}" [WithLenient; WithStreaming]
      = (None, Some (error_HarError e))
      /\ Code e = ErrCodeUnsupported.
Proof.
  split; [right; left; reflexivity |].
  destruct (@Parse_streaming_unsupported Examples.example_stdlib "{}"
              [WithLenient; WithStreaming]) as [e [H1 [H2 _]]].
  - right; left; reflexivity.
  - exists e. split; [exact H1 | apply H2; reflexivity].
Defined.

(** C10, as the claim states it, fails on the empty input: the error is of
    kind [InvalidFormat]. *)
Lemma Parse_streaming_empty_input :
  @Parse Examples.example_stdlib "" [WithStreaming]
  = (None, Some (error_HarError (NewInvalidFormatError "输入为空")))
  /\ Code (NewInvalidFormatError "输入为空") = ErrCodeInvalidFormat
  /\ ErrCodeInvalidFormat <> ErrCodeUnsupported.
Proof. split; [reflexivity | split; [reflexivity | discriminate]]. Qed.

(** ** Decoding a field that the object does not mention *)

Lemma field_step {A} (dec : json -> A -> option A) (name : string)
    (ms : list (string * json)) (acc : option A) :
  Forall (fun kv => selects name kv = false) ms ->
  fold_left
    (fun acc kv =>
       if key_is name (fst kv)
       then match acc with Some x => dec (snd kv) x | None => None end
       else acc) ms acc = acc.
Proof.
  intros H. revert acc. induction H as [| kv ms Hkv _ IH]; intros acc; simpl.
  - reflexivity.
  - unfold selects in Hkv. rewrite Hkv. apply IH.
Qed.

Lemma field_absent {A} (dec : json -> A -> option A) (name : string)
    (ms : list (string * json)) (old : A) :
  Forall (fun kv => selects name kv = false) ms ->
  field dec name ms old = Some old.
Proof. intros H. unfold field. now apply field_step. Qed.


(** The one member that selects the field decides its value. *)
Lemma field_once {A} (dec : json -> A -> option A) (name : string)
    (ms1 ms2 : list (string * json)) (kv : string * json) (old : A) :
  Forall (fun kv => selects name kv = false) ms1 ->
  Forall (fun kv => selects name kv = false) ms2 ->
  selects name kv = true ->
  field dec name (ms1 ++ kv :: ms2) old = dec (snd kv) old.
Proof.
  intros H1 H2 H. unfold field. rewrite fold_left_app. simpl.
  rewrite (field_step dec name ms1 (Some old) H1).
  unfold selects in H. rewrite H. now apply field_step.
Qed.

(** ** The [ssl] timing *)

(** A timings object without an [ssl] member leaves [Ssl] at the zero
    value. *)
Lemma unmarshal_Timings_no_ssl (ms : list (string * json)) (t : Timings) :
  Forall (fun kv => selects "ssl" kv = false) ms ->
  unmarshal_Timings (JObj ms) zero_Timings = Some t ->
  Timings_Ssl t = 0%float.
Proof.
  intros Hms Ht. unfold unmarshal_Timings, unmarshal_struct in Ht.
  rewrite (field_absent unmarshal_float64 "ssl" ms _ Hms) in Ht.
  repeat match type of Ht with
         | context [field ?d ?n ?m ?o] =>
             destruct (field d n m o); simpl in Ht; [| discriminate]
         end.
  injection Ht as <-. reflexivity.
Qed.



(** The same inside an entry: when the one [timings] member of an entry
    object has no [ssl] member, the decoded entry has [Ssl == 0]. *)
Lemma Entries_absent_ssl_is_zero `{!GoStdlib} (ms1 ms2 tms : list (string * json))
    (e : Entries) :
  Forall (fun kv => selects "timings" kv = false) ms1 ->
  Forall (fun kv => selects "timings" kv = false) ms2 ->
  Forall (fun kv => selects "ssl" kv = false) tms ->
  unmarshal_Entries (JObj (ms1 ++ ("timings", JObj tms) :: ms2)) zero_Entries
  = Some e ->
  Timings_Ssl (Entries_Timings e) = 0%float.
Proof.
  intros H1 H2 Hssl He. unfold unmarshal_Entries, unmarshal_struct in He.
  rewrite (field_once unmarshal_Timings "timings" ms1 ms2
             ("timings", JObj tms) _ H1 H2 eq_refl) in He.
  simpl snd in He. simpl Entries_Timings in He.
  destruct (unmarshal_Timings (JObj tms) zero_Timings) as [t |] eqn:Ht.
  - assert (Hz : Timings_Ssl t = 0%float)
      by exact (unmarshal_Timings_no_ssl tms t Hssl Ht).
    repeat match type of He with
           | context [field ?d ?n ?m ?o] =>
               destruct (field d n m o); simpl in He; [| discriminate]
           end.
    injection He as <-. exact Hz.
  - repeat match type of He with
           | context [field ?d ?n ?m ?o] =>
               destruct (field d n m o); simpl in He; [| discriminate]
           end.
    discriminate He.
Qed.



(** ** Validation collects partial errors behind a gate *)

Lemma same_head_refl (r : HarError) : same_head r r.
Proof. repeat split. Qed.

Lemma same_head_add (r x e : HarError) :
  same_head r x -> same_head r (AddPartialError x e).
Proof. intros H. exact H. Qed.

Lemma same_head_if (r x e : HarError) (c : bool) :
  same_head r x -> same_head r (if c then AddPartialError x e else x).
Proof. intros H. destruct c; exact H. Qed.

Lemma same_head_range_from {A} (body : Z -> A -> HarError -> HarError)
    (xs : list A) :
  (forall i a r x, same_head r x -> same_head r (body i a x)) ->
  forall i r x, same_head r x -> same_head r (range_from body i xs x).
Proof.
  intros Hbody. induction xs as [| a xs IH]; intros i r x H; simpl.
  - exact H.
  - apply IH. now apply Hbody.
Qed.

Lemma same_head_range {A} (body : Z -> A -> HarError -> HarError)
    (xs : slice A) (r x : HarError) :
  (forall i a r x, same_head r x -> same_head r (body i a x)) ->
  same_head r x -> same_head r (range body xs x).
Proof. intros Hbody H. unfold range. now apply same_head_range_from. Qed.

Ltac frame :=
  repeat first
    [ assumption
    | apply same_head_refl
    | apply same_head_if
    | apply same_head_add
    | apply same_head_range; [intros |]
    | match goal with
      | |- same_head _ (match ?x with _ => _ end) => destruct x
      end ].

Lemma validateHeaders_head (hs : slice Headers) (p : string) (r x : HarError) :
  same_head r x -> same_head r (validateHeaders hs p x).
Proof. intros H. unfold validateHeaders. frame. Qed.

Lemma validateCookies_head (cs : slice Cookie) (p : string) (r x : HarError) :
  same_head r x -> same_head r (validateCookies cs p x).
Proof. intros H. unfold validateCookies. frame. Qed.

Lemma validateContent_head (c : Content) (p : string) (r x : HarError) :
  same_head r x -> same_head r (validateContent c p x).
Proof. intros H. unfold validateContent. frame. Qed.

Lemma validateTimings_head (t : Timings) (p : string) (r x : HarError) :
  same_head r x -> same_head r (validateTimings t p x).
Proof. intros H. unfold validateTimings. cbv zeta. frame. Qed.

Lemma validatePages_head (ps : slice Pages) (r x : HarError) :
  same_head r x -> same_head r (validatePages ps x).
Proof.
  intros H. unfold validatePages, validatePageTimings. cbv zeta. frame.
Qed.

Section ValidatorFacts.

Context {stdlib : GoStdlib}.

Lemma validateRequest_head (q : Request) (p : string) (r x : HarError) :
  same_head r x -> same_head r (validateRequest q p x).
Proof.
  intros H. unfold validateRequest. cbv zeta.
  apply validateCookies_head, validateHeaders_head. frame.
Qed.

Lemma validateResponse_head (q : Response) (p : string) (r x : HarError) :
  same_head r x -> same_head r (validateResponse q p x).
Proof.
  intros H. unfold validateResponse. cbv zeta.
  apply validateCookies_head, validateHeaders_head, validateContent_head.
  frame.
Qed.

Lemma validateEntries_head (es : slice Entries) (r x : HarError) :
  same_head r x -> same_head r (validateEntries es x).
Proof.
  intros H. unfold validateEntries. apply same_head_range; [| exact H].
  intros i a r0 x0 H0. cbv zeta.
  apply validateTimings_head, validateResponse_head, validateRequest_head.
  frame.
Qed.

Lemma validateVersion_head (h : Har) (r x : HarError) :
  same_head r x -> same_head r (validateVersion h x).
Proof.
  intros H. unfold validateVersion, validateHarV11, validateHarV12,
    validateHarV13. cbv zeta. frame.
Qed.

Lemma same_head_with_partial (r x : HarError) :
  same_head r x -> x = with_partial r (PartialErrors x).
Proof.
  intros (H1 & H2 & H3 & H4 & H5). destruct x; simpl in *.
  unfold with_partial. congruence.
Qed.

Lemma HasPartialErrors_nil (r : HarError) :
  HasPartialErrors r = false <-> PartialErrors r = [].
Proof.
  unfold HasPartialErrors. destruct (PartialErrors r); simpl; split;
    intros H; try reflexivity; try discriminate.
Qed.

(** The gate of [ValidateHarFile]: the basic-structure checks either find
    nothing and leave the root error as it was, or they stop the
    validation with what they found. *)
Lemma validateBasicStructure_gate (h : Har) :
  match basic_violations h with
  | [] => validateBasicStructure h validation_root = (validation_root, None)
  | l => validateBasicStructure h validation_root
         = (with_partial validation_root l, Some (with_partial validation_root l))
  end.
Proof.
  unfold basic_violations, validateBasicStructure.
  destruct (String.eqb (Log_Version (Har_Log h)) "");
    destruct (String.eqb (Creator_Name (Log_Creator (Har_Log h))) "");
    destruct (String.eqb (Creator_Version (Log_Creator (Har_Log h))) "");
    destruct (Log_Entries (Har_Log h)); reflexivity.
Qed.

(** C5, as the code has it.  [ValidateHarFile] returns nil exactly when no
    check finds a violation.  When the basic-structure checks (version,
    creator name and version, entries presence) find violations, the single
    error carries those and the remaining checks are not run; otherwise it
    carries every violation of the version check, the per-entry request,
    response, content, header, cookie and timing checks and the page
    checks. *)
Theorem ValidateHarFile_collects (h : Har) :
  ValidateHarFile (Some h)
  = match basic_violations h with
    | [] =>
        match content_violations h with
        | [] => None
        | l => Some (with_partial validation_root l)
        end
    | l => Some (with_partial validation_root l)
    end
  /\ (ValidateHarFile (Some h) = None <-> all_violations h = []).
Proof.
  assert (Heq : ValidateHarFile (Some h)
                = match basic_violations h with
                  | [] =>
                      match content_violations h with
                      | [] => None
                      | l => Some (with_partial validation_root l)
                      end
                  | l => Some (with_partial validation_root l)
                  end).
  { pose proof (validateBasicStructure_gate h) as Hgate.
    unfold ValidateHarFile. fold validation_root.
    destruct (basic_violations h) as [| b bs]; rewrite Hgate; [| reflexivity].
    unfold content_violations.
    set (x := validatePages _ _).
    assert (Hx : same_head validation_root x).
    { apply validatePages_head, validateEntries_head, validateVersion_head,
        same_head_refl. }
    apply same_head_with_partial in Hx.
    destruct (HasPartialErrors x) eqn:Hp.
    - destruct (PartialErrors x) eqn:Hl.
      + apply HasPartialErrors_nil in Hl. congruence.
      + now rewrite Hx at 1.
    - apply HasPartialErrors_nil in Hp. now rewrite Hp. }
  split; [exact Heq |].
  rewrite Heq. unfold all_violations.
  destruct (basic_violations h); simpl.
  - destruct (content_violations h); split; intros H;
      try reflexivity; discriminate.
  - split; intros H; discriminate.
Qed.

End ValidatorFacts.

(** C5, as the claim states it, fails: for an archive without a version
    whose page has no ID, the error carries the missing version only; the
    page check, which would find the missing ID, is not run. *)
Lemma ValidateHarFile_stops_at_gate :
  @ValidateHarFile Examples.example_stdlib (Some har_no_version_no_page_id)
  = Some (with_partial validation_root [NewMissingFieldError "log.version"])
  /\ In (NewValidationError "页面必须有ID" "log.pages[0].id")
       (@all_violations Examples.example_stdlib har_no_version_no_page_id)
  /\ ~ In (NewValidationError "页面必须有ID" "log.pages[0].id")
         [NewMissingFieldError "log.version"].
Proof.
  split; [reflexivity |]. split.
  - vm_compute. right. right. left. reflexivity.
  - intros [H | []]. discriminate H.
Qed.

(** ** Lenient decoding *)

Section LenientFacts.

Context {stdlib : GoStdlib}.

Lemma range_from_app {A S} (body : Z -> A -> S -> S) (xs ys : list A) :
  forall (i : Z) (s : S),
    range_from body i (xs ++ ys) s
    = range_from body (i + Z.of_nat (length xs)) ys (range_from body i xs s).
Proof.
  induction xs as [| x xs IH]; intros i s; simpl length.
  - simpl. now rewrite Z.add_0_r.
  - simpl app. simpl range_from. rewrite IH. f_equal. lia.
Qed.

Lemma lenient_entries_unfold (raws : list json) (acc : list Entries * HarError) :
  lenient_entries raws acc = range_from entries_step 0 raws acc.
Proof. reflexivity. Qed.

(** Entries that decode are appended in order and record no error. *)
Lemma entries_step_decoded (raws : list json) (ds : list Entries) :
  Forall2 decodes_to raws ds ->
  forall (i : Z) (es : list Entries) (root : HarError),
    range_from entries_step i raws (es, root) = ((es ++ ds)%list, root).
Proof.
  induction 1 as [| j d raws ds Hj _ IH]; intros i es root; simpl.
  - now rewrite app_nil_r.
  - unfold entries_step at 2. unfold decodes_to in Hj. rewrite Hj. simpl.
    rewrite IH. now rewrite <- app_assoc.
Qed.

(** In the entries loop of [parseLenient], when exactly one raw entry fails
    to decode, the entries list holds the other entries, in order, and one
    partial error is recorded, for the index of the failing entry. *)
Lemma lenient_entries_one_invalid (l1 l2 : list json) (bad : json)
    (d1 d2 es : list Entries) (root : HarError) :
  Forall2 decodes_to l1 d1 ->
  Forall2 decodes_to l2 d2 ->
  unmarshal_Entries bad zero_Entries = None ->
  lenient_entries (l1 ++ bad :: l2) (es, root)
  = ((es ++ d1 ++ d2)%list,
     AddPartialError root (entry_error (Z.of_nat (length l1))))
  /\ Z.of_nat (length (d1 ++ d2)) = Z.of_nat (length (l1 ++ bad :: l2)) - 1
  /\ Field (entry_error (Z.of_nat (length l1)))
     = "log.entries[" ++ itoa (Z.of_nat (length l1)) ++ "]"
  /\ Code (entry_error (Z.of_nat (length l1))) = ErrCodeJSONParse.
Proof.
  intros H1 H2 Hbad. split; [| split; [| split; reflexivity]].
  - rewrite lenient_entries_unfold, range_from_app.
    rewrite (entries_step_decoded l1 d1 H1). simpl range_from.
    unfold entries_step at 2. rewrite Hbad. simpl fst. simpl snd.
    rewrite (entries_step_decoded l2 d2 H2). now rewrite app_assoc.
  - apply Forall2_length in H1, H2.
    rewrite !length_app. simpl length. lia.
Qed.

Lemma HasPartialErrors_cons (r : HarError) :
  PartialErrors r <> [] -> HasPartialErrors r = true.
Proof.
  intros H. destruct (HasPartialErrors r) eqn:E; [reflexivity |].
  now apply HasPartialErrors_nil in E.
Qed.

(** C8, as the code has it.  [parseLenient] fails outright, whatever the
    warning-collection mode, when the [log] member is absent, and when some
    field failed to decode and nothing was recovered (no version, no page,
    no entry).  When some field failed and something was recovered, the
    archive is returned with the aggregated error if warning collection is
    on, and the error alone otherwise.  When no field failed, the archive
    is returned without an error, also when nothing was decoded into it. *)
Theorem parseLenient_outcome (harFileBytes : string) (options : ParseOptions) :
  (forall rawData : gmap string json,
      json_Unmarshal (fun j _ => unmarshal_rawmap j) harFileBytes ∅
      = inr rawData ->
      rawData !! "log" = None ->
      exists err : HarError,
        parseLenient harFileBytes options = (None, Some err)
        /\ PartialErrors err = [NewMissingFieldError "log"])
  /\ (forall (har : Har) (rootError : HarError),
        lenient_collect harFileBytes = inr (har, rootError) ->
        (PartialErrors rootError <> [] -> recovered har = false ->
         parseLenient harFileBytes options = (None, Some rootError))
        /\ (PartialErrors rootError <> [] -> recovered har = true ->
            parseLenient harFileBytes options
            = if CollectWarnings options then (Some har, Some rootError)
              else (None, Some rootError))
        /\ (PartialErrors rootError = [] ->
            parseLenient harFileBytes options = (Some har, None))).
Proof.
  split.
  - intros rawData Hraw Hlog. unfold parseLenient, lenient_collect.
    rewrite Hraw, Hlog. eexists. simpl.
    destruct (CollectWarnings options); split; reflexivity.
  - intros har rootError Hc. unfold parseLenient. rewrite Hc.
    split; [| split].
    + intros Hne Hrec. rewrite (HasPartialErrors_cons _ Hne), Hrec.
      now destruct (CollectWarnings options).
    + intros Hne Hrec. rewrite (HasPartialErrors_cons _ Hne), Hrec.
      now destruct (CollectWarnings options).
    + intros Hnil. apply HasPartialErrors_nil in Hnil. now rewrite Hnil.
Qed.

(** The entries of the archive and the root error after [lenient_log]. *)
Lemma lenient_log_entries (logData : gmap string json) (har : Har)
    (root : HarError) (raws : list json) :
  logData !! "entries" = Some (JArr raws) ->
  exists (v : string) (c : Creator) (ps : list Pages) (r3 : HarError),
    lenient_log logData har root
    = (mkHar
         (mkLog v c (Some ps)
            (Some (fst (lenient_entries raws
                          (elems (Log_Entries (Har_Log har)), r3))))),
       snd (lenient_entries raws (elems (Log_Entries (Har_Log har)), r3))).
Proof.
  intros Hentries. unfold lenient_log. rewrite Hentries.
  simpl unmarshal_rawlist.
  repeat match goal with
         | |- context [match ?x with (_, _) => _ end] =>
             destruct x as [? ?] eqn:?
         end.
  do 4 eexists.
  match goal with H : lenient_entries _ _ = _ |- _ => rewrite H end.
  reflexivity.
Qed.

(** C3, as the code has it.  When exactly one element of the entries
    array fails to decode, lenient decoding leaves that entry out as a
    whole: the entries list of the archive holds the other entries, in
    order (one fewer than the input array), and the last partial error of
    the root error is the one of that entry, of kind [JSONParse], whose
    field path [log.entries[i]] names the entry by its index.  With warning
    collection on, the archive is returned with the root error when
    something was recovered. *)
Theorem parseLenient_one_invalid_entry (harFileBytes : string)
    (options : ParseOptions) (rawData logData : gmap string json)
    (logBytes bad : json) (l1 l2 : list json) (d1 d2 : list Entries) :
  json_Unmarshal (fun j _ => unmarshal_rawmap j) harFileBytes ∅ = inr rawData ->
  rawData !! "log" = Some logBytes ->
  unmarshal_rawmap logBytes = Some logData ->
  logData !! "entries" = Some (JArr (l1 ++ bad :: l2)) ->
  Forall2 decodes_to l1 d1 ->
  Forall2 decodes_to l2 d2 ->
  unmarshal_Entries bad zero_Entries = None ->
  CollectWarnings options = true ->
  exists (har : Har) (rootError : HarError) (others : list HarError),
    parseLenient harFileBytes options
    = (if recovered har then Some har else None, Some rootError)
    /\ elems (Log_Entries (Har_Log har)) = (d1 ++ d2)%list
    /\ Z.of_nat (length (elems (Log_Entries (Har_Log har))))
       = Z.of_nat (length (l1 ++ bad :: l2)) - 1
    /\ PartialErrors rootError
       = (others ++ [entry_error (Z.of_nat (length l1))])%list
    /\ Field (entry_error (Z.of_nat (length l1)))
       = "log.entries[" ++ itoa (Z.of_nat (length l1)) ++ "]"
    /\ Code (entry_error (Z.of_nat (length l1))) = ErrCodeJSONParse.
Proof.
  intros Hraw Hlog Hmap Hentries H1 H2 Hbad Hcollect.
  destruct (lenient_log_entries logData
              (mkHar (mkLog "" zero_Creator (Some []) (Some [])))
              (mkHarError ErrCodeJSONParse
                 "HAR解析过程中发生错误，但部分内容已成功解析" None "" [] [])
              (l1 ++ bad :: l2) Hentries)
    as (v & c & ps & r3 & Hlogres).
  destruct (lenient_entries_one_invalid l1 l2 bad d1 d2 [] r3 H1 H2 Hbad)
    as (Hloop & Hlen & Hfield & Hcode).
  simpl elems in Hlogres. rewrite Hloop in Hlogres. simpl in Hlogres.
  exists (mkHar (mkLog v c (Some ps) (Some (d1 ++ d2)%list))).
  exists (AddPartialError r3 (entry_error (Z.of_nat (length l1)))).
  exists (PartialErrors r3).
  split; [| split; [| split; [| split; [| split]]]].
  - unfold parseLenient, lenient_collect.
    rewrite Hraw, Hlog, Hmap, Hlogres, Hcollect.
    rewrite HasPartialErrors_cons by (simpl; now destruct (PartialErrors r3)).
    simpl andb. now destruct (recovered _).
  - reflexivity.
  - simpl elems. exact Hlen.
  - reflexivity.
  - exact Hfield.
  - exact Hcode.
Qed.


End LenientFacts.

(** The theorem on the document of two entries whose second entry has the
    status ["not-a-number"]. *)
Lemma parseLenient_one_invalid_entry_witness :
  exists (har : Har) (rootError : HarError) (others : list HarError),
    @parseLenient Examples.example_stdlib
      (Examples.render Examples.doc_bad_status) (lenient_options true)
    = (if recovered har then Some har else None, Some rootError)
    /\ Z.of_nat (length (elems (Log_Entries (Har_Log har)))) = 1
    /\ PartialErrors rootError = (others ++ [entry_error 1])%list.
Proof.
  pose proof
    (fun rawData logData logBytes =>
       @parseLenient_one_invalid_entry Examples.example_stdlib
         (Examples.render Examples.doc_bad_status) (lenient_options true)
         rawData logData logBytes (Examples.ex_entry (JStr "not-a-number") [])
         [Examples.ex_entry (Examples.jint 200) []] [] [example_entry] [])
    as H.
  edestruct H as (har & rootError & others & Hres & _ & Hlen & Herrs & _).
  - vm_compute. reflexivity.
  - vm_compute. reflexivity.
  - vm_compute. reflexivity.
  - vm_compute. reflexivity.
  - constructor; [vm_compute; reflexivity | constructor].
  - constructor.
  - vm_compute. reflexivity.
  - reflexivity.
  - exists har, rootError, others. split; [exact Hres |].
    split; [exact Hlen | exact Herrs].
Defined.

(** C3, as the claim states it, fails: of the two entries of the document
    the archive holds one, and the partial error's field path names the
    entry, not the field in it. *)
Lemma parseLenient_drops_entry :
  exists (har : Har) (err e : HarError),
    @parseLenient Examples.example_stdlib
      (Examples.render Examples.doc_bad_status) (lenient_options true)
    = (Some har, Some err)
    /\ length (elems (Log_Entries (Har_Log har))) = 1%nat
    /\ PartialErrors err = [e]
    /\ Field e = "log.entries[1]"
    /\ Field e <> "log.entries[1].response.status".
Proof.
  do 3 eexists.
  split; [vm_compute; reflexivity |].
  split; [reflexivity |]. split; [reflexivity |].
  split; [reflexivity | discriminate].
Qed.

(** The theorem on the empty object: no [log] member. *)
Lemma parseLenient_outcome_witness :
  exists err : HarError,
    @parseLenient Examples.example_stdlib
      (Examples.render Examples.doc_empty) (lenient_options true)
    = (None, Some err)
    /\ PartialErrors err = [NewMissingFieldError "log"].
Proof.
  refine (proj1 (@parseLenient_outcome Examples.example_stdlib
                   (Examples.render Examples.doc_empty) (lenient_options true))
            ∅ _ _).
  - vm_compute. reflexivity.
  - reflexivity.
Defined.

(** C8, as the claim states it, fails: from the document with an empty
    [log] object nothing is decoded (no version, no page, no entry), and
    [parseLenient] returns the empty archive without an error, in both
    modes. *)
Lemma parseLenient_empty_log :
  exists har : Har,
    @parseLenient Examples.example_stdlib
      (Examples.render Examples.doc_empty_log) (lenient_options true)
    = (Some har, None)
    /\ @parseLenient Examples.example_stdlib
         (Examples.render Examples.doc_empty_log) (lenient_options false)
       = (Some har, None)
    /\ @recovered har = false.
Proof.
  eexists. split; [vm_compute; reflexivity |].
  split; [vm_compute; reflexivity | reflexivity].
Qed.

(** ** The compact round trip *)

Lemma deref_int_ptr (x : Z) : deref (int_ptr x) 0 = x.
Proof.
  unfold int_ptr. destruct (Z.eqb_spec x 0) as [-> | _]; reflexivity.
Qed.

Lemma deref_string_ptr (s : string) : deref (string_ptr s) "" = s.
Proof.
  unfold string_ptr. destruct (String.eqb_spec s "") as [-> | _]; reflexivity.
Qed.

Lemma deref_float_ptr (x : float) :
  timing_kept x (deref (float_ptr x) float_zero).
Proof.
  unfold timing_kept, float_ptr. destruct (fnonzero x); reflexivity.
Qed.

Lemma fold_headers_snoc (l : list Headers) (h : Headers) :
  fold_headers (l ++ [h])
  = <[Headers_Name h := Headers_Value h]> (fold_headers l).
Proof. unfold fold_headers. now rewrite fold_left_app. Qed.

(** Last write wins. *)
Lemma fold_headers_lookup (l : list Headers) (n : string) :
  fold_headers l !! n = last_value n l.
Proof.
  induction l as [| h l IH] using rev_ind.
  - reflexivity.
  - rewrite fold_headers_snoc. unfold last_value in *.
    rewrite rev_app_distr. simpl.
    destruct (String.eqb_spec (Headers_Name h) n) as [-> | Hne].
    + now rewrite lookup_insert_eq.
    + now rewrite lookup_insert_ne.
Qed.

Lemma fold_headers_list_to_map (l : list Headers) :
  fold_headers l
  = list_to_map (rev ((fun h => (Headers_Name h, Headers_Value h)) <$> l)).
Proof.
  induction l as [| h l IH] using rev_ind.
  - reflexivity.
  - rewrite fold_headers_snoc, fmap_app, rev_app_distr. simpl.
    now rewrite IH.
Qed.

Lemma map_to_headers_elem (m : gmap string string) (n v : string) :
  mkHeaders n v ∈ map_to_headers m <-> m !! n = Some v.
Proof.
  unfold map_to_headers. rewrite list_elem_of_fmap. split.
  - intros [[k x] [Heq Hin]]. simpl in Heq. injection Heq as -> ->.
    now apply elem_of_map_to_list.
  - intros H. exists (n, v). split; [reflexivity |].
    now apply elem_of_map_to_list.
Qed.

Lemma map_to_headers_names (m : gmap string string) :
  Headers_Name <$> map_to_headers m = (map_to_list m).*1.
Proof.
  unfold map_to_headers. rewrite <- list_fmap_compose.
  apply list_fmap_ext. now intros i [k x] _.
Qed.

Lemma map_to_headers_fold (l : list Headers) :
  NoDup (Headers_Name <$> l) -> map_to_headers (fold_headers l) ≡ₚ l.
Proof.
  intros Hnd. unfold map_to_headers. rewrite fold_headers_list_to_map.
  set (ps := (fun h => (Headers_Name h, Headers_Value h)) <$> l).
  assert (Hrev : rev ps ≡ₚ ps) by (symmetry; apply Permutation_rev).
  assert (Hfst : ps.*1 = Headers_Name <$> l).
  { unfold ps. rewrite <- list_fmap_compose.
    apply list_fmap_ext. now intros i h _. }
  rewrite map_to_list_to_map.
  - rewrite Hrev. unfold ps. rewrite <- list_fmap_compose.
    rewrite <- (list_fmap_id l) at 2. apply Permutation_refl'.
    apply list_fmap_ext. now intros i [n v] _.
  - rewrite Hrev, Hfst. exact Hnd.
Qed.

Lemma headers_kept_round_trip (hs : slice Headers) :
  headers_kept hs (Some (map_to_headers (headers_to_map hs))).
Proof.
  unfold headers_kept, headers_to_map. fold (fold_headers (elems hs)). simpl.
  split; [| split].
  - rewrite map_to_headers_names. apply NoDup_fst_map_to_list.
  - intros n v. rewrite map_to_headers_elem. now rewrite fold_headers_lookup.
  - apply map_to_headers_fold.
Qed.

(** *** The names of the methods *)

Lemma methodToString_keys (m : N) (s : string) :
  methodToString !! m = Some s -> (m <= 9)%N.
Proof.
  intros H. unfold methodToString in H.
  apply elem_of_list_to_map_2 in H.
  repeat (apply elem_of_cons in H; destruct H as [H | H];
          [injection H as -> _; vm_compute; discriminate |]).
  now apply elem_of_nil in H.
Qed.

Lemma small_method (m : N) :
  (m <= 9)%N ->
  m = 0%N \/ m = 1%N \/ m = 2%N \/ m = 3%N \/ m = 4%N \/ m = 5%N \/ m = 6%N
  \/ m = 7%N \/ m = 8%N \/ m = 9%N.
Proof. lia. Qed.

Lemma ParseMethod_String (m : HTTPMethod) :
  ParseMethod (HTTPMethod_String m) = if (m <=? 9)%N then m else MethodUnknown.
Proof.
  destruct (N.leb_spec m 9) as [H | H].
  - apply small_method in H.
    repeat (destruct H as [-> | H]; [reflexivity |]). subst m. reflexivity.
  - unfold HTTPMethod_String.
    destruct (methodToString !! m) eqn:E; [| reflexivity].
    apply methodToString_keys in E. lia.
Qed.

Lemma GetMethod_String (r : OptimizedRequest) :
  Optimized.GetMethod r = HTTPMethod_String (OptimizedRequest_Method r).
Proof.
  unfold Optimized.GetMethod. cbv zeta.
  generalize (OptimizedRequest_Method r). intros m.
  destruct (N.leb_spec m 9) as [H | H].
  - apply small_method in H.
    repeat (destruct H as [-> | H]; [reflexivity |]). subst m. reflexivity.
  - unfold HTTPMethod_String.
    destruct (methodToString !! m) eqn:E;
      [apply methodToString_keys in E; lia |].
    unfold MethodGET, MethodPOST, MethodPUT, MethodDELETE, MethodHEAD,
      MethodOPTIONS, MethodPATCH, MethodCONNECT, MethodTRACE.
    repeat match goal with
           | |- context [N.eqb m ?k] =>
               destruct (N.eqb_spec m k); [lia |]
           end.
    reflexivity.
Qed.

Lemma stringToMethod_names (u : string) (m : N) :
  stringToMethod !! u = Some m ->
  In u known_methods /\ HTTPMethod_String m = u.
Proof.
  intros H. unfold stringToMethod in H.
  apply elem_of_list_to_map_2 in H.
  repeat (apply elem_of_cons in H; destruct H as [H | H];
          [injection H as -> ->; split; [simpl; tauto | reflexivity] |]).
  now apply elem_of_nil in H.
Qed.

Lemma stringToMethod_known (u : string) :
  In u known_methods -> exists m, stringToMethod !! u = Some m.
Proof.
  intros H. simpl in H.
  repeat (destruct H as [<- | H]; [eexists; reflexivity |]). contradiction.
Qed.

(** [String] after [ParseMethod]: the upper case of a text that is one of
    the nine verbs in any case, and [UNKNOWN] for any other text. *)
Lemma ParseMethod_names (m : string) :
  method_kept m (HTTPMethod_String (ParseMethod m)).
Proof.
  unfold method_kept, ParseMethod.
  destruct (stringToMethod !! ToUpper m) as [k |] eqn:E.
  - apply stringToMethod_names in E. destruct E as [Hin Hk].
    rewrite Hk.
    destruct (existsb (String.eqb (ToUpper m)) known_methods) eqn:Hex;
      [reflexivity |].
    exfalso. apply not_true_iff_false in Hex. apply Hex.
    apply existsb_exists. exists (ToUpper m). split; [exact Hin |].
    apply String.eqb_refl.
  - destruct (existsb (String.eqb (ToUpper m)) known_methods) eqn:Hex;
      [| reflexivity].
    apply existsb_exists in Hex. destruct Hex as (u & Hin & Hu).
    apply String.eqb_eq in Hu. subst u.
    apply stringToMethod_known in Hin. destruct Hin as [k Hk].
    unfold HTTPMethod in E. rewrite Hk in E. discriminate E.
Qed.

Lemma round_trip_entry_kept (e : Entries) : entry_kept e (round_trip_entry e).
Proof.
  unfold round_trip_entry.
  constructor; simpl;
    try reflexivity; try apply deref_string_ptr.
  - constructor; simpl; try reflexivity; try apply deref_int_ptr.
    + apply ParseMethod_names.
    + apply headers_kept_round_trip.
  - constructor; simpl; try reflexivity; try apply deref_int_ptr.
    + apply headers_kept_round_trip.
    + destruct (Z.eqb_spec (Content_Size (Response_Content (Entries_Response e))) 0)
        as [Hz | Hz];
        destruct (String.eqb_spec
                    (Content_MimeType (Response_Content (Entries_Response e))) "")
        as [Hm | Hm]; simpl; auto.
    + destruct (Z.eqb_spec (Content_Size (Response_Content (Entries_Response e))) 0)
        as [Hz | Hz];
        destruct (String.eqb_spec
                    (Content_MimeType (Response_Content (Entries_Response e))) "")
        as [Hm | Hm]; simpl; auto.
  - destruct (Entries_Cache e) as [b a c]; simpl.
    destruct (String.eqb_spec c "") as [-> | Hc]; destruct b, a; reflexivity.
  - constructor; simpl; apply deref_float_ptr.
Qed.

Lemma known_methods_kept :
  Forall (fun m => HTTPMethod_String (ParseMethod m) = m) known_methods.
Proof. repeat constructor. Qed.

(** C1, as the code has it.  The compact round trip keeps the version, the
    creator, the pages and the number and order of the entries.  Of every
    entry it keeps the start time, the duration, the URL, the protocol
    versions, the cookies, the status, status text and redirect URL, the
    size counters, the content's size and MIME type, the cache state, the
    page reference, the server address and the connection.  The request
    method comes back as the upper-case name of the verb when it is one of
    the nine known verbs in any case, and as UNKNOWN otherwise.  A header
    list comes back, in some order, as the name/value pairs of the
    name-keyed map, last value of a name winning; when no name occurs twice
    it is the original list up to order.  A timing comes back as it was,
    zero as 0. *)
Theorem compact_round_trip_keeps (A : Har) :
  Log_Version (Har_Log (round_trip A)) = Log_Version (Har_Log A)
  /\ Log_Creator (Har_Log (round_trip A)) = Log_Creator (Har_Log A)
  /\ Log_Pages (Har_Log (round_trip A)) = Log_Pages (Har_Log A)
  /\ Forall2 entry_kept
       (elems (Log_Entries (Har_Log A)))
       (elems (Log_Entries (Har_Log (round_trip A)))).
Proof.
  assert (Hes : elems (Log_Entries (Har_Log (round_trip A)))
                = round_trip_entry <$> elems (Log_Entries (Har_Log A))).
  { unfold round_trip, ToStandardHar, ToOptimizedHar. simpl.
    now rewrite <- list_fmap_compose. }
  repeat split; try reflexivity.
  rewrite Hes. clear Hes.
  induction (elems (Log_Entries (Har_Log A))) as [| e l IH].
  - constructor.
  - constructor; [apply round_trip_entry_kept | exact IH].
Qed.

(** C1, as the claim states it, fails on a valid archive whose request
    method is PURGE: the method comes back as UNKNOWN. *)
Lemma compact_round_trip_method :
  @ValidateHarFile Examples.example_stdlib (Some har_purge) = None
  /\ (Request_Method ∘ Entries_Request
        <$> elems (Log_Entries (Har_Log har_purge))) = ["PURGE"]
  /\ (Request_Method ∘ Entries_Request
        <$> elems (Log_Entries (Har_Log (round_trip har_purge)))) = ["UNKNOWN"]
  /\ ~ equal_modulo_order har_purge (round_trip har_purge).
Proof.
  split; [vm_compute; reflexivity |].
  split; [reflexivity |]. split; [vm_compute; reflexivity |].
  intros (_ & _ & _ & H). inversion H as [| e e' l l' [Heq _] _]; subst.
  apply (f_equal (fun x => Request_Method (Entries_Request x))) in Heq.
  vm_compute in Heq. discriminate Heq.
Qed.

(** ** The deferred representation against strict decoding *)

(** C2 on the valid archive of one entry with the body text "hello".
    Strict decoding keeps the text.  Deferred decoding followed by
    [ToStandardHar] loads the content (the receiver holds the text
    afterwards) and returns an archive whose content has no text: the two
    archives differ. *)
Theorem lazy_ToStandardHar_loses_text :
  exists (h h' : Har) (lh lh' : LazyHar),
    @ParseHar Examples.example_stdlib (Examples.render Examples.doc_one) = inr h
    /\ @ParseHarWithLazyLoading Examples.example_stdlib
         (Examples.render Examples.doc_one) = inr lh
    /\ LazyHar_ToStandardHar lh = (lh', inr h')
    /\ body_texts h = ["hello"]
    /\ deferred_texts lh = [Some (false, None)]
    /\ deferred_texts lh' = [Some (true, Some "hello")]
    /\ body_texts h' = [""]
    /\ h' <> h.
Proof.
  do 4 eexists.
  split; [vm_compute; reflexivity |].
  split; [vm_compute; reflexivity |].
  split; [vm_compute; reflexivity |].
  split; [reflexivity |]. split; [reflexivity |].
  split; [reflexivity |]. split; [reflexivity |].
  intros H. apply (f_equal body_texts) in H. vm_compute in H. discriminate H.
Qed.

(** ** The accessors of the providers *)




(** ** The streaming iterator *)

(** On the valid archive of two entries the iterator answers true twice,
    then false, and reports no error. *)
Lemma Next_on_two_entries :
  exists it it' : StreamingEntryIterator,
    @NewStreamingParser Examples.example_stdlib
      (Examples.render Examples.doc_two) = inr it
    /\ @Next_results Examples.example_stdlib 4 it
       = ([true; true; false; false], it')
    /\ Iterator_Err it' = None
    /\ Position it' = 2.
Proof.
  do 2 eexists.
  split; [vm_compute; reflexivity |].
  split; [vm_compute; reflexivity |].
  split; reflexivity.
Qed.

(** C6 on the valid archive of one entry whose creator is named
    "entries": strict decoding returns the archive with its one entry, but
    the first call of [Next] takes the creator's name for the key of the
    entries array, answers false and leaves an error that [Err] reports. *)
Theorem Next_mistakes_string_value :
  exists (h : Har) (it it' : StreamingEntryIterator) (err : GoError),
    @ParseHar Examples.example_stdlib
      (Examples.render Examples.doc_creator_entries) = inr h
    /\ length (elems (Log_Entries (Har_Log h))) = 1%nat
    /\ @NewStreamingParser Examples.example_stdlib
         (Examples.render Examples.doc_creator_entries) = inr it
    /\ @Next_results Examples.example_stdlib 2 it = ([false; false], it')
    /\ Iterator_Err it' = Some err
    /\ err = fmt_Errorf "预期在'entries'字段后找到'['，但实际为: %v" [TStr "version"].
Proof.
  do 4 eexists.
  split; [vm_compute; reflexivity |].
  split; [reflexivity |].
  split; [vm_compute; reflexivity |].
  split; [vm_compute; reflexivity |].
  split; reflexivity.
Qed.

(** ** The token stream of a document *)

Lemma parse_elements (l : list json) :
  Forall parses l ->
  forall (done : list json) (stack : list frame) (rest : list token),
    parse_value (FArr done :: stack) (flat_map tokens l ++ TDelim "]" :: rest)
    = feed stack (JArr (rev done ++ l)) rest.
Proof.
  induction 1 as [| x l Hx _ IH]; intros done stack rest.
  - simpl. rewrite app_nil_r. now destruct stack as [| [] ?].
  - simpl flat_map. rewrite <- app_assoc.
    rewrite (Hx (FArr done :: stack) _ I). simpl feed.
    rewrite IH. simpl rev. now rewrite <- app_assoc.
Qed.

Lemma parse_members (ms : list (string * json)) :
  Forall (fun kv => parses (snd kv)) ms ->
  forall (done : list (string * json)) (stack : list frame) (rest : list token),
    parse_value (FKey done :: stack)
      (flat_map (fun kv => TStr (fst kv) :: tokens (snd kv)) ms
         ++ TDelim "}" :: rest)
    = feed stack (JObj (rev done ++ ms)) rest.
Proof.
  induction 1 as [| [k v] ms Hv _ IH]; intros done stack rest.
  - simpl. rewrite app_nil_r. now destruct stack as [| [] ?].
  - simpl flat_map. simpl app. simpl parse_value.
    rewrite <- app_assoc.
    rewrite (Hv (FVal done k :: stack) _ I). simpl feed.
    rewrite IH. simpl rev. now rewrite <- app_assoc.
Qed.

(** The tokens of a document are read back as the document. *)
Lemma parse_value_tokens (j : json) : parses j.
Proof.
  induction j using json_nested_ind; intros stack rest Hpos.
  - destruct stack as [| [] ?]; simpl in *; try contradiction; reflexivity.
  - destruct stack as [| [] ?]; simpl in *; try contradiction; reflexivity.
  - destruct stack as [| [] ?]; simpl in *; try contradiction; reflexivity.
  - destruct stack as [| [] ?]; simpl in *; try contradiction; reflexivity.
  - simpl tokens. simpl app. rewrite <- app_assoc. simpl app.
    transitivity (parse_value (FArr [] :: stack)
                    (flat_map tokens l ++ TDelim "]" :: rest)).
    + destruct stack as [| [] ?]; simpl in *; try contradiction; reflexivity.
    + now rewrite parse_elements.
  - simpl tokens. simpl app. rewrite <- app_assoc. simpl app.
    transitivity (parse_value (FKey [] :: stack)
                    (flat_map (fun kv => TStr (fst kv) :: tokens (snd kv)) ms
                       ++ TDelim "}" :: rest)).
    + destruct stack as [| [] ?]; simpl in *; try contradiction; reflexivity.
    + now rewrite parse_members.
Qed.

Lemma parse_value_document (j : json) (rest : list token) :
  parse_value [] (tokens j ++ rest) = Some (j, rest).
Proof. now rewrite (parse_value_tokens j [] rest I). Qed.

(** A value never starts with a closing delimiter. *)
Lemma tokens_More (j : json) (rest : list token) (eof : GoError) :
  More (mkDecoder (tokens j ++ rest) eof) = true.
Proof. destruct j; reflexivity. Qed.

(** ** The iterator on a stream without a stray "entries" string *)

Section StreamingFacts.

Context {stdlib : GoStdlib}.

Lemma find_entries_skip (pre ts : list token) (eof : GoError) :
  Forall not_entries pre ->
  find_entries (pre ++ ts) eof = find_entries ts eof.
Proof.
  induction 1 as [| t pre Ht _ IH]; [reflexivity |].
  simpl app. destruct t as [c | | b | i f | s]; simpl; try exact IH.
  destruct (String.eqb_spec s "entries") as [-> | _]; [| exact IH].
  now destruct Ht.
Qed.

Lemma find_entries_none (ts : list token) (eof : GoError) :
  Forall not_entries ts -> find_entries ts eof = ([], Some eof).
Proof.
  intros H. rewrite <- (app_nil_r ts). now rewrite find_entries_skip.
Qed.

Lemma Decode_Entries_tokens (j : json) (d : Entries) (rest : list token)
    (eof : GoError) :
  decodes_to j d ->
  Decode_Entries (mkDecoder (tokens j ++ rest) eof)
  = (mkDecoder rest eof, inr d).
Proof.
  intros Hd. unfold Decode_Entries. simpl pending.
  rewrite parse_value_document. unfold decodes_to in Hd. now rewrite Hd.
Qed.

(** A call of [Next] after the first entry: the next entry is decoded. *)
Lemma Next_decode (h : StreamingHar) (j : json) (d e : Entries)
    (rest : list token) (eof : GoError) (pos : Z) :
  pos <> 0 -> decodes_to j d ->
  Next (iter_at h (tokens j ++ rest) eof None pos e)
  = (iter_at h rest eof None (pos + 1) d, true).
Proof.
  intros Hpos Hd. unfold Next, iter_at. simpl.
  destruct (Z.eqb_spec pos 0) as [-> | _]; [now destruct Hpos |].
  simpl. rewrite tokens_More. simpl.
  now rewrite (Decode_Entries_tokens j d rest eof Hd).
Qed.

(** The first call of [Next]: the search, then the first entry. *)
Lemma Next_first (h : StreamingHar) (pre rest : list token) (j : json)
    (d e : Entries) (eof : GoError) :
  Forall not_entries pre -> decodes_to j d ->
  Next (iter_at h (pre ++ TStr "entries" :: TDelim "[" :: tokens j ++ rest)
          eof None 0 e)
  = (iter_at h rest eof None 1 d, true).
Proof.
  intros Hpre Hd. unfold Next, iter_at. simpl.
  rewrite (find_entries_skip pre _ eof Hpre). simpl.
  rewrite tokens_More. simpl.
  now rewrite (Decode_Entries_tokens j d rest eof Hd).
Qed.

(** At the end of the array [Next] answers false and changes nothing. *)
Lemma Next_end (h : StreamingHar) (post : list token) (e : Entries)
    (eof : GoError) (pos : Z) :
  pos <> 0 ->
  Next (iter_at h (TDelim "]" :: post) eof None pos e)
  = (iter_at h (TDelim "]" :: post) eof None pos e, false).
Proof.
  intros Hpos. unfold Next, iter_at. simpl.
  destruct (Z.eqb_spec pos 0) as [-> | _]; [now destruct Hpos |].
  reflexivity.
Qed.

Lemma Next_results_end (h : StreamingHar) (post : list token) (e : Entries)
    (eof : GoError) (pos : Z) (k : nat) :
  pos <> 0 ->
  Next_results k (iter_at h (TDelim "]" :: post) eof None pos e)
  = (repeat false k, iter_at h (TDelim "]" :: post) eof None pos e).
Proof.
  intros Hpos. induction k as [| k IH]; [reflexivity |].
  simpl Next_results. rewrite (Next_end h post e eof pos Hpos).
  now rewrite IH.
Qed.

(** After an error [Next] answers false and changes nothing. *)
Lemma Next_results_failed (it : StreamingEntryIterator) (err : GoError)
    (k : nat) :
  it_err it = Some err -> Next_results k it = (repeat false k, it).
Proof.
  intros Herr. induction k as [| k IH]; [reflexivity |].
  simpl Next_results. unfold Next at 1. rewrite Herr.
  rewrite orb_true_r. now rewrite IH.
Qed.

Lemma last_cons {A} (ds : list A) :
  forall d e : A, List.last (d :: ds) e = List.last ds d.
Proof.
  induction ds as [| x r IH]; intros d e; [reflexivity |].
  change (List.last (d :: x :: r) e) with (List.last (x :: r) e).
  now rewrite (IH x e), (IH x d).
Qed.

Lemma Next_results_entries (h : StreamingHar) (post : list token)
    (eof : GoError) (es : list json) (ds : list Entries) :
  Forall2 decodes_to es ds ->
  forall (pos : Z) (e : Entries) (k : nat),
    0 < pos ->
    Next_results (length es + k)
      (iter_at h (flat_map tokens es ++ TDelim "]" :: post) eof None pos e)
    = ((repeat true (length es) ++ repeat false k)%list,
       iter_at h (TDelim "]" :: post) eof None
         (pos + Z.of_nat (length es)) (List.last ds e)).
Proof.
  induction 1 as [| j d es ds Hd _ IH]; intros pos e k Hpos.
  - simpl. rewrite Z.add_0_r. apply Next_results_end. lia.
  - simpl flat_map. rewrite <- app_assoc. simpl length.
    simpl Next_results.
    rewrite (Next_decode h j d e _ eof pos) by (lia || exact Hd).
    rewrite (IH (pos + 1) d k) by lia.
    simpl repeat. simpl app. rewrite last_cons. f_equal. f_equal. lia.
Qed.

(** On a token stream in which no string "entries" comes before the key
    of the entries array, and whose [N] entries decode, [Next] answers
    true exactly [N] times and false afterwards; [Err] is nil, and the
    current entry is the last one.  (For an empty array the second call
    searches the rest of the stream, which must not hold the string
    either.) *)
Theorem Next_counts_entries (h : StreamingHar) (pre post : list token)
    (es : list json) (ds : list Entries) (k : nat) :
  Forall not_entries pre ->
  Forall2 decodes_to es ds ->
  (es = [] -> Forall not_entries post) ->
  exists it' : StreamingEntryIterator,
    Next_results (length es + k)
      (iter_at h
         (pre ++ TStr "entries" :: TDelim "["
              :: flat_map tokens es ++ TDelim "]" :: post)
         io_EOF None 0 zero_Entries)
    = ((repeat true (length es) ++ repeat false k)%list, it')
    /\ Iterator_Err it' = None
    /\ Entry it' = List.last ds zero_Entries.
Proof.
  intros Hpre Hes Hpost. destruct Hes as [| j d es ds Hd Hes].
  - specialize (Hpost eq_refl). simpl length. simpl flat_map. simpl app.
    destruct k as [| k].
    + eexists. split; [reflexivity |]. split; reflexivity.
    + simpl Next_results. unfold Next at 1, iter_at at 1. simpl.
      rewrite (find_entries_skip pre _ io_EOF Hpre). simpl.
      destruct k as [| k].
      * eexists. split; [reflexivity |]. split; reflexivity.
      * simpl Next_results. unfold Next at 1. simpl.
        assert (Hscan : find_entries (TDelim "]" :: post) io_EOF
                        = ([], Some io_EOF))
          by (apply find_entries_none; constructor; [discriminate | exact Hpost]).
        simpl in Hscan. rewrite Hscan.
        rewrite (Next_results_failed _ io_EOF k) by reflexivity.
        eexists. split; [reflexivity |]. split; reflexivity.
  - simpl flat_map. rewrite <- app_assoc. simpl length.
    simpl Next_results.
    rewrite (Next_first h pre _ j d zero_Entries io_EOF Hpre Hd).
    rewrite (Next_results_entries h post io_EOF es ds Hes 1 d k) by lia.
    eexists. split; [reflexivity |]. split; [reflexivity |].
    simpl Entry. now rewrite last_cons.
Qed.

End StreamingFacts.

(** * Properties of the other parts of the package *)

(** ** Filtering *)

Lemma filter_idem {A} (p : A -> bool) (l : list A) :
  List.filter p (List.filter p l) = List.filter p l.
Proof.
  induction l as [| a l IH]; simpl; [reflexivity |].
  destruct (p a) eqn:Ha; simpl; [rewrite Ha, IH |]; auto.
Qed.

Lemma filter_none {A} (p : A -> bool) (l : list A) :
  List.filter p l = [] <-> existsb p l = false.
Proof.
  induction l as [| a l IH]; simpl; [tauto |].
  destruct (p a); simpl; [split; discriminate | exact IH].
Qed.

Lemma filter_all {A} (p : A -> bool) (l : list A) :
  (forall a, p a = true) -> List.filter p l = l.
Proof.
  intros Hp. induction l as [| a l IH]; simpl; [reflexivity |].
  now rewrite Hp, IH.
Qed.

Section FilterFacts.

Context {text : GoText}.

(** The loop of [Filter] from any accumulated result. *)
Lemma Filter_loop (o : FilterOptions) (l : list Entries) (acc : slice Entries) :
  fold_left
    (fun result entry =>
       if matchesFilter entry o then append result entry else result) l acc
  = match List.filter (fun e => matchesFilter e o) l with
    | [] => acc
    | m => Some (elems acc ++ m)%list
    end.
Proof.
  revert acc. induction l as [| a l IH]; intros acc; simpl; [reflexivity |].
  rewrite IH. destruct (matchesFilter a o); [| reflexivity].
  unfold append; simpl.
  destruct (List.filter _ l); simpl; [reflexivity |].
  now rewrite <- app_assoc.
Qed.

Lemma Har_Filter_entries (h : Har) (o : FilterOptions) :
  FilterResult_Entries (Har_Filter h o)
  = match List.filter (fun e => matchesFilter e o)
            (elems (Log_Entries (Har_Log h))) with
    | [] => None
    | m => Some m
    end.
Proof. unfold Har_Filter; simpl. rewrite Filter_loop. reflexivity. Qed.

Lemma Har_Filter_elems (h : Har) (o : FilterOptions) :
  elems (FilterResult_Entries (Har_Filter h o))
  = List.filter (fun e => matchesFilter e o) (elems (Log_Entries (Har_Log h))).
Proof. rewrite Har_Filter_entries. now destruct (List.filter _ _). Qed.

Lemma matchesFilter_zero (e : Entries) : matchesFilter e zero_FilterOptions = true.
Proof. reflexivity. Qed.

(** X1.  [Filter] keeps exactly the entries that [matchesFilter] accepts,
    in their order; its result is the nil slice exactly when no entry is
    accepted; and the zero options accept every entry, so that filtering
    with them returns all the entries. *)
Theorem Filter_keeps_matching (h : Har) (o : FilterOptions) :
  elems (FilterResult_Entries (Har_Filter h o))
  = List.filter (fun e => matchesFilter e o) (elems (Log_Entries (Har_Log h)))
  /\ (FilterResult_Entries (Har_Filter h o) = None
      <-> existsb (fun e => matchesFilter e o) (elems (Log_Entries (Har_Log h)))
          = false)
  /\ elems (FilterResult_Entries (Har_Filter h zero_FilterOptions))
     = elems (Log_Entries (Har_Log h))
  /\ FilterResult_Count (Har_Filter h o)
     <= len (Log_Entries (Har_Log h)).
Proof.
  split; [apply Har_Filter_elems |]. split; [| split].
  - rewrite Har_Filter_entries, <- filter_none.
    destruct (List.filter _ _); split; intros H; congruence.
  - rewrite Har_Filter_elems. apply filter_all, matchesFilter_zero.
  - unfold FilterResult_Count, len. rewrite Har_Filter_elems.
    apply inj_le, List.filter_length_le.
Qed.

Lemma matchesFilter_errors (e : Entries) :
  matchesFilter e
    (mkFilterOptions "" "" 0 0 0 "" Time_zero Time_zero 0%float 0%float ""
       true "" "" "" "" false)
  = Z.leb 400 (Response_Status (Entries_Response e))
    && Z.ltb (Response_Status (Entries_Response e)) 600.
Proof.
  unfold matchesFilter; simpl.
  destruct (Z.ltb_spec (Response_Status (Entries_Response e)) 400);
    destruct (Z.leb_spec 600 (Response_Status (Entries_Response e)));
    destruct (Z.leb_spec 400 (Response_Status (Entries_Response e)));
    destruct (Z.ltb_spec (Response_Status (Entries_Response e)) 600);
    simpl; try reflexivity; lia.
Qed.

Lemma matchesFilter_status (e : Entries) (code : Z) :
  matchesFilter e
    (mkFilterOptions "" "" code 0 0 "" Time_zero Time_zero 0%float 0%float ""
       false "" "" "" "" false)
  = if Z.ltb 0 code then Z.eqb (Response_Status (Entries_Response e)) code
    else true.
Proof.
  unfold matchesFilter; simpl.
  destruct (Z.ltb 0 code); simpl; [| reflexivity].
  now destruct (Z.eqb _ code).
Qed.

(** X2.  [FindErrors] returns the entries whose status is from 400 to 599,
    bounds included.  [FindByStatusCode] returns the entries of the given
    status when it is positive; with a status that is zero or negative it
    filters nothing and returns every entry. *)
Theorem FindByStatusCode_FindErrors (h : Har) (code : Z) :
  elems (FilterResult_Entries (Har_FindErrors h))
  = List.filter
      (fun e => Z.leb 400 (Response_Status (Entries_Response e))
                && Z.leb (Response_Status (Entries_Response e)) 599)
      (elems (Log_Entries (Har_Log h)))
  /\ elems (FilterResult_Entries (Har_FindByStatusCode h code))
     = if Z.ltb 0 code
       then List.filter
              (fun e => Z.eqb (Response_Status (Entries_Response e)) code)
              (elems (Log_Entries (Har_Log h)))
       else elems (Log_Entries (Har_Log h)).
Proof.
  split.
  - unfold Har_FindErrors. rewrite Har_Filter_elems.
    apply List.filter_ext. intros e. rewrite matchesFilter_errors.
    f_equal. destruct (Z.ltb_spec (Response_Status (Entries_Response e)) 600);
      destruct (Z.leb_spec (Response_Status (Entries_Response e)) 599);
      try reflexivity; lia.
  - unfold Har_FindByStatusCode. rewrite Har_Filter_elems.
    destruct (Z.ltb 0 code) eqn:Hc.
    + apply List.filter_ext. intros e. now rewrite matchesFilter_status, Hc.
    + apply filter_all. intros e. now rewrite matchesFilter_status, Hc.
Qed.

Lemma matchesFilter_time (e : Entries) (start end_ : Time) :
  matchesFilter e
    (mkFilterOptions "" "" 0 0 0 "" start end_ 0%float 0%float ""
       false "" "" "" "" false)
  = (IsZero start || Z.leb start (Entries_StartedDateTime e))
    && (IsZero end_ || Z.leb (Entries_StartedDateTime e) end_).
Proof.
  unfold matchesFilter; simpl.
  destruct (IsZero start), (IsZero end_); simpl;
    destruct (Z.ltb_spec (Entries_StartedDateTime e) start);
    destruct (Z.leb_spec start (Entries_StartedDateTime e));
    destruct (Z.ltb_spec end_ (Entries_StartedDateTime e));
    destruct (Z.leb_spec (Entries_StartedDateTime e) end_);
    simpl; try reflexivity; lia.
Qed.

(** X3.  [FindByTimeRange] returns the entries that started within the
    range, both ends included; an end that is the zero time does not bound
    the range. *)
Theorem FindByTimeRange_inclusive (h : Har) (start end_ : Time) :
  elems (FilterResult_Entries (Har_FindByTimeRange h start end_))
  = List.filter
      (fun e => (IsZero start || Z.leb start (Entries_StartedDateTime e))
                && (IsZero end_ || Z.leb (Entries_StartedDateTime e) end_))
      (elems (Log_Entries (Har_Log h))).
Proof.
  unfold Har_FindByTimeRange. rewrite Har_Filter_elems.
  apply List.filter_ext. intros e. apply matchesFilter_time.
Qed.

(** X4.  Filtering the archive of a filter result with the same options
    returns the same result: [Filter] is idempotent through [ToHar]. *)
Theorem Filter_idempotent (h : Har) (o : FilterOptions) :
  Har_Filter (FilterResult_ToHar (Har_Filter h o)) o = Har_Filter h o.
Proof.
  assert (H : FilterResult_Entries
                (Har_Filter (FilterResult_ToHar (Har_Filter h o)) o)
              = FilterResult_Entries (Har_Filter h o)).
  { rewrite (Har_Filter_entries (FilterResult_ToHar _)).
    change (Log_Entries (Har_Log (FilterResult_ToHar (Har_Filter h o))))
      with (FilterResult_Entries (Har_Filter h o)).
    rewrite Har_Filter_elems, filter_idem. symmetry. apply Har_Filter_entries. }
  destruct (Har_Filter (FilterResult_ToHar (Har_Filter h o)) o),
    (Har_Filter h o). simpl in H. now rewrite H.
Qed.

(** The options with the URL criterion cleared. *)
Lemma matchesFilter_bad_regex (e : Entries) (o : FilterOptions) :
  FilterOptions_UseRegex o = true ->
  regexp_Compile (FilterOptions_URL o) = None ->
  matchesFilter e o = matchesFilter e (FilterOptions_without_URL o).
Proof.
  intros Hr Hc. unfold matchesFilter, FilterOptions_without_URL; simpl.
  rewrite Hr, Hc. now rewrite andb_false_r.
Qed.

(** X5.  With [UseRegex], a URL pattern that does not compile is ignored:
    the filter answers as if no URL criterion was given, and [FindByURL]
    returns every entry. *)
Theorem Filter_ignores_bad_regex (h : Har) (o : FilterOptions) :
  FilterOptions_UseRegex o = true ->
  regexp_Compile (FilterOptions_URL o) = None ->
  Har_Filter h o = Har_Filter h (FilterOptions_without_URL o)
  /\ elems (FilterResult_Entries (Har_FindByURL h (FilterOptions_URL o) true))
     = elems (Log_Entries (Har_Log h)).
Proof.
  intros Hr Hc. split.
  - unfold Har_Filter. f_equal. rewrite !Filter_loop.
    rewrite (List.filter_ext _ (fun e => matchesFilter e (FilterOptions_without_URL o)));
      [reflexivity |].
    intros e. now apply matchesFilter_bad_regex.
  - unfold Har_FindByURL. rewrite Har_Filter_elems. apply filter_all. intros e.
    rewrite matchesFilter_bad_regex; [reflexivity | reflexivity | exact Hc].
Qed.

End FilterFacts.

(** ** The checks of the validator only append *)

Lemma add_partial_errors_nil (r : HarError) : add_partial_errors r [] = r.
Proof.
  destruct r. unfold add_partial_errors, with_partial; simpl.
  now rewrite app_nil_r.
Qed.

Lemma add_partial_errors_app (r : HarError) (l1 l2 : list HarError) :
  add_partial_errors (add_partial_errors r l1) l2
  = add_partial_errors r (l1 ++ l2).
Proof.
  unfold add_partial_errors, with_partial; simpl. now rewrite app_assoc.
Qed.

Lemma PartialErrors_add (r : HarError) (l : list HarError) :
  PartialErrors (add_partial_errors r l) = (PartialErrors r ++ l)%list.
Proof. reflexivity. Qed.

Lemma appends_only_id : appends_only (fun r => r).
Proof. intros r. simpl. now rewrite add_partial_errors_nil. Qed.

Lemma appends_only_seq (f g : HarError -> HarError) :
  appends_only f -> appends_only g -> appends_only (fun r => g (f r)).
Proof.
  intros Hf Hg r. rewrite (Hg (f r)), (Hf r), add_partial_errors_app.
  f_equal. rewrite (Hg (f validation_root)), PartialErrors_add. reflexivity.
Qed.

Lemma appends_only_range_from {A} (body : Z -> A -> HarError -> HarError)
    (xs : list A) :
  (forall i a, appends_only (body i a)) ->
  forall i, appends_only (range_from body i xs).
Proof.
  intros Hbody. induction xs as [| a xs IH]; intros i; simpl.
  - apply appends_only_id.
  - apply (appends_only_seq (body i a) (range_from body (i + 1) xs));
      [apply Hbody | apply IH].
Qed.

Lemma appends_only_range {A} (body : Z -> A -> HarError -> HarError)
    (xs : slice A) :
  (forall i a, appends_only (body i a)) -> appends_only (range body xs).
Proof. intros Hbody. now apply appends_only_range_from. Qed.

(** What two checks in sequence find. *)
Lemma violations_seq (f g : HarError -> HarError) :
  appends_only f -> appends_only g ->
  PartialErrors (g (f validation_root))
  = (PartialErrors (f validation_root) ++ PartialErrors (g validation_root))%list.
Proof. intros Hf Hg. now rewrite (Hg (f validation_root)), PartialErrors_add. Qed.

(** A check without a loop: by cases on its conditions. *)
Ltac straight_line :=
  intros r;
  repeat match goal with
         | |- context [if ?c then _ else _] => destruct c
         | |- context [match ?c with Some _ => _ | None => _ end] => destruct c
         end;
  destruct r; unfold add_partial_errors, with_partial, AddPartialError; simpl;
  rewrite <- ?app_assoc, ?app_nil_r; reflexivity.

Lemma validateHeaders_appends (hs : slice Headers) (p : string) :
  appends_only (validateHeaders hs p).
Proof.
  unfold validateHeaders. apply appends_only_range. intros i a. straight_line.
Qed.

Lemma validateCookies_appends (cs : slice Cookie) (p : string) :
  appends_only (validateCookies cs p).
Proof.
  unfold validateCookies. apply appends_only_range. intros i a. straight_line.
Qed.

Lemma validateContent_appends (c : Content) (p : string) :
  appends_only (validateContent c p).
Proof. unfold validateContent. straight_line. Qed.

Lemma validateTimings_appends (t : Timings) (p : string) :
  appends_only (validateTimings t p).
Proof. unfold validateTimings. cbv zeta. straight_line. Qed.

Lemma validatePages_appends (ps : slice Pages) : appends_only (validatePages ps).
Proof.
  unfold validatePages. apply appends_only_range. intros i a.
  unfold validatePageTimings. cbv zeta. straight_line.
Qed.

Section ValidatorAppends.

Context {stdlib : GoStdlib}.

Lemma validateRequest_appends (q : Request) (p : string) :
  appends_only (validateRequest q p).
Proof.
  unfold validateRequest. cbv zeta.
  apply (appends_only_seq _ (validateCookies _ _));
    [| apply validateCookies_appends].
  apply (appends_only_seq _ (validateHeaders _ _));
    [| apply validateHeaders_appends].
  straight_line.
Qed.

Lemma validateResponse_appends (q : Response) (p : string) :
  appends_only (validateResponse q p).
Proof.
  unfold validateResponse. cbv zeta.
  apply (appends_only_seq _ (validateCookies _ _));
    [| apply validateCookies_appends].
  apply (appends_only_seq _ (validateHeaders _ _));
    [| apply validateHeaders_appends].
  apply (appends_only_seq _ (validateContent _ _));
    [| apply validateContent_appends].
  straight_line.
Qed.

Lemma entry_checks_appends (i : Z) (e : Entries) :
  appends_only (entry_checks i e).
Proof.
  unfold entry_checks. cbv zeta.
  apply (appends_only_seq _ (validateTimings _ _));
    [| apply validateTimings_appends].
  apply (appends_only_seq _ (validateResponse _ _));
    [| apply validateResponse_appends].
  apply (appends_only_seq _ (validateRequest _ _));
    [| apply validateRequest_appends].
  straight_line.
Qed.

Lemma validateEntries_appends (es : slice Entries) :
  appends_only (validateEntries es).
Proof.
  unfold validateEntries. apply appends_only_range. intros i a.
  apply entry_checks_appends.
Qed.

Lemma validateVersion_appends (h : Har) : appends_only (validateVersion h).
Proof.
  unfold validateVersion, validateHarV11, validateHarV12, validateHarV13.
  cbv zeta. straight_line.
Qed.

(** The entries loop on a list with one more entry. *)
Lemma validateEntries_snoc (es : list Entries) (e : Entries) (r : HarError) :
  validateEntries (Some (es ++ [e])%list) r
  = entry_checks (Z.of_nat (length es)) e (validateEntries (Some es) r).
Proof.
  unfold validateEntries, range; simpl. rewrite range_from_app. reflexivity.
Qed.

End ValidatorAppends.

(** ** Validation of built and filtered archives *)

Section BuilderFacts.

Context {stdlib : GoStdlib}.

(** What the checks behind the gate find, check by check. *)
Lemma content_violations_parts (h : Har) :
  content_violations h
  = (PartialErrors (validateVersion h validation_root)
     ++ PartialErrors (validateEntries (Log_Entries (Har_Log h)) validation_root)
     ++ PartialErrors (validatePages (Log_Pages (Har_Log h)) validation_root))%list.
Proof.
  unfold content_violations.
  rewrite (validatePages_appends _ (validateEntries _ _)), PartialErrors_add.
  rewrite (validateEntries_appends _ (validateVersion _ _)), PartialErrors_add.
  now rewrite <- app_assoc.
Qed.

(** The result of [ValidateHarFile] from the violations. *)
Lemma ValidateHarFile_result (h : Har) :
  ValidateHarFile (Some h)
  = match basic_violations h with
    | [] =>
        match content_violations h with
        | [] => None
        | l => Some (with_partial validation_root l)
        end
    | l => Some (with_partial validation_root l)
    end.
Proof.
  pose proof (validateBasicStructure_gate h) as Hgate.
  unfold ValidateHarFile. fold validation_root.
  destruct (basic_violations h) as [| b bs]; rewrite Hgate; [| reflexivity].
  unfold content_violations.
  set (x := validatePages _ _).
  assert (Hx : same_head validation_root x).
  { apply validatePages_head, validateEntries_head, validateVersion_head,
      same_head_refl. }
  apply same_head_with_partial in Hx.
  destruct (HasPartialErrors x) eqn:Hp.
  - destruct (PartialErrors x) eqn:Hl.
    + apply HasPartialErrors_nil in Hl. congruence.
    + now rewrite Hx at 1.
  - apply HasPartialErrors_nil in Hp. now rewrite Hp.
Qed.

Lemma ValidateHarFile_valid (h : Har) :
  ValidateHarFile (Some h) = None
  <-> basic_violations h = []
      /\ PartialErrors (validateVersion h validation_root) = []
      /\ PartialErrors (validateEntries (Log_Entries (Har_Log h)) validation_root)
         = []
      /\ PartialErrors (validatePages (Log_Pages (Har_Log h)) validation_root) = [].
Proof.
  rewrite ValidateHarFile_result, content_violations_parts.
  destruct (basic_violations h).
  - destruct (PartialErrors (validateVersion h validation_root));
      destruct (PartialErrors (validateEntries _ validation_root));
      destruct (PartialErrors (validatePages _ validation_root)); simpl;
      split; intros H; try discriminate; try tauto;
      destruct H as (? & ? & ? & ?); discriminate.
  - split; [discriminate | intros (? & _); discriminate].
Qed.

Lemma basic_violations_entries (h : Har) :
  basic_violations h = [] -> exists l, Log_Entries (Har_Log h) = Some l.
Proof.
  unfold basic_violations, validateBasicStructure.
  destruct (Log_Entries (Har_Log h)) as [l |]; [eauto |].
  destruct (String.eqb (Log_Version (Har_Log h)) "");
    destruct (String.eqb (Creator_Name (Log_Creator (Har_Log h))) "");
    destruct (String.eqb (Creator_Version (Log_Creator (Har_Log h))) "");
    discriminate.
Qed.

(** The violations of an entry, check by check. *)
Lemma entry_violations_parts (i : Z) (e : Entries) :
  entry_violations i e
  = ((if IsZero (Entries_StartedDateTime e)
      then [NewValidationError "条目必须有开始时间"
              (indexed "log.entries" i ++ ".startedDateTime")]
      else [])
     ++ PartialErrors
          (validateRequest (Entries_Request e)
             (indexed "log.entries" i ++ ".request") validation_root)
     ++ PartialErrors
          (validateResponse (Entries_Response e)
             (indexed "log.entries" i ++ ".response") validation_root)
     ++ PartialErrors
          (validateTimings (Entries_Timings e)
             (indexed "log.entries" i ++ ".timings") validation_root))%list.
Proof.
  unfold entry_violations, entry_checks. cbv zeta.
  rewrite (validateTimings_appends _ _ (validateResponse _ _ _)), PartialErrors_add.
  rewrite (validateResponse_appends _ _ (validateRequest _ _ _)), PartialErrors_add.
  match goal with
  | |- context [validateRequest ?q ?p (if ?c then ?a else ?b)] =>
      rewrite (validateRequest_appends q p (if c then a else b)), PartialErrors_add
  end.
  rewrite <- !app_assoc. f_equal.
  now destruct (IsZero _).
Qed.

(** The archive with one more entry: what [ValidateHarFile] returns. *)
Lemma ValidateHarFile_snoc (h : Har) (l : list Entries) (e : Entries) :
  ValidateHarFile (Some h) = None ->
  Log_Entries (Har_Log h) = Some l ->
  ValidateHarFile
    (Some (mkHar (mkLog (Log_Version (Har_Log h)) (Log_Creator (Har_Log h))
                    (Log_Pages (Har_Log h)) (Some (l ++ [e])%list))))
  = match entry_violations (Z.of_nat (length l)) e with
    | [] => None
    | v => Some (with_partial validation_root v)
    end.
Proof.
  intros Hv Hl. apply ValidateHarFile_valid in Hv.
  destruct Hv as (Hb & Hver & Hes & Hps).
  rewrite ValidateHarFile_result, content_violations_parts.
  destruct h as [[ver cr ps es]]; simpl in *. subst es.
  change (basic_violations (mkHar (mkLog ver cr ps (Some (l ++ [e])%list))))
    with (basic_violations (mkHar (mkLog ver cr ps (Some l)))).
  rewrite Hb.
  change (validateVersion (mkHar (mkLog ver cr ps (Some (l ++ [e])%list))))
    with (validateVersion (mkHar (mkLog ver cr ps (Some l)))).
  rewrite Hver, Hps, validateEntries_snoc.
  rewrite (entry_checks_appends _ _ (validateEntries _ _)), PartialErrors_add, Hes.
  simpl. now rewrite app_nil_r.
Qed.

Lemma alter_last {A} (f : A -> A) (l : list A) (x : A) :
  alter f (length l) (l ++ [x])%list = (l ++ [f x])%list.
Proof.
  induction l as [| a l IH]; [reflexivity |].
  change (a :: alter f (length l) (l ++ [x])%list = a :: (l ++ [f x])%list).
  now rewrite IH.
Qed.

Lemma Har_AddEntry_entries (now : Time) (h : Har) (m u v p : string)
    (l : list Entries) (f : Entries -> Entries) :
  Log_Entries (Har_Log h) = Some l ->
  exists e0 : Entries,
    fst (Har_AddEntry now h m u v p)
    = mkHar (mkLog (Log_Version (Har_Log h)) (Log_Creator (Har_Log h))
               (Log_Pages (Har_Log h)) (Some (l ++ [e0])%list))
    /\ snd (Har_AddEntry now h m u v p) = length l
    /\ Har_at_entry (snd (Har_AddEntry now h m u v p)) f
         (fst (Har_AddEntry now h m u v p))
       = mkHar (mkLog (Log_Version (Har_Log h)) (Log_Creator (Har_Log h))
                  (Log_Pages (Har_Log h)) (Some (l ++ [f e0])%list))
    /\ Entries_StartedDateTime e0 = now
    /\ Entries_Request e0
       = mkRequest m u v (Some []) (Some []) (Some []) JNull (-1) (-1)
    /\ Entries_Response e0
       = mkResponse 0 "" v (Some []) (Some []) (mkContent 0 "" "" "") ""
           (-1) (-1) (-1) JNull
    /\ Timings_Wait (Entries_Timings e0) = (-1)%float
    /\ Timings_Receive (Entries_Timings e0) = (-1)%float.
Proof.
  intros Hl. unfold Har_AddEntry, Har_at_entry, append; simpl.
  rewrite Hl; simpl. eexists. split; [reflexivity |].
  rewrite length_app; simpl.
  replace (length l + 1 - 1)%nat with (length l) by lia.
  split; [reflexivity |]. rewrite alter_last.
  repeat split; reflexivity.
Qed.

(** X6.  An entry as [AddEntry] makes it does not validate: added to a
    valid archive, it makes [ValidateHarFile] return an error that carries
    at least the four violations of its response status (0), its content
    type (empty) and its wait and receive timings (-1), under the index of
    the new entry. *)
Theorem AddEntry_needs_completion (now : Time) (h : Har) (m u v p : string) :
  ValidateHarFile (Some h) = None ->
  exists err : HarError,
    ValidateHarFile (Some (fst (Har_AddEntry now h m u v p))) = Some err
    /\ Code err = ErrCodeValidation
    /\ forall x : HarError,
        In x (fresh_entry_violations (len (Log_Entries (Har_Log h)))) ->
        In x (PartialErrors err).
Proof.
  intros Hv.
  destruct (basic_violations_entries h) as [l Hl];
    [now apply ValidateHarFile_valid in Hv |].
  destruct (Har_AddEntry_entries now h m u v p l (fun e => e) Hl)
    as (e0 & He & _ & _ & Hs & Hq & Hr & Hw & Hrc).
  rewrite He, (ValidateHarFile_snoc h l e0 Hv Hl).
  assert (Hin : forall x,
             In x (fresh_entry_violations (Z.of_nat (length l))) ->
             In x (entry_violations (Z.of_nat (length l)) e0)).
  { intros x Hx. rewrite entry_violations_parts.
    apply in_or_app; right. apply in_or_app; right.
    unfold fresh_entry_violations in Hx. simpl in Hx.
    destruct Hx as [<- | [<- | [<- | [<- | []]]]].
    - apply in_or_app; left. rewrite Hr.
      unfold validateResponse, validateContent, validateHeaders,
        validateCookies; simpl.
      destruct (String.eqb v ""); simpl; auto.
    - apply in_or_app; left. rewrite Hr.
      unfold validateResponse, validateContent, validateHeaders,
        validateCookies; simpl.
      destruct (String.eqb v ""); simpl; rewrite <- ?app_assoc; auto.
    - apply in_or_app; right. unfold validateTimings. rewrite Hw, Hrc.
      simpl. rewrite <- ?app_assoc. auto.
    - apply in_or_app; right. unfold validateTimings. rewrite Hw, Hrc.
      simpl. rewrite <- ?app_assoc. auto. }
  unfold len; rewrite Hl; simpl elems.
  destruct (entry_violations (Z.of_nat (length l)) e0) as [| x0 xs] eqn:Hev.
  - exfalso. apply (Hin _ (or_introl eq_refl)).
  - eexists. split; [reflexivity |]. split; [reflexivity |]. exact Hin.
Qed.

(** X7.  A valid archive stays valid when an entry is added by [AddEntry]
    and completed by [SetResponseStatus], [SetResponseContent] and
    [SetTimings] through the returned pointer, exactly when the time of the
    call is not the zero time, the method, the URL and the HTTP version are
    not empty, the URL parses, the status is positive, the content type is
    not empty and the wait and receive timings are not negative. *)
Theorem built_entry_validates (now : Time) (h : Har) (m u v p : string)
    (status : Z) (statusText : string) (size : Z) (mime : string)
    (blocked dns connect send wait receive ssl : float) :
  ValidateHarFile (Some h) = None ->
  (ValidateHarFile
     (Some (Har_at_entry (snd (Har_AddEntry now h m u v p))
              (complete_entry status statusText size mime
                 blocked dns connect send wait receive ssl)
              (fst (Har_AddEntry now h m u v p))))
   = None
   <-> entry_arguments_valid now m u v status mime wait receive = true).
Proof.
  intros Hv.
  destruct (basic_violations_entries h) as [l Hl];
    [now apply ValidateHarFile_valid in Hv |].
  destruct (Har_AddEntry_entries now h m u v p l
              (complete_entry status statusText size mime
                 blocked dns connect send wait receive ssl) Hl)
    as (e0 & _ & _ & He & Hs & Hq & Hr & _).
  rewrite He, (ValidateHarFile_snoc h l _ Hv Hl), entry_violations_parts.
  unfold complete_entry, Entries_SetTimings, Entries_SetResponseContent,
    Entries_SetResponseStatus, Entries_with_Response; simpl.
  rewrite Hs, Hq, Hr; simpl.
  unfold entry_arguments_valid, validateRequest, validateResponse,
    validateContent, validateTimings, validateHeaders, validateCookies; simpl.
  rewrite (Z.leb_antisym 0 status).
  destruct (IsZero now), (String.eqb m ""), (String.eqb u ""),
    (url_Parse u), (String.eqb v ""), (Z.ltb 0 status), (String.eqb mime ""),
    (fneg wait), (fneg receive);
    simpl; split; intros Hx; try discriminate Hx; reflexivity.
Qed.

End BuilderFacts.

(** ** What the validator accepts *)

Lemma silent_seq (f g : HarError -> HarError) :
  appends_only f -> appends_only g ->
  (silent (fun r => g (f r)) <-> silent f /\ silent g).
Proof.
  intros Hf Hg. unfold silent. rewrite (violations_seq f g Hf Hg).
  split.
  - intros H. now apply app_eq_nil in H.
  - intros [-> ->]. reflexivity.
Qed.

Lemma silent_range_from {A} (body : Z -> A -> HarError -> HarError)
    (ok : A -> Prop) (xs : list A) :
  (forall i a, appends_only (body i a)) ->
  (forall i a, silent (body i a) <-> ok a) ->
  forall i, silent (range_from body i xs) <-> Forall ok xs.
Proof.
  intros Happ Hok. induction xs as [| a xs IH]; intros i; simpl.
  - split; [intros _; constructor | reflexivity].
  - rewrite (silent_seq (body i a) (range_from body (i + 1) xs));
      [| apply Happ | now apply appends_only_range_from].
    rewrite Hok, IH. split.
    + intros [H1 H2]. now constructor.
    + intros H. inversion H; subst. now split.
Qed.

Lemma silent_range {A} (body : Z -> A -> HarError -> HarError)
    (ok : A -> Prop) (xs : slice A) :
  (forall i a, appends_only (body i a)) ->
  (forall i a, silent (body i a) <-> ok a) ->
  silent (range body xs) <-> Forall ok (elems xs).
Proof. intros Happ Hok. now apply silent_range_from. Qed.

Lemma silent_if (c : bool) (e : HarError) :
  silent (fun r => if c then AddPartialError r e else r) <-> c = false.
Proof.
  unfold silent. destruct c; simpl; split; intros H;
    try reflexivity; discriminate.
Qed.

Lemma eqb_empty (s : string) : String.eqb s "" = false <-> s <> "".
Proof. apply String.eqb_neq. Qed.

Lemma validateHeaders_silent (hs : slice Headers) (p : string) :
  silent (validateHeaders hs p) <-> Headers_valid hs.
Proof.
  unfold validateHeaders, Headers_valid. apply silent_range.
  - intros i a. straight_line.
  - intros i a. cbv zeta. now rewrite silent_if, eqb_empty.
Qed.

Lemma validateCookies_silent (cs : slice Cookie) (p : string) :
  silent (validateCookies cs p) <-> Cookies_valid cs.
Proof.
  unfold validateCookies, Cookies_valid. apply silent_range.
  - intros i a. straight_line.
  - intros i a. cbv zeta. now rewrite silent_if, eqb_empty.
Qed.

Lemma validateContent_silent (c : Content) (p : string) :
  silent (validateContent c p) <-> Content_MimeType c <> "".
Proof. unfold validateContent. now rewrite silent_if, eqb_empty. Qed.

Lemma validateTimings_silent (t : Timings) (p : string) :
  silent (validateTimings t p) <-> Timings_valid t.
Proof.
  unfold validateTimings, Timings_valid, silent. cbv zeta.
  destruct (fneg (Timings_Wait t)), (fneg (Timings_Receive t)); simpl;
    split; intros H; try discriminate; try tauto;
    destruct H; discriminate.
Qed.

Lemma validatePages_silent (ps : slice Pages) :
  silent (validatePages ps) <-> Forall Pages_valid (elems ps).
Proof.
  unfold validatePages. apply silent_range.
  - intros i a. unfold validatePageTimings. cbv zeta. straight_line.
  - intros i a. unfold validatePageTimings, Pages_valid, silent. cbv zeta.
    rewrite <- eqb_empty.
    destruct (String.eqb (Pages_ID a) ""), (IsZero (Pages_StartedDateTime a));
      simpl; split; intros H; try discriminate; try tauto;
      destruct H; discriminate.
Qed.

Section ValidFacts.

Context {stdlib : GoStdlib}.

Lemma validateRequest_silent (q : Request) (p : string) :
  silent (validateRequest q p) <-> Request_valid q.
Proof.
  unfold validateRequest, Request_valid. cbv zeta.
  rewrite (silent_seq _ (validateCookies _ _));
    [| | apply validateCookies_appends].
  2: { apply (appends_only_seq _ (validateHeaders _ _));
         [| apply validateHeaders_appends]. straight_line. }
  rewrite (silent_seq _ (validateHeaders _ _));
    [| | apply validateHeaders_appends].
  2: straight_line.
  rewrite validateHeaders_silent, validateCookies_silent.
  rewrite <- !eqb_empty. unfold silent.
  destruct (String.eqb (Request_Method q) ""), (String.eqb (Request_URL q) ""),
    (url_Parse (Request_URL q)), (String.eqb (Request_HTTPVersion q) "");
    simpl; split; intros Hx;
    repeat match goal with H : _ /\ _ |- _ => destruct H end;
    try discriminate; tauto.
Qed.

Lemma validateResponse_silent (q : Response) (p : string) :
  silent (validateResponse q p) <-> Response_valid q.
Proof.
  unfold validateResponse, Response_valid. cbv zeta.
  rewrite (silent_seq _ (validateCookies _ _));
    [| | apply validateCookies_appends].
  2: { apply (appends_only_seq _ (validateHeaders _ _));
         [| apply validateHeaders_appends].
       apply (appends_only_seq _ (validateContent _ _));
         [| apply validateContent_appends]. straight_line. }
  rewrite (silent_seq _ (validateHeaders _ _));
    [| | apply validateHeaders_appends].
  2: { apply (appends_only_seq _ (validateContent _ _));
         [| apply validateContent_appends]. straight_line. }
  rewrite (silent_seq _ (validateContent _ _));
    [| | apply validateContent_appends].
  2: straight_line.
  rewrite validateHeaders_silent, validateCookies_silent, validateContent_silent.
  rewrite <- !eqb_empty. unfold silent.
  rewrite (Z.leb_antisym 0 (Response_Status q)).
  destruct (Z.ltb_spec 0 (Response_Status q)),
    (String.eqb (Response_HTTPVersion q) "");
    simpl; split; intros Hx;
    repeat match goal with H : _ /\ _ |- _ => destruct H end;
    try discriminate; try lia; tauto.
Qed.

Lemma entry_checks_silent (i : Z) (e : Entries) :
  silent (entry_checks i e) <-> Entries_valid e.
Proof.
  unfold silent. fold (entry_violations i e). rewrite entry_violations_parts.
  unfold Entries_valid.
  rewrite <- (validateRequest_silent _ (indexed "log.entries" i ++ ".request")),
    <- (validateResponse_silent _ (indexed "log.entries" i ++ ".response")),
    <- (validateTimings_silent _ (indexed "log.entries" i ++ ".timings")).
  unfold silent.
  destruct (IsZero (Entries_StartedDateTime e)); simpl.
  - split; [discriminate | intros [? _]; discriminate].
  - split.
    + intros H. apply app_eq_nil in H. destruct H as [H1 H].
      apply app_eq_nil in H. tauto.
    + intros (_ & -> & -> & ->). reflexivity.
Qed.

Lemma validateEntries_silent (es : slice Entries) :
  silent (validateEntries es) <-> Forall Entries_valid (elems es).
Proof.
  unfold validateEntries. apply silent_range.
  - intros i a. apply entry_checks_appends.
  - intros i a. apply entry_checks_silent.
Qed.

Lemma validateVersion_silent (h : Har) :
  silent (validateVersion h)
  <-> IsValidHarVersion (Log_Version (Har_Log h)) = true.
Proof.
  unfold validateVersion, IsValidHarVersion, validateHarV11, validateHarV12,
    validateHarV13, silent. cbv zeta.
  destruct (String.eqb (Log_Version (Har_Log h)) HarSpecVersion11),
    (String.eqb (Log_Version (Har_Log h)) HarSpecVersion12),
    (String.eqb (Log_Version (Har_Log h)) HarSpecVersion13);
    simpl; split; intros H; try reflexivity; discriminate.
Qed.

Lemma basic_violations_silent (h : Har) :
  basic_violations h = []
  <-> Log_Version (Har_Log h) <> ""
      /\ Creator_Name (Log_Creator (Har_Log h)) <> ""
      /\ Creator_Version (Log_Creator (Har_Log h)) <> ""
      /\ Log_Entries (Har_Log h) <> None.
Proof.
  unfold basic_violations, validateBasicStructure. rewrite <- !eqb_empty.
  destruct (String.eqb (Log_Version (Har_Log h)) ""),
    (String.eqb (Creator_Name (Log_Creator (Har_Log h))) ""),
    (String.eqb (Creator_Version (Log_Creator (Har_Log h))) ""),
    (Log_Entries (Har_Log h));
    simpl; split; intros H; try discriminate; try tauto;
    try (repeat split; discriminate);
    try (destruct H as (? & ? & ? & ?); try discriminate; congruence).
Qed.

(** [ValidateHarFile] returns nil exactly on the archives that meet the
    conditions of [Har_valid]. *)
Lemma ValidateHarFile_Har_valid (h : Har) :
  ValidateHarFile (Some h) = None <-> Har_valid h.
Proof.
  rewrite ValidateHarFile_valid, basic_violations_silent.
  fold (silent (validateVersion h)).
  fold (silent (validateEntries (Log_Entries (Har_Log h)))).
  fold (silent (validatePages (Log_Pages (Har_Log h)))).
  rewrite validateVersion_silent, validateEntries_silent, validatePages_silent.
  unfold Har_valid. split.
  - intros ((_ & ? & ? & ?) & ? & ? & ?). tauto.
  - intros (Hv & ? & ? & ? & ? & ?). repeat split; try assumption.
    intros Heq. rewrite Heq in Hv. discriminate.
Qed.

End ValidFacts.

(** ** The converter *)

Lemma string_cons_app (x : ascii) (a b : string) :
  String x a ++ b = String x (a ++ b).
Proof. reflexivity. Qed.

Lemma string_app_assoc (a b c : string) : (a ++ b) ++ c = a ++ b ++ c.
Proof.
  induction a as [| x a IH]; [reflexivity |].
  now rewrite !string_cons_app, IH.
Qed.

Lemma ReplaceAll_app (a b : string) (old : ascii) (new : string) :
  ReplaceAll (a ++ b) old new = ReplaceAll a old new ++ ReplaceAll b old new.
Proof.
  induction a as [| x a IH]; [reflexivity |].
  rewrite string_cons_app. simpl.
  destruct (Ascii.eqb x old); rewrite IH; [| reflexivity].
  now rewrite string_app_assoc.
Qed.

Lemma ReplaceAll_escape_byte (c : ascii) :
  ReplaceAll
    (ReplaceAll
       (ReplaceAll (ReplaceAll (String c EmptyString) "&" "&amp;") "<" "&lt;")
       ">" "&gt;")
    double_quote "&quot;"
  = escape_byte c.
Proof.
  unfold escape_byte.
  destruct (Ascii.eqb_spec c "&") as [-> | H1]; [reflexivity |].
  destruct (Ascii.eqb_spec c "<") as [-> | H2]; [reflexivity |].
  destruct (Ascii.eqb_spec c ">") as [-> | H3]; [reflexivity |].
  destruct (Ascii.eqb_spec c double_quote) as [-> | H4]; [reflexivity |].
  apply Ascii.eqb_neq in H1, H2, H3, H4.
  simpl. rewrite H1; simpl. rewrite H2; simpl. rewrite H3; simpl.
  now rewrite H4.
Qed.

Lemma escapeHTML_cons (c : ascii) (s : string) :
  escapeHTML (String c s) = escape_byte c ++ escapeHTML s.
Proof.
  unfold escapeHTML.
  change (String c s) with (String c EmptyString ++ s).
  rewrite !ReplaceAll_app. f_equal. apply ReplaceAll_escape_byte.
Qed.

Lemma escapeHTML_escape_bytes (s : string) : escapeHTML s = escape_bytes s.
Proof.
  induction s as [| c s IH]; [reflexivity |].
  rewrite escapeHTML_cons, IH. reflexivity.
Qed.

Lemma list_ascii_app (a b : string) :
  list_ascii_of_string (a ++ b)
  = (list_ascii_of_string a ++ list_ascii_of_string b)%list.
Proof.
  induction a as [| x a IH]; [reflexivity |].
  rewrite string_cons_app. simpl. now rewrite IH.
Qed.

Lemma escape_byte_plain (c x : ascii) :
  In x (list_ascii_of_string (escape_byte c)) ->
  x <> "<"%char /\ x <> ">"%char /\ x <> double_quote.
Proof.
  unfold escape_byte.
  destruct (Ascii.eqb_spec c "&");
    [| destruct (Ascii.eqb_spec c "<");
       [| destruct (Ascii.eqb_spec c ">");
          [| destruct (Ascii.eqb_spec c double_quote)]]]; simpl; intros H;
    repeat match goal with H : _ \/ _ |- _ => destruct H end;
    try contradiction; subst x; repeat split; try discriminate; assumption.
Qed.

(** X8.  [escapeHTML], which replaces the four special characters one
    after the other, escapes the text byte by byte as one pass would: no
    escape is escaped again.  Its result holds no [<], no [>] and no
    double quote. *)
Theorem escapeHTML_one_pass (s : string) :
  escapeHTML s = escape_bytes s
  /\ forall x : ascii,
      In x (list_ascii_of_string (escapeHTML s)) ->
      x <> "<"%char /\ x <> ">"%char /\ x <> double_quote.
Proof.
  split; [apply escapeHTML_escape_bytes |].
  rewrite escapeHTML_escape_bytes.
  induction s as [| c s IH]; simpl; [contradiction |].
  intros x Hx. rewrite list_ascii_app in Hx. apply in_app_or in Hx.
  destruct Hx as [Hx | Hx]; [now apply (escape_byte_plain c) | now apply IH].
Qed.

Section ConverterFacts.

Context {text : GoText}.

(** X9.  When the options give no headers of their own, a data row has
    as many cells as the header row, whatever the fields selected; the
    [IncludeHeaders] option changes neither. *)
Theorem createDataRow_columns (e : Entries) (o : ConvertOptions) (b : bool) :
  len (ConvertOptions_Headers o) = 0 ->
  length (elems (createDataRow e o)) = length (elems (getHeaders o))
  /\ createDataRow e (ConvertOptions_with o b (ConvertOptions_Filter o))
     = createDataRow e o
  /\ getHeaders (ConvertOptions_with o b (ConvertOptions_Filter o))
     = getHeaders o.
Proof.
  intros H. split; [| split; reflexivity].
  unfold getHeaders, createDataRow. rewrite H. simpl.
  destruct (ConvertOptions_IncludeDateTime o), (ConvertOptions_IncludeMethod o),
    (ConvertOptions_IncludeURL o), (ConvertOptions_IncludeStatus o),
    (ConvertOptions_IncludeContentType o), (ConvertOptions_IncludeSize o),
    (ConvertOptions_IncludeTime o), (ConvertOptions_IncludeTimings o);
    reflexivity.
Qed.


End ConverterFacts.

(** ** The options and the strategy of [Parse] *)

Lemma applyOption_strategy (opt : Option) (o o' : options) :
  strategy o = strategy o' ->
  strategy (applyOption opt o) = strategy (applyOption opt o').
Proof.
  unfold strategy. intros H. injection H as H1 H2 H3 H4 H5 H6.
  destruct opt; simpl; try congruence.
  destruct (IsValidHarVersion version); simpl; congruence.
Qed.

Lemma applyOption_inert (opt : Option) (o : options) :
  sets_version_or_limit opt = true -> strategy (applyOption opt o) = strategy o.
Proof.
  destruct opt; try discriminate; intros _; simpl; [reflexivity | | reflexivity].
  now destruct (IsValidHarVersion version).
Qed.

Lemma fold_applyOption_strategy (opts : list Option) :
  forall o o' : options,
    strategy o = strategy o' ->
    strategy (fold_left (fun o opt => applyOption opt o) opts o)
    = strategy
        (fold_left (fun o opt => applyOption opt o)
           (List.filter (fun opt => negb (sets_version_or_limit opt)) opts) o').
Proof.
  induction opts as [| opt opts IH]; intros o o' H; simpl; [exact H |].
  destruct (sets_version_or_limit opt) eqn:Hi; simpl.
  - apply IH. now rewrite applyOption_inert.
  - apply IH. now apply applyOption_strategy.
Qed.

Lemma applyOption_memory (opt : Option) (o : options) :
  useMemoryOptimized o = true -> useMemoryOptimized (applyOption opt o) = true.
Proof.
  intros H. destruct opt; simpl; try exact H; try reflexivity.
  now destruct (IsValidHarVersion version).
Qed.

Lemma fold_applyOption_memory (opts : list Option) (o : options) :
  useMemoryOptimized o = true ->
  useMemoryOptimized (fold_left (fun o opt => applyOption opt o) opts o) = true.
Proof.
  revert o. induction opts as [| opt opts IH]; intros o H; simpl; [exact H |].
  apply IH. now apply applyOption_memory.
Qed.

Lemma applyOptions_memory (opts : list Option) :
  In WithMemoryOptimized opts -> useMemoryOptimized (applyOptions opts) = true.
Proof.
  unfold applyOptions. generalize defaultOptions.
  induction opts as [| opt opts IH]; intros o Hin; [contradiction |].
  destruct Hin as [-> | Hin]; simpl.
  - now apply fold_applyOption_memory.
  - now apply IH.
Qed.

Lemma applyOption_no_streaming (opt : Option) (o : options) :
  opt <> WithStreaming -> useStreaming (applyOption opt o) = useStreaming o.
Proof.
  intros H. destruct opt; simpl; try reflexivity; try contradiction.
  now destruct (IsValidHarVersion version).
Qed.

Lemma applyOptions_no_streaming (opts : list Option) :
  ~ In WithStreaming opts -> useStreaming (applyOptions opts) = false.
Proof.
  unfold applyOptions.
  assert (H : forall o, ~ In WithStreaming opts ->
                        useStreaming
                          (fold_left (fun o opt => applyOption opt o) opts o)
                        = useStreaming o).
  { induction opts as [| opt opts IH]; intros o Hn; simpl; [reflexivity |].
    rewrite IH; [| intros Hin; apply Hn; now right].
    apply applyOption_no_streaming. intros ->. apply Hn. now left. }
  intros Hn. now rewrite H.
Qed.

Section ParseFacts.

Context {stdlib : GoStdlib}.

Lemma ParseHarWithOptions_fields (b : string) (po po' : ParseOptions) :
  Lenient po = Lenient po' ->
  SkipValidation po = SkipValidation po' ->
  CollectWarnings po = CollectWarnings po' ->
  ParseHarWithOptions b po = ParseHarWithOptions b po'.
Proof.
  intros H1 H2 H3. unfold ParseHarWithOptions, parseLenient.
  now rewrite H1, H2, H3.
Qed.

Lemma parseWithStrategy_strategy (b : string) (o o' : options) :
  strategy o = strategy o' -> parseWithStrategy b o = parseWithStrategy b o'.
Proof.
  unfold strategy. intros H. injection H as H1 H2 H3 H4 H5 H6.
  unfold parseWithStrategy. rewrite H4, H5, H6.
  rewrite (ParseHarWithOptions_fields b (toParseOptions o) (toParseOptions o'));
    [reflexivity | exact H1 | exact H2 | exact H3].
Qed.

(** X10.  The options [WithHarVersion], [WithAutoDetectVersion] and
    [WithMaxWarnings] never change what [Parse] returns: the result is
    that of the call without them. *)
Theorem Parse_ignores_version_and_limit (b : string) (opts : list Option) :
  Parse b opts
  = Parse b (List.filter (fun opt => negb (sets_version_or_limit opt)) opts).
Proof.
  unfold Parse. destruct (validateInput b); [reflexivity |].
  apply parseWithStrategy_strategy. unfold applyOptions.
  now apply fold_applyOption_strategy.
Qed.

(** X11.  With [WithMemoryOptimized] and without [WithStreaming], [Parse]
    is the strict parse with validation followed by the conversion to the
    compact form, whatever the other options: [WithSkipValidation],
    [WithLenient] and [WithLazyLoading] have no effect, so that the presets
    [OptMemoryEfficient] and [OptPerformance] do what [WithMemoryOptimized]
    alone does. *)
Theorem Parse_memory_optimized (b : string) (opts : list Option) :
  In WithMemoryOptimized opts ->
  ~ In WithStreaming opts ->
  Parse b opts = Parse_optimized b
  /\ Parse b OptMemoryEfficient = Parse b [WithMemoryOptimized]
  /\ Parse b OptPerformance = Parse b [WithMemoryOptimized].
Proof.
  intros Hm Hs. split; [| split; reflexivity].
  unfold Parse, Parse_optimized. destruct (validateInput b); [reflexivity |].
  unfold parseWithStrategy.
  rewrite (applyOptions_no_streaming opts Hs), (applyOptions_memory opts Hm).
  unfold ParseHarOptimized. now destruct (ParseHar b).
Qed.

Lemma ParseHarWithOptions_success (b : string) (po : ParseOptions)
    (har : option Har) :
  ParseHarWithOptions b po = (har, None) -> exists h, har = Some h.
Proof.
  unfold ParseHarWithOptions, parseLenient.
  destruct (Nat.eqb (String.length b) 0); [discriminate |].
  destruct (negb (isJSONContent b)); [discriminate |].
  destruct (negb (Lenient po)).
  - destruct (json_Unmarshal unmarshal_Har b zero_Har); [discriminate |].
    destruct (negb (SkipValidation po)).
    + destruct (validateHar (Some h)); [discriminate |].
      intros H. injection H as <-. eauto.
    + intros H. injection H as <-. eauto.
  - destruct (lenient_collect b) as [| [h r]]; [discriminate |].
    destruct (HasPartialErrors r && CollectWarnings po).
    + destruct (recovered h); discriminate.
    + destruct (HasPartialErrors r); [discriminate |].
      intros H. injection H as <-. eauto.
Qed.

(** X12.  When [Parse] returns no error, the provider holds an archive.
    When it returns an error for an input that passed the input check,
    without [WithStreaming], the provider is still not the nil interface:
    it holds a nil pointer or, in the lenient mode, the partly decoded
    archive. *)
Theorem Parse_provider_not_nil (b : string) (opts : list Option) :
  (snd (Parse b opts) = None -> holds_archive (fst (Parse b opts)) = true)
  /\ (validateInput b = None ->
      useStreaming (applyOptions opts) = false ->
      fst (Parse b opts) <> None)
  /\ (holds_archive (fst (Parse b opts)) = true ->
      snd (Parse b opts) <> None ->
      lenient (applyOptions opts) = true
      /\ collectWarnings (applyOptions opts) = true).
Proof.
  unfold Parse, parseWithStrategy.
  destruct (validateInput b); simpl.
  { repeat split; try discriminate. }
  destruct (useStreaming (applyOptions opts)); simpl.
  { repeat split; try discriminate. }
  destruct (useMemoryOptimized (applyOptions opts)).
  { destruct (ParseHarOptimized b); simpl; repeat split; try discriminate;
      try reflexivity; intros; try contradiction; discriminate. }
  destruct (useLazyLoading (applyOptions opts)).
  { destruct (ParseHarWithLazyLoading b); simpl; repeat split;
      try discriminate; try reflexivity; intros; try contradiction;
      discriminate. }
  destruct (ParseHarWithOptions b (toParseOptions (applyOptions opts)))
    as [har err] eqn:Hp; simpl.
  split; [| split].
  - intros He. destruct err; [discriminate |].
    apply ParseHarWithOptions_success in Hp. now destruct Hp as [h ->].
  - discriminate.
  - intros Hh He. destruct har as [h |]; [| discriminate].
    destruct err as [e |]; [| contradiction].
    revert Hp. unfold ParseHarWithOptions, parseLenient, toParseOptions; simpl.
    destruct (Nat.eqb (String.length b) 0); [intros Hx; discriminate Hx |].
    destruct (negb (isJSONContent b)); [intros Hx; discriminate Hx |].
    destruct (lenient (applyOptions opts)); simpl.
    + destruct (lenient_collect b) as [| [h0 r]]; [intros Hx; discriminate Hx |].
      destruct (collectWarnings (applyOptions opts));
        rewrite ?andb_false_r, ?andb_true_r.
      * intros _. split; reflexivity.
      * destruct (HasPartialErrors r); intros Hx; discriminate Hx.
    + repeat match goal with
             | |- context [match ?x with _ => _ end] => destruct x
             end; intros Hx; discriminate Hx.
Qed.

End ParseFacts.

(** ** The compact form: method names, searches, the interface's conversion *)

(** X13.  The names of the methods.  [ParseMethod] after [String] gives
    back each of the ten method constants, and [MethodUnknown] for any
    other value of the type.  [String] after [ParseMethod] gives the upper
    case of a text when that is one of the nine verbs, and [UNKNOWN]
    otherwise.  [OptimizedRequest.GetMethod], which switches on the
    constants, agrees with [String], which looks the name up. *)
Theorem method_names_round_trip :
  (forall m : HTTPMethod,
      ParseMethod (HTTPMethod_String m)
      = if (m <=? 9)%N then m else MethodUnknown)
  /\ (forall s : string,
        HTTPMethod_String (ParseMethod s)
        = if existsb (String.eqb (ToUpper s)) known_methods
          then ToUpper s else "UNKNOWN")
  /\ (forall r : OptimizedRequest,
        Optimized.GetMethod r = HTTPMethod_String (OptimizedRequest_Method r)).
Proof.
  split; [exact ParseMethod_String |]. split; [| exact GetMethod_String].
  intros s. unfold ParseMethod.
  destruct (stringToMethod !! ToUpper s) as [m |] eqn:E.
  - apply stringToMethod_names in E. destruct E as [Hin Hm].
    rewrite Hm.
    destruct (existsb (String.eqb (ToUpper s)) known_methods) eqn:Hex;
      [reflexivity |].
    exfalso. apply not_true_iff_false in Hex. apply Hex.
    apply existsb_exists. exists (ToUpper s). split; [exact Hin |].
    apply String.eqb_refl.
  - destruct (existsb (String.eqb (ToUpper s)) known_methods) eqn:Hex;
      [| reflexivity].
    apply existsb_exists in Hex. destruct Hex as (u & Hin & Hu).
    apply String.eqb_eq in Hu. subst u.
    apply stringToMethod_known in Hin. destruct Hin as [m Hm].
    unfold HTTPMethod in E. rewrite Hm in E. discriminate E.
Qed.

(** The search loops from any accumulated result. *)
Lemma search_loop {A} (p : A -> bool) (l : list A) (acc : slice A) :
  fold_left (fun results entry => if p entry then append results entry else results)
    l acc
  = match List.filter p l with
    | [] => acc
    | m => Some (elems acc ++ m)%list
    end.
Proof.
  revert acc. induction l as [| a l IH]; intros acc; simpl; [reflexivity |].
  rewrite IH. destruct (p a); [| reflexivity].
  unfold append; simpl.
  destruct (List.filter _ l); simpl; [reflexivity |].
  now rewrite <- app_assoc.
Qed.

Lemma search_elems {A} (p : A -> bool) (l : list A) :
  elems (fold_left
           (fun results entry => if p entry then append results entry else results)
           l None)
  = List.filter p l.
Proof. rewrite search_loop. now destruct (List.filter p l). Qed.

Lemma filter_fmap {A B} (f : A -> B) (p : B -> bool) (l : list A) :
  List.filter p (f <$> l) = f <$> List.filter (fun a => p (f a)) l.
Proof.
  induction l as [| a l IH]; [reflexivity |].
  rewrite fmap_cons. simpl. destruct (p (f a)); rewrite IH; reflexivity.
Qed.

Lemma Contains_empty (s : string) : Contains s "" = true.
Proof. now destruct s. Qed.

Section SearchFacts.

Context {text : GoText}.

Lemma matchesFilter_url (e : Entries) (pattern : string) :
  matchesFilter e
    (mkFilterOptions pattern "" 0 0 0 "" Time_zero Time_zero 0%float 0%float ""
       false "" "" "" "" false)
  = Contains (Request_URL (Entries_Request e)) pattern.
Proof.
  unfold matchesFilter; simpl.
  destruct (String.eqb_spec pattern "") as [-> | Hp]; simpl.
  - now rewrite Contains_empty.
  - now destruct (Contains _ pattern).
Qed.

(** X14.  Searching the compact form of an archive finds the compact
    forms of the entries that the finders of the canonical form find:
    [SearchByURL] those of [FindByURL] without regular expression, for any
    pattern, and [SearchByStatusCode] those of [FindByStatusCode], for a
    positive status.  For a status that is not positive, [SearchByStatusCode]
    still compares the status, where [FindByStatusCode] returns every
    entry. *)
Theorem Search_agrees_with_Find (h : Har) (pattern : string) (code : Z) :
  elems (OptimizedHar_SearchByURL (ToOptimizedHar h) pattern)
  = convertToOptimizedEntry
      <$> elems (FilterResult_Entries (Har_FindByURL h pattern false))
  /\ elems (OptimizedHar_SearchByStatusCode (ToOptimizedHar h) code)
     = convertToOptimizedEntry
         <$> List.filter
               (fun e => Z.eqb (Response_Status (Entries_Response e)) code)
               (elems (Log_Entries (Har_Log h)))
  /\ (Z.ltb 0 code = true ->
      elems (OptimizedHar_SearchByStatusCode (ToOptimizedHar h) code)
      = convertToOptimizedEntry
          <$> elems (FilterResult_Entries (Har_FindByStatusCode h code))).
Proof.
  assert (Hs : elems (OptimizedHar_SearchByStatusCode (ToOptimizedHar h) code)
               = convertToOptimizedEntry
                   <$> List.filter
                         (fun e => Z.eqb (Response_Status (Entries_Response e)) code)
                         (elems (Log_Entries (Har_Log h)))).
  { unfold OptimizedHar_SearchByStatusCode. rewrite search_elems. simpl.
    now rewrite filter_fmap. }
  split; [| split; [exact Hs |]].
  - unfold OptimizedHar_SearchByURL, Har_FindByURL.
    rewrite search_elems, Har_Filter_elems. simpl. rewrite filter_fmap.
    f_equal. apply List.filter_ext. intros e. now rewrite matchesFilter_url.
  - intros Hc. rewrite Hs. f_equal.
    unfold Har_FindByStatusCode. rewrite Har_Filter_elems.
    apply List.filter_ext. intros e. now rewrite matchesFilter_status, Hc.
Qed.

End SearchFacts.

Lemma headers_of_map_loop (l : list (string * string)) (acc : slice Headers) :
  elems (fold_left
           (fun headers kv =>
              append headers
                {| Headers_Name := fst kv; Headers_Value := snd kv |})
           l acc)
  = (elems acc ++ ((fun kv => mkHeaders (fst kv) (snd kv)) <$> l))%list.
Proof.
  revert acc. induction l as [| kv l IH]; intros acc; simpl.
  - now rewrite app_nil_r.
  - rewrite IH. unfold append; simpl. now rewrite <- app_assoc.
Qed.

Lemma headers_of_map_elems (m : gmap string string) :
  elems (headers_of_map m) = map_to_headers m.
Proof. unfold headers_of_map. now rewrite headers_of_map_loop. Qed.

Lemma or_minus_one_float_ptr (x : float) :
  Optimized.or_minus_one (float_ptr x) = timing_through_interface x.
Proof.
  unfold Optimized.or_minus_one, float_ptr, timing_through_interface.
  now destruct (fnonzero x).
Qed.

Lemma headers_kept_through_interface (hs : slice Headers) :
  headers_kept hs (headers_of_map (headers_to_map hs)).
Proof.
  pose proof (headers_kept_round_trip hs) as H.
  unfold headers_kept in *. rewrite headers_of_map_elems. exact H.
Qed.

Lemma through_interface_kept (e : Entries) :
  entry_through_interface e (through_interface e).
Proof.
  unfold through_interface.
  constructor; simpl; try reflexivity; try apply deref_string_ptr.
  - constructor; simpl; try reflexivity; try apply deref_int_ptr.
    + rewrite GetMethod_String. apply ParseMethod_names.
    + apply headers_kept_through_interface.
  - constructor; simpl; try reflexivity; try apply deref_int_ptr.
    + apply headers_kept_through_interface.
    + destruct (Z.eqb_spec (Content_Size (Response_Content (Entries_Response e))) 0)
        as [Hz | Hz];
        destruct (String.eqb_spec
                    (Content_MimeType (Response_Content (Entries_Response e))) "")
        as [Hm | Hm]; simpl; rewrite ?Hz, ?Hm; reflexivity.
  - constructor; simpl; apply or_minus_one_float_ptr.
Qed.

(** X15.  An archive taken to the compact form and back through the
    provider interface ([OptimizedHar.ToStandard]) keeps its version,
    creator and pages and the number and order of its entries.  Every
    entry keeps its start time, duration, page reference, URL, protocol
    versions, cookies, status, status text, redirect URL, header and body
    sizes and the size and MIME type of its content; its method comes back
    as the upper-case name of one of the nine verbs or as UNKNOWN, and its
    header lists, in some order, as the name/value pairs of the name-keyed
    map, the last value of a name winning.  But each of the seven timings
    that is zero comes back as -1, the content loses its text and
    encoding, and the cache state, the server address, the connection and
    the transfer size come back empty. *)
Theorem interface_round_trip (h : Har) :
  Log_Version (Har_Log (OptimizedHar_ToStandard (ToOptimizedHar h)))
  = Log_Version (Har_Log h)
  /\ Log_Creator (Har_Log (OptimizedHar_ToStandard (ToOptimizedHar h)))
     = Log_Creator (Har_Log h)
  /\ Log_Pages (Har_Log (OptimizedHar_ToStandard (ToOptimizedHar h)))
     = Log_Pages (Har_Log h)
  /\ Forall2 entry_through_interface
       (elems (Log_Entries (Har_Log h)))
       (elems (Log_Entries
                 (Har_Log (OptimizedHar_ToStandard (ToOptimizedHar h))))).
Proof.
  split; [reflexivity |]. split; [reflexivity |]. split; [reflexivity |].
  assert (Hes : elems (Log_Entries
                         (Har_Log (OptimizedHar_ToStandard (ToOptimizedHar h))))
                = through_interface <$> elems (Log_Entries (Har_Log h))).
  { simpl. now rewrite <- list_fmap_compose. }
  rewrite Hes. clear Hes.
  induction (elems (Log_Entries (Har_Log h))) as [| e l IH].
  - constructor.
  - constructor; [apply through_interface_kept | exact IH].
Qed.

(** ** The deferred form: access by index, loading, text *)

Lemma index_expr_in_range {A} (s : slice A) (i : Z) (d : A) :
  0 <= i < len s -> index_expr s i = Some (nth (Z.to_nat i) (elems s) d).
Proof.
  intros [H0 H1]. unfold index_expr, len in *.
  destruct (Z.ltb_spec i 0); [lia |].
  apply nth_error_nth'. lia.
Qed.

(** X16.  [GetEntry] never indexes out of range: it returns the entry at
    the index when the index is at least 0 and below the number of
    entries, and the invalid-value error on the field [index] otherwise.
    [GetResponseText] returns that error for such an index, and leaves the
    archive as it is. *)
Theorem LazyHar_GetEntry_bounds (lh : LazyHar) (index : Z) :
  LazyHar_GetEntry lh index
  = Some (if Z.leb 0 index && Z.ltb index (LazyHar_GetEntriesCount lh)
          then inr (nth (Z.to_nat index)
                      (elems (LazyLog_Entries (LazyHar_Log lh))) zero_LazyEntries)
          else inl (NewInvalidValueError "index" (MetaInt index) "索引超出范围"))
  /\ LazyHar_GetResponseText lh index <> None
  /\ (Z.leb 0 index && Z.ltb index (LazyHar_GetEntriesCount lh) = false ->
      LazyHar_GetResponseText lh index
      = Some (lh, (None,
                   Some (error_HarError
                           (NewInvalidValueError "index" (MetaInt index)
                              "索引超出范围"))))).
Proof.
  assert (H : LazyHar_GetEntry lh index
              = Some (if Z.leb 0 index
                         && Z.ltb index (LazyHar_GetEntriesCount lh)
                      then inr (nth (Z.to_nat index)
                                  (elems (LazyLog_Entries (LazyHar_Log lh)))
                                  zero_LazyEntries)
                      else inl (NewInvalidValueError "index" (MetaInt index)
                                  "索引超出范围"))).
  { unfold LazyHar_GetEntry, LazyHar_GetEntriesCount.
    destruct (Z.ltb_spec index 0) as [Hn | Hn];
      destruct (Z.leb_spec (len (LazyLog_Entries (LazyHar_Log lh))) index)
        as [Hc | Hc];
      destruct (Z.leb_spec 0 index);
      destruct (Z.ltb_spec index (len (LazyLog_Entries (LazyHar_Log lh))));
      simpl; try reflexivity; try lia.
    now rewrite (index_expr_in_range _ _ zero_LazyEntries). }
  split; [exact H |].
  unfold LazyHar_GetResponseText, LazyHar_GetResponseContent. rewrite H.
  destruct (Z.leb 0 index && Z.ltb index (LazyHar_GetEntriesCount lh)).
  - split; [| discriminate].
    destruct (LazyResponse_Content _); [| discriminate].
    destruct (LazyContent_GetText l) as [c' [t e]]. discriminate.
  - split; [discriminate | reflexivity].
Qed.

(** X17.  [Load] is idempotent: loading the content again changes
    nothing and reports the same.  After a load without error, the
    content is marked as loaded; a load that fails leaves the content as
    it was.  [GetText] returns the text that [Load] stores, or the error
    of [Load]. *)
Theorem Load_idempotent (lc : LazyContent) :
  Load (fst (Load lc)) = Load lc
  /\ (snd (Load lc) = None -> LazyContent_loaded (fst (Load lc)) = true)
  /\ (snd (Load lc) <> None -> fst (Load lc) = lc)
  /\ LazyContent_GetText lc
     = (fst (Load lc),
        (match snd (Load lc) with
         | None => LazyContent_Text (fst (Load lc))
         | Some _ => None
         end,
         snd (Load lc))).
Proof.
  unfold LazyContent_GetText, Load.
  destruct (LazyContent_loaded lc) eqn:Hl; simpl.
  - rewrite Hl. intuition congruence.
  - destruct (LazyContent_rawData lc) as [raw |] eqn:Hr; simpl.
    + destruct (unmarshal_FullContent raw (mkFullContent None None)) eqn:Hf;
        simpl.
      * intuition congruence.
      * rewrite Hl, Hr, Hf. intuition congruence.
    + rewrite Hl, Hr. intuition congruence.
Qed.

(** The members that select a text field, decoded into a string and into
    a pointer to a string. *)
Lemma field_string_ptr (name : string) (ms : list (string * json)) :
  never_null name ms ->
  forall (s : string) (p : option string),
    deref p "" = s ->
    match field unmarshal_string name ms s with
    | Some s' =>
        exists p', field (unmarshal_ptr unmarshal_string "") name ms p = Some p'
                   /\ deref p' "" = s'
    | None => field (unmarshal_ptr unmarshal_string "") name ms p = None
    end.
Proof.
  unfold field. intros Hn.
  assert (Hnone : forall l : list (string * json),
             fold_left
               (fun (acc : option (option string)) kv =>
                  if key_is name (fst kv)
                  then match acc with
                       | Some x => unmarshal_ptr unmarshal_string "" (snd kv) x
                       | None => None
                       end
                  else acc) l None = None).
  { induction l as [| kv l IH]; simpl; [reflexivity |].
    now destruct (key_is name (fst kv)). }
  assert (Hnone' : forall l : list (string * json),
             fold_left
               (fun (acc : option string) kv =>
                  if key_is name (fst kv)
                  then match acc with
                       | Some x => unmarshal_string (snd kv) x
                       | None => None
                       end
                  else acc) l None = None).
  { induction l as [| kv l IH]; simpl; [reflexivity |].
    now destruct (key_is name (fst kv)). }
  induction Hn as [| kv ms Hkv Hms IH]; intros s p Hp; simpl.
  - eauto.
  - unfold selects in Hkv. destruct (key_is name (fst kv)) eqn:Hk.
    + specialize (Hkv eq_refl).
      destruct (snd kv) eqn:Hv; simpl; try contradiction;
        try (rewrite Hnone, Hnone'; reflexivity).
      apply IH. reflexivity.
    + now apply IH.
Qed.

(** X18.  A content object that decodes both as a [Content] and as a
    [LazyContent], and in which no [text] or [encoding] member is [null]:
    the deferred content has the size and the MIME type of the strict one,
    its [Load] succeeds, and [GetText] and the loaded encoding give the
    text and the encoding of the strict content (nil for the empty
    text). *)
Theorem lazy_text_is_strict_text (ms : list (string * json)) (c : Content)
    (lc : LazyContent) :
  never_null "text" ms ->
  never_null "encoding" ms ->
  unmarshal_Content (JObj ms) zero_Content = Some c ->
  LazyContent_UnmarshalJSON (JObj ms) zero_LazyContent = Some lc ->
  LazyContent_Size lc = Content_Size c
  /\ LazyContent_MimeType lc = Content_MimeType c
  /\ exists (lc' : LazyContent) (text : option string),
      LazyContent_GetText lc = (lc', (text, None))
      /\ deref text "" = Content_Text c
      /\ deref (LazyContent_Encoding lc') "" = Content_Encoding c
      /\ LazyContent_loaded lc' = true.
Proof.
  intros Ht He Hc Hl.
  unfold unmarshal_Content, unmarshal_struct in Hc. simpl in Hc.
  destruct (field unmarshal_int "size" ms 0) as [a |] eqn:Ha;
    [| discriminate Hc].
  destruct (field unmarshal_string "mimeType" ms "") as [b |] eqn:Hb;
    [| discriminate Hc].
  destruct (field unmarshal_string "text" ms "") as [t |] eqn:Htx;
    [| discriminate Hc].
  destruct (field unmarshal_string "encoding" ms "") as [e |] eqn:Hen;
    [| discriminate Hc].
  simpl in Hc. injection Hc as <-.
  unfold LazyContent_UnmarshalJSON, unmarshal_BasicContent, unmarshal_struct
    in Hl. simpl in Hl. rewrite Ha, Hb in Hl. simpl in Hl.
  destruct (field unmarshal_string "comment" ms "") as [cm |];
    [| discriminate Hl].
  simpl in Hl. injection Hl as <-. simpl.
  split; [reflexivity |]. split; [reflexivity |].
  pose proof (field_string_ptr "text" ms Ht "" None eq_refl) as Hpt.
  rewrite Htx in Hpt. destruct Hpt as (pt & Hpt & Hdt).
  pose proof (field_string_ptr "encoding" ms He "" None eq_refl) as Hpe.
  rewrite Hen in Hpe. destruct Hpe as (pe & Hpe & Hde).
  unfold LazyContent_GetText, Load; simpl.
  unfold unmarshal_FullContent, unmarshal_struct; simpl.
  rewrite Hpt, Hpe; simpl.
  eexists _, _. split; [reflexivity |]. simpl. auto.
Qed.

(** ** Warnings *)

Lemma map_flag_insert (m : gmap string bool) (key k : string) :
  map_flag (<[key := true]> m) k = true <-> k = key \/ map_flag m k = true.
Proof.
  unfold map_flag. destruct (decide (key = k)) as [-> | Hne].
  - rewrite lookup_insert_eq. tauto.
  - rewrite lookup_insert_ne by exact Hne. split; [tauto |].
    intros [-> | H]; [contradiction | exact H].
Qed.

Lemma warning_map_keys (l : list HarError) :
  forall (m : gmap string bool) (keys : list string),
    (forall k, map_flag m k = true <-> k ∈ keys) ->
    forall k,
      map_flag (fold_left (fun m warn => <[warning_key warn := true]> m) l m) k
      = true
      <-> k ∈ (keys ++ (warning_key <$> l))%list.
Proof.
  induction l as [| w l IH]; intros m keys Hm k; simpl.
  - rewrite app_nil_r. apply Hm.
  - rewrite (IH _ (keys ++ [warning_key w])%list).
    + rewrite <- app_assoc. reflexivity.
    + intros k'. rewrite map_flag_insert, Hm, elem_of_app, list_elem_of_singleton.
      tauto.
Qed.

(** The loop of [appendWarnings] over the new warnings. *)
Lemma appendWarnings_loop (new : list HarError) :
  forall (acc : list HarError) (m : gmap string bool),
    distinct_keys acc ->
    (forall k, map_flag m k = true <-> k ∈ (warning_key <$> acc)) ->
    exists added : list HarError,
      fst (fold_left
             (fun (st : slice HarError * gmap string bool) warn =>
                let key := warning_key warn in
                if negb (map_flag (snd st) key)
                then (append (fst st) warn, <[key := true]> (snd st))
                else st)
             new (Some acc, m))
      = Some (acc ++ added)%list
      /\ distinct_keys (acc ++ added)
      /\ (forall w, w ∈ new -> warning_key w ∈ (warning_key <$> (acc ++ added)%list))
      /\ (forall w, w ∈ added -> w ∈ new).
Proof.
  induction new as [| w new IH]; intros acc m Hd Hm; simpl.
  - exists []. rewrite app_nil_r. repeat split; try assumption.
    + intros w Hw. now apply elem_of_nil in Hw.
    + intros w Hw. now apply elem_of_nil in Hw.
  - destruct (map_flag m (warning_key w)) eqn:Hf; simpl.
    + destruct (IH acc m Hd Hm) as (added & He & Hd' & Hk & Ha).
      exists added. repeat split; try assumption.
      * intros w' Hw'. apply elem_of_cons in Hw'. destruct Hw' as [-> | Hw'].
        -- rewrite fmap_app, elem_of_app. left. now apply Hm.
        -- now apply Hk.
      * intros w' Hw'. apply elem_of_cons. right. now apply Ha.
    + unfold append; simpl.
      destruct (IH (acc ++ [w])%list (<[warning_key w := true]> m))
        as (added & He & Hd' & Hk & Ha).
      * unfold distinct_keys. rewrite fmap_app. simpl.
        apply NoDup_app. split; [exact Hd |]. split.
        -- intros k Hk Hk'. apply list_elem_of_singleton in Hk'. subst k.
           apply Hm in Hk. congruence.
        -- apply NoDup_singleton.
      * intros k. rewrite map_flag_insert, Hm, fmap_app, elem_of_app.
        simpl. rewrite list_elem_of_singleton. tauto.
      * exists (w :: added). rewrite <- app_assoc in He, Hd', Hk. simpl in *.
        repeat split; try assumption.
        -- intros w' Hw'. apply elem_of_cons in Hw'. destruct Hw' as [-> | Hw'].
           ++ rewrite fmap_app, elem_of_app. right. simpl. apply elem_of_cons.
              now left.
           ++ now apply Hk.
        -- intros w' Hw'. apply elem_of_cons in Hw'. destruct Hw' as [-> | Hw'].
           ++ apply elem_of_cons. now left.
           ++ apply elem_of_cons. right. now apply Ha.
Qed.

Lemma appendWarnings_some (l : list HarError) (new : slice HarError) :
  distinct_keys l ->
  exists added : list HarError,
    appendWarnings (Some l) new = Some (l ++ added)%list
    /\ distinct_keys (l ++ added)
    /\ (forall w, w ∈ elems new ->
                  warning_key w ∈ (warning_key <$> (l ++ added)%list))
    /\ (forall w, w ∈ added -> w ∈ elems new).
Proof.
  intros Hd. unfold appendWarnings.
  destruct (Z.eqb_spec (len new) 0) as [Hz | Hz].
  - exists []. rewrite app_nil_r. repeat split; try assumption.
    + intros w Hw. unfold len in Hz. destruct (elems new); [| simpl in Hz; lia].
      now apply elem_of_nil in Hw.
    + intros w Hw. now apply elem_of_nil in Hw.
  - apply appendWarnings_loop; [exact Hd |].
    intros k. simpl.
    rewrite (warning_map_keys l ∅ []); [reflexivity |].
    intros k'. unfold map_flag. rewrite lookup_empty. split; [discriminate |].
    intros H. now apply elem_of_nil in H.
Qed.

(** X19.  [appendWarnings] compares warnings by their key, which is the
    field, a colon and the message joined into one text; a colon in a
    field or in a message gives warnings of different fields and messages
    the same key.  On an existing
    list without two warnings of the same key, the result is the existing
    list followed by warnings of the new list, no two warnings of the
    result have the same key, and the key of every new warning is the key
    of a warning of the result.  When the existing slice is nil, the new
    warnings are returned as they are, without this filtering; when there
    is no new warning, the existing slice is returned. *)
Theorem appendWarnings_deduplicates (l : list HarError) (new : slice HarError) :
  distinct_keys l ->
  (exists added : list HarError,
      appendWarnings (Some l) new = Some (l ++ added)%list
      /\ distinct_keys (l ++ added)
      /\ (forall w, w ∈ elems new ->
                    warning_key w ∈ (warning_key <$> (l ++ added)%list))
      /\ (forall w, w ∈ added -> w ∈ elems new))
  /\ appendWarnings None new = (if Z.eqb (len new) 0 then None else new)
  /\ appendWarnings (Some l) None = Some l
  /\ (forall (code : ErrorCode) (f m c : string),
        warning_key (mkHarError code c None (f ++ ":" ++ m) [] [])
        = warning_key (mkHarError code (m ++ ":" ++ c) None f [] [])).
Proof.
  intros Hd. split; [now apply appendWarnings_some |].
  split; [reflexivity |]. split; [reflexivity |].
  intros code f m c. unfold warning_key. simpl.
  now rewrite !string_app_assoc.
Qed.

Section WarningFacts.

Context {stdlib : GoStdlib}.

Lemma ValidateHarFile_error_partial (h : Har) (e : HarError) :
  ValidateHarFile (Some h) = Some e -> PartialErrors e <> [].
Proof.
  rewrite ValidateHarFile_result.
  destruct (basic_violations h); [destruct (content_violations h) |];
    intros H; try discriminate H; injection H as <-; discriminate.
Qed.

Lemma ParseHarWithOptions_archive (b : string) (po : ParseOptions)
    (har : option Har) (err : option HarError) :
  ParseHarWithOptions b po = (har, err) -> har = None -> err <> None.
Proof.
  intros H ->. destruct err; [discriminate |].
  apply ParseHarWithOptions_success in H. now destruct H.
Qed.

(** The warnings after the URL check and the full validation, from the
    warnings [l0] of the decoding. *)
Lemma warnings_after_checks (h : Har) (l0 : list HarError) :
  distinct_keys l0 ->
  forall w1 w2 : slice HarError,
    w1 = (if Z.ltb 0 (len (validateURLs (Some h)))
          then appendWarnings (Some l0) (validateURLs (Some h))
          else Some l0) ->
    w2 = (if Z.eqb (len w1) 0
          then appendWarnings w1 (performFullValidation (Some h))
          else w1) ->
    (exists l, w2 = Some l /\ distinct_keys l)
    /\ (len w2 = 0 -> ValidateHarFile (Some h) = None).
Proof.
  intros Hd0 w1 w2 Hw1 Hw2.
  assert (Hu : exists l1, w1 = Some l1 /\ distinct_keys l1).
  { rewrite Hw1. destruct (Z.ltb 0 (len (validateURLs (Some h)))).
    - destruct (appendWarnings_some l0 (validateURLs (Some h)) Hd0)
        as (added & Ha & Hd & _).
      eauto.
    - eauto. }
  destruct Hu as (l1 & -> & Hd1).
  destruct (appendWarnings_some l1 (performFullValidation (Some h)) Hd1)
    as (added & Ha & Hd & Hk & _).
  rewrite Hw2. split.
  - destruct (Z.eqb (len (Some l1)) 0); [rewrite Ha |]; eauto.
  - destruct (Z.eqb_spec (len (Some l1)) 0) as [Hz | Hz];
      [| intros Hlen; contradiction].
    rewrite Ha. intros Hlen.
    unfold performFullValidation in Hk.
    destruct (ValidateHarFile (Some h)) as [e |] eqn:Hv; [| reflexivity].
    exfalso. apply ValidateHarFile_error_partial in Hv.
    unfold GetPartialErrors in Hk.
    destruct (PartialErrors e) as [| x xs]; [contradiction |].
    specialize (Hk x). simpl in Hk.
    assert (Hin : warning_key x ∈ (warning_key <$> (l1 ++ added)%list)).
    { apply Hk. apply elem_of_cons. now left. }
    unfold len in Hlen. simpl in Hlen.
    destruct (l1 ++ added)%list; [| simpl in Hlen; lia].
    now apply elem_of_nil in Hin.
Qed.

(** X20.  When [ParseHarWithWarnings] returns a result, the result holds
    an archive, no two of its warnings have the same field and message,
    and, when it has no warning at all, [ValidateHarFile] accepts its
    archive.  It returns no result exactly when [ParseHarLenient] returns
    no archive, and then with the error of [ParseHarLenient]. *)
Theorem ParseHarWithWarnings_sound (b : string) :
  (forall res : Result,
      fst (ParseHarWithWarnings b) = Some res ->
      snd (ParseHarWithWarnings b) = None
      /\ (exists h, Result_Har res = Some h)
      /\ (exists l, Result_Warnings res = Some l /\ distinct_keys l)
      /\ (len (Result_Warnings res) = 0 ->
          ValidateHarFile (Result_Har res) = None))
  /\ (fst (ParseHarWithWarnings b) = None <-> fst (ParseHarLenient b) = None)
  /\ (fst (ParseHarWithWarnings b) = None ->
      snd (ParseHarWithWarnings b) = snd (ParseHarLenient b)
      /\ snd (ParseHarWithWarnings b) <> None).
Proof.
  unfold ParseHarWithWarnings, ParseHarLenient.
  destruct (ParseHarWithOptions b _) as [har err] eqn:Hp.
  destruct har as [h |].
  - (* an archive was decoded *)
    assert (Hw : exists l0,
               match err with
               | Some harErr =>
                   appendWarnings (Some [])
                     (slice_of_list (GetPartialErrors harErr))
               | None => Some []
               end = Some l0 /\ distinct_keys l0).
    { destruct err as [e |].
      - destruct (appendWarnings_some [] (slice_of_list (GetPartialErrors e)))
          as (added & Ha & Hd & _); [constructor |].
        exists ([] ++ added)%list. now split.
      - exists []. split; [reflexivity | constructor]. }
    destruct Hw as (l0 & Hl0 & Hd0).
    cbv zeta.
    destruct err as [e |]; [rewrite Hl0 | injection Hl0 as <-]; simpl;
      (split; [| split; [split; discriminate | discriminate]]);
      intros res Hres; injection Hres as <-; simpl;
      (split; [reflexivity |]); (split; [eauto |]);
      eapply warnings_after_checks; try eassumption; reflexivity.
  - (* no archive *)
    pose proof (ParseHarWithOptions_archive _ _ _ _ Hp eq_refl) as He.
    destruct err as [e |]; [| contradiction]. simpl.
    split; [| split].
    + discriminate.
    + tauto.
    + intros _. split; [reflexivity | discriminate].
Qed.

End WarningFacts.

(** ** All entries of a stream *)

(** A decoded value takes at least one token. *)
Lemma parse_value_shrinks (ts : list token) :
  forall (stack : list frame) (j : json) (rest : list token),
    parse_value stack ts = Some (j, rest) ->
    (length rest < length ts)%nat.
Proof.
  induction ts as [| t r IH]; intros stack j rest; [discriminate |].
  assert (Hrec : forall st, parse_value st r = Some (j, rest) ->
                            (length rest < length (t :: r))%nat).
  { intros st H. apply IH in H. simpl. lia. }
  assert (Hred : forall st v,
             match st with
             | [] => Some (v, r)
             | FArr done :: st' => parse_value (FArr (v :: done) :: st') r
             | FVal done k :: st' => parse_value (FKey ((k, v) :: done) :: st') r
             | FKey _ :: _ => None
             end = Some (j, rest) ->
             (length rest < length (t :: r))%nat).
  { intros [| [done | done | done k] st'] v H; try discriminate H.
    - injection H as <- <-. simpl. lia.
    - now apply Hrec in H.
    - now apply Hrec in H. }
  simpl parse_value.
  destruct t as [c | | b | i f | s]; destruct stack as [| [done | done | done k] st'];
    repeat match goal with
           | |- context [if ?c then _ else _] => destruct c
           end;
    intros H; try discriminate H;
    try (apply Hrec in H; exact H);
    try (apply (Hred _ _ H));
    injection H as <- <-; simpl; lia.
Qed.

Lemma find_entries_length (ts : list token) (eof : GoError) :
  (length (fst (find_entries ts eof)) <= length ts)%nat.
Proof.
  induction ts as [| t r IH]; [simpl; lia |].
  simpl. destruct t as [c | | b | i f | s]; try (simpl in *; lia).
  destruct (String.eqb s "entries"); [| simpl in *; lia].
  destruct r as [| t' r']; [simpl; lia |].
  destruct t' as [c | | b | i f | s']; try (simpl; lia).
  destruct (Ascii.eqb c "["); simpl; lia.
Qed.




Section StreamingAllFacts.

Context {stdlib : GoStdlib}.

(** A call of [Next] that answers true has taken a token. *)
Lemma Next_true_shrinks (it it' : StreamingEntryIterator) :
  Next it = (it', true) ->
  (length (pending (it_decoder it')) < length (pending (it_decoder it)))%nat.
Proof.
  unfold Next.
  destruct (it_closed it || bool_decide (is_Some (it_err it)));
    [intros H; discriminate H |].
  assert (Hscan :
            (length (fst (if Z.eqb (it_currentPos it) 0
                          then find_entries (pending (it_decoder it))
                                 (at_end (it_decoder it))
                          else (pending (it_decoder it), None)))
             <= length (pending (it_decoder it)))%nat).
  { destruct (Z.eqb (it_currentPos it) 0);
      [apply find_entries_length | simpl; lia]. }
  destruct (if Z.eqb (it_currentPos it) 0 then _ else _) as [ts scan_err].
  simpl in Hscan.
  destruct scan_err; [intros H; discriminate H |].
  destruct (negb (More _)); [intros H; discriminate H |].
  unfold Decode_Entries. simpl pending.
  destruct (parse_value [] ts) as [[j rest] |] eqn:Hp;
    [| intros H; discriminate H].
  apply parse_value_shrinks in Hp.
  destruct (unmarshal_Entries j zero_Entries); intros H;
    [| discriminate H].
  injection H as <-. simpl. lia.
Qed.

(** The loop ends when it is given more calls than there are tokens. *)
Lemma GetAllEntries_loop_ends (fuel : nat) :
  forall (it : StreamingEntryIterator) (entries : slice Entries),
    (length (pending (it_decoder it)) < fuel)%nat ->
    exists r, GetAllEntries_loop fuel it entries = Some r.
Proof.
  induction fuel as [| k IH]; intros it entries Hlen; [lia |].
  simpl. destruct (Next it) as [it' b] eqn:Hn.
  destruct b; [| eauto].
  apply Next_true_shrinks in Hn. apply IH. lia.
Qed.



(** X22.  [GetAllEntries] returns for every stream: each call of [Next]
    that answers true has taken a token, so that the loop ends.  For a
    stream without data, as the file-backed constructor leaves it, the
    result is the nil slice and the nil error: the end of input that the
    first call of [Next] meets is not reported. *)
Theorem GetAllEntries_returns (sh : StreamingHar) :
  (exists (entries : slice Entries) (err : option GoError),
      GetAllEntries sh = Some (entries, err))
  /\ (if Nat.eqb (String.length (StreamingHar_data sh)) 0
      then GetAllEntries sh = Some (None, None)
           /\ it_err (fst (Next (StreamingHar_Entries sh))) = Some io_EOF
      else True).
Proof.
  split.
  - unfold GetAllEntries. cbv zeta.
    destruct (GetAllEntries_loop_ends
                (S (length (pending (it_decoder (StreamingHar_Entries sh)))))
                (StreamingHar_Entries sh) None) as [[entries it'] Hr]; [lia |].
    rewrite Hr. eauto.
  - destruct (Nat.eqb (String.length (StreamingHar_data sh)) 0) eqn:Hz;
      [| exact I].
    unfold GetAllEntries, StreamingHar_Entries, NewDecoder. rewrite Hz.
    split; reflexivity.
Qed.

End StreamingAllFacts.

(** ** What the validator accepts *)

Section AcceptFacts.

Context {stdlib : GoStdlib} {text : GoText}.

(** X23.  [ValidateHarFile] returns nil exactly on the archives with a
    version among 1.1, 1.2 and 1.3, a creator name and version, an entries
    slice that is not nil, and entries and pages that meet the conditions of
    [Entries_valid] and [Pages_valid].  Every error it returns for an
    archive has the code VALIDATION and at least one partial error; the
    nil archive gets an INVALID_FORMAT error without partial errors. *)
Theorem ValidateHarFile_accepts (h : Har) :
  (ValidateHarFile (Some h) = None <-> Har_valid h)
  /\ (forall e, ValidateHarFile (Some h) = Some e ->
                Code e = ErrCodeValidation /\ PartialErrors e <> [])
  /\ (exists e, ValidateHarFile None = Some e
                /\ Code e = ErrCodeInvalidFormat /\ PartialErrors e = []).
Proof.
  split; [apply ValidateHarFile_Har_valid |]. split.
  - intros e. rewrite ValidateHarFile_result.
    destruct (basic_violations h); [destruct (content_violations h) |];
      intros H; try discriminate H; injection H as <-;
      (split; [reflexivity | discriminate]).
  - eexists. split; [reflexivity |]. split; reflexivity.
Qed.

Lemma Forall_list_filter {A} (P : A -> Prop) (p : A -> bool) (l : list A) :
  Forall P l -> Forall P (List.filter p l).
Proof.
  induction 1 as [| a l Ha _ IH]; simpl; [constructor |].
  destruct (p a); [constructor |]; assumption.
Qed.

Lemma filter_existsb {A} (p : A -> bool) (l : list A) :
  existsb p l = match List.filter p l with [] => false | _ => true end.
Proof.
  induction l as [| a l IH]; simpl; [reflexivity |].
  destruct (p a); simpl; [reflexivity | exact IH].
Qed.

(** X24.  The archive that [ToHar] makes of a filter result, for a valid
    archive: [ValidateHarFile] accepts it when some entry matches the
    options; when none does, the entries slice of the result is nil and
    [ValidateHarFile] reports the entries as missing. *)
Theorem Filter_result_validity (h : Har) (o : FilterOptions) :
  ValidateHarFile (Some h) = None ->
  ValidateHarFile (Some (FilterResult_ToHar (Har_Filter h o)))
  = (if existsb (fun e => matchesFilter e o) (elems (Log_Entries (Har_Log h)))
     then None
     else Some (with_partial validation_root
                  [NewMissingFieldError "log.entries"])).
Proof.
  intros Hv. apply ValidateHarFile_Har_valid in Hv.
  destruct Hv as (_ & _ & _ & _ & Hes & _).
  rewrite filter_existsb.
  pose proof (Har_Filter_entries h o) as He.
  pose proof (Forall_list_filter _ (fun e => matchesFilter e o) _ Hes) as Hf.
  destruct (List.filter _ _) as [| m ms] eqn:Hl.
  - unfold FilterResult_ToHar. rewrite He. reflexivity.
  - apply ValidateHarFile_Har_valid. unfold Har_valid, FilterResult_ToHar.
    cbn [Har_Log Log_Version Log_Creator Log_Pages Log_Entries].
    rewrite He. simpl.
    repeat split; try discriminate; try assumption. constructor.
Qed.

End AcceptFacts.

(** ** The conversions of the deferred provider *)

(** [Load] changes neither the size nor the MIME type. *)
Lemma Load_basic (c c' : LazyContent) (err : option GoError) :
  Load c = (c', err) ->
  LazyContent_Size c' = LazyContent_Size c
  /\ LazyContent_MimeType c' = LazyContent_MimeType c.
Proof.
  unfold Load. destruct (LazyContent_loaded c).
  - intros H. injection H as <- _. now split.
  - destruct (LazyContent_rawData c) as [raw |].
    + destruct (unmarshal_FullContent raw _); intros H; injection H as <- _;
        now split.
    + intros H. injection H as <- _. now split.
Qed.

Lemma lazyEntry_ToStandard_copies (e e' : LazyEntries) (x : Entries) :
  lazyEntry_ToStandard e = (e', inr x) ->
  LazyEntries_ToStandard e = without_extras x
  /\ LazyEntries_ToStandard e' = LazyEntries_ToStandard e.
Proof.
  unfold lazyEntry_ToStandard, LazyEntries_ToStandard, LazyResponse_ToStandard,
    without_extras.
  destruct (LazyResponse_Content (LazyEntries_Response e)) as [c |] eqn:Hc.
  - destruct (Load c) as [c' [err |]] eqn:Hl; intros H; [discriminate H |].
    injection H as <- <-. simpl.
    destruct (Load_basic c c' None Hl) as [-> ->]. now split.
  - intros H. injection H as <- <-. simpl. rewrite Hc. now split.
Qed.

Lemma lazyEntries_ToStandard_copies (es : list LazyEntries) :
  forall (es' : list LazyEntries) (xs : list Entries),
    lazyEntries_ToStandard es = (es', inr xs) ->
    LazyEntries_ToStandard <$> es = without_extras <$> xs
    /\ LazyEntries_ToStandard <$> es' = LazyEntries_ToStandard <$> es.
Proof.
  induction es as [| e es IH]; intros es' xs; simpl.
  - intros H. injection H as <- <-. now split.
  - destruct (lazyEntry_ToStandard e) as [e' [err | x]] eqn:He;
      [intros H; discriminate H |].
    destruct (lazyEntries_ToStandard es) as [r' [err | xs']] eqn:Hes;
      [intros H; discriminate H |].
    intros H. injection H as <- <-.
    destruct (lazyEntry_ToStandard_copies e e' x He) as [H1 H2].
    destruct (IH r' xs' eq_refl) as [H3 H4].
    rewrite !fmap_cons. split; f_equal; assumption.
Qed.

(** X25.  When [ToStandardHar] succeeds on a deferred archive, the
    [ToStandard] of each of its entries is the entry of the result without
    the server address, the connection, the initiator, the priority and
    the resource type, which [LazyEntries.ToStandard] does not copy; it is
    the same before and after the call, which loads the contents; and
    [LazyHar.ToStandard] returns the archive of [ToStandardHar]. *)
Theorem LazyEntries_ToStandard_drops (lh lh' : LazyHar) (h : Har) :
  LazyHar_ToStandardHar lh = (lh', inr h) ->
  LazyEntries_ToStandard <$> elems (LazyLog_Entries (LazyHar_Log lh))
  = without_extras <$> elems (Log_Entries (Har_Log h))
  /\ LazyEntries_ToStandard <$> elems (LazyLog_Entries (LazyHar_Log lh'))
     = LazyEntries_ToStandard <$> elems (LazyLog_Entries (LazyHar_Log lh))
  /\ LazyHar_ToStandard lh = (lh', Some h).
Proof.
  intros H. unfold LazyHar_ToStandard. rewrite H.
  unfold LazyHar_ToStandardHar in H.
  destruct (lazyEntries_ToStandard _) as [es [err | xs]] eqn:Hes;
    [discriminate H |].
  injection H as <- <-. simpl.
  destruct (lazyEntries_ToStandard_copies _ es xs Hes) as [H1 H2].
  split; [exact H1 |]. split; [| reflexivity].
  destruct (LazyLog_Entries (LazyHar_Log lh)) as [l |]; simpl in *;
    [exact H2 |].
  injection Hes as <- _. reflexivity.
Qed.

(** The theorem on the deferred archive of the document of one entry. *)
Lemma LazyEntries_ToStandard_drops_witness :
  exists (lh lh' : LazyHar) (h : Har),
    @ParseHarWithLazyLoading Examples.example_stdlib
      (Examples.render Examples.doc_one) = inr lh
    /\ LazyHar_ToStandardHar lh = (lh', inr h)
    /\ LazyEntries_ToStandard <$> elems (LazyLog_Entries (LazyHar_Log lh))
       = without_extras <$> elems (Log_Entries (Har_Log h))
    /\ LazyHar_ToStandard lh = (lh', Some h).
Proof.
  do 3 eexists.
  split; [vm_compute; reflexivity |].
  refine ((fun Hc => conj Hc
             match LazyEntries_ToStandard_drops _ _ _ Hc with
             | conj H1 (conj _ H3) => conj H1 H3
             end) _).
  vm_compute; reflexivity.
Defined.

(** ** The theorems on the examples *)

(** The theorem on the built archive and a pattern that does not
    compile. *)
Lemma Filter_ignores_bad_regex_witness :
  FilterOptions_UseRegex TextExamples.bad_pattern = true
  /\ @regexp_Compile TextExamples.example_text
       (FilterOptions_URL TextExamples.bad_pattern) = None
  /\ @Har_Filter TextExamples.example_text TextExamples.built_har
       TextExamples.bad_pattern
     = @Har_Filter TextExamples.example_text TextExamples.built_har
         (FilterOptions_without_URL TextExamples.bad_pattern)
  /\ elems (FilterResult_Entries
              (@Har_FindByURL TextExamples.example_text TextExamples.built_har
                 (FilterOptions_URL TextExamples.bad_pattern) true))
     = elems (Log_Entries (Har_Log TextExamples.built_har)).
Proof.
  split; [reflexivity |]. split; [reflexivity |].
  apply (@Filter_ignores_bad_regex TextExamples.example_text
           TextExamples.built_har TextExamples.bad_pattern);
    reflexivity.
Defined.

(** The theorem on the archive of [NewHar]. *)
Lemma AddEntry_needs_completion_witness :
  @ValidateHarFile Examples.example_stdlib (Some NewHar) = None
  /\ exists err : HarError,
      @ValidateHarFile Examples.example_stdlib
        (Some (fst (Har_AddEntry Examples.ex_instant NewHar "GET"
                      Examples.ex_url "HTTP/1.1" "")))
      = Some err
      /\ Code err = ErrCodeValidation
      /\ forall x : HarError,
          In x (fresh_entry_violations (len (Log_Entries (Har_Log NewHar)))) ->
          In x (PartialErrors err).
Proof.
  split; [vm_compute; reflexivity |].
  apply (@AddEntry_needs_completion Examples.example_stdlib
           Examples.ex_instant NewHar "GET" Examples.ex_url "HTTP/1.1" "").
  vm_compute; reflexivity.
Defined.

(** The theorem on the archive of [NewHar] and the entry of the built
    archive. *)
Lemma built_entry_validates_witness :
  @ValidateHarFile Examples.example_stdlib (Some NewHar) = None
  /\ (@ValidateHarFile Examples.example_stdlib (Some TextExamples.built_har)
      = None
      <-> @entry_arguments_valid Examples.example_stdlib Examples.ex_instant
            "GET" Examples.ex_url "HTTP/1.1" 200 "text/plain" 1 1 = true).
Proof.
  split; [vm_compute; reflexivity |].
  apply (@built_entry_validates Examples.example_stdlib
           Examples.ex_instant NewHar "GET" Examples.ex_url "HTTP/1.1" ""
           200 "OK" 5 "text/plain" 1 1 1 1 1 1 0).
  vm_compute; reflexivity.
Defined.

(** The theorem on a completed entry and the default options. *)
Lemma createDataRow_columns_witness :
  len (ConvertOptions_Headers DefaultConvertOptions) = 0
  /\ length (elems (@createDataRow TextExamples.example_text
                      (complete_entry 200 "OK" 5 "text/plain" 1 1 1 1 1 1 0
                         zero_Entries)
                      DefaultConvertOptions))
     = length (elems (getHeaders DefaultConvertOptions)).
Proof.
  split; [reflexivity |].
  apply (@createDataRow_columns TextExamples.example_text
           (complete_entry 200 "OK" 5 "text/plain" 1 1 1 1 1 1 0 zero_Entries)
           DefaultConvertOptions true).
  reflexivity.
Defined.

(** The theorem on the document of one entry and the preset
    [OptPerformance]. *)
Lemma Parse_memory_optimized_witness :
  In WithMemoryOptimized OptPerformance
  /\ ~ In WithStreaming OptPerformance
  /\ @Parse Examples.example_stdlib (Examples.render Examples.doc_one)
       OptPerformance
     = @Parse_optimized Examples.example_stdlib
         (Examples.render Examples.doc_one).
Proof.
  assert (Hm : In WithMemoryOptimized OptPerformance)
    by (unfold OptPerformance; simpl; tauto).
  assert (Hs : ~ In WithStreaming OptPerformance).
  { unfold OptPerformance; simpl.
    intros H; repeat (destruct H as [H | H]; [discriminate H |]); exact H. }
  split; [exact Hm |]. split; [exact Hs |].
  apply (@Parse_memory_optimized Examples.example_stdlib
           (Examples.render Examples.doc_one) OptPerformance Hm Hs).
Defined.

(** The theorem on the content object of the examples. *)
Lemma lazy_text_is_strict_text_witness :
  exists (c : Content) (lc : LazyContent),
    never_null "text" TextExamples.content_members
    /\ never_null "encoding" TextExamples.content_members
    /\ unmarshal_Content (JObj TextExamples.content_members) zero_Content
       = Some c
    /\ LazyContent_UnmarshalJSON (JObj TextExamples.content_members)
         zero_LazyContent = Some lc
    /\ Content_Text c = "hello"
    /\ exists (lc' : LazyContent) (text : option string),
        LazyContent_GetText lc = (lc', (text, None))
        /\ deref text "" = Content_Text c.
Proof.
  assert (Ht : never_null "text" TextExamples.content_members)
    by (repeat constructor; intros _; discriminate).
  assert (He : never_null "encoding" TextExamples.content_members)
    by (repeat constructor; intros _; discriminate).
  exists (mkContent 5 "text/plain" "hello" "").
  eexists.
  split; [exact Ht |]. split; [exact He |].
  split; [reflexivity |]. split; [reflexivity |]. split; [reflexivity |].
  destruct (lazy_text_is_strict_text TextExamples.content_members
              (mkContent 5 "text/plain" "hello" "") _ Ht He eq_refl eq_refl)
    as (_ & _ & lc' & text & Hg & Hd & _).
  exists lc', text. split; [exact Hg | exact Hd].
Defined.

(** The theorem on one existing warning and two new ones, of which the
    first repeats the existing one. *)
Lemma appendWarnings_deduplicates_witness :
  distinct_keys [TextExamples.warning "a" "f"]
  /\ exists added : list HarError,
      appendWarnings (Some [TextExamples.warning "a" "f"])
        (Some [TextExamples.warning "a" "f"; TextExamples.warning "b" "f"])
      = Some ([TextExamples.warning "a" "f"] ++ added)%list
      /\ distinct_keys ([TextExamples.warning "a" "f"] ++ added).
Proof.
  assert (Hd : distinct_keys [TextExamples.warning "a" "f"])
    by apply NoDup_singleton.
  split; [exact Hd |].
  destruct (appendWarnings_deduplicates [TextExamples.warning "a" "f"]
              (Some [TextExamples.warning "a" "f"; TextExamples.warning "b" "f"])
              Hd)
    as ((added & Ha & Hk & _) & _).
  exists added. split; [exact Ha | exact Hk].
Defined.


(** The theorem on the built archive, for the options that every entry
    matches and for a status that no entry has. *)
Lemma Filter_result_validity_witness :
  @ValidateHarFile Examples.example_stdlib (Some TextExamples.built_har) = None
  /\ @ValidateHarFile Examples.example_stdlib
       (Some (FilterResult_ToHar
                (@Har_Filter TextExamples.example_text TextExamples.built_har
                   zero_FilterOptions)))
     = None
  /\ @ValidateHarFile Examples.example_stdlib
       (Some (FilterResult_ToHar
                (@Har_FindByStatusCode TextExamples.example_text
                   TextExamples.built_har 404)))
     = Some (with_partial validation_root [NewMissingFieldError "log.entries"]).
Proof.
  assert (Hv : @ValidateHarFile Examples.example_stdlib
                 (Some TextExamples.built_har) = None)
    by (vm_compute; reflexivity).
  split; [exact Hv |]. split.
  - exact (@Filter_result_validity Examples.example_stdlib
             TextExamples.example_text TextExamples.built_har
             zero_FilterOptions Hv).
  - exact (@Filter_result_validity Examples.example_stdlib
             TextExamples.example_text TextExamples.built_har
             (mkFilterOptions "" "" 404 0 0 "" Time_zero Time_zero
                0%float 0%float "" false "" "" "" "" false) Hv).
Defined.
